(** * prowiiiz: the data-access layer and the task generator

    A shallow embedding of [src/services/database.ts] (project, task,
    membership and invitation operations), of the handlers of [src/App.tsx]
    that call them, of the team selection of [src/components/Wizard.tsx]
    and of the task generator [generateProjectTasks], together with the part
    of the SQL schema these functions run against.

    How the program is modelled:
    - A table is the list of its rows, in insertion order.  A row keeps the
      columns that the modelled functions read or write; the time stamps
      [created_at] and [updated_at] are left out.
    - A request to the hosted backend is answered by the environment: it is
      served (a served insert receives the row identifier produced by
      [gen_random_uuid()]), refused (the reply carries an error and no data:
      transport failure, row-level policy, a constraint on a table that is
      not modelled), or the promise is rejected.  The upcoming answers are
      part of the world, so every function is a state transformer that may
      complete normally or throw.
    - The constraints of the schema on the modelled tables are enforced by
      the served requests: primary keys, [UNIQUE(project_id, user_id)] on
      [project_members], [UNIQUE(project_id, invited_user_id)] and
      [CHECK (role IN ('Member', 'Viewer'))] on [project_invitations],
      [CHECK (progress >= 0 AND progress <= 100)] on [projects], the
      column defaults of [tasks] and the range of its [INTEGER] column
      [position].  Foreign keys and the row-level policies
      are not modelled: a served request is one that they let through.  Of
      the foreign keys, only [ON DELETE CASCADE] on [project_id] is
      modelled, in the deletion of a project.
    - JavaScript numbers are IEEE 754 doubles: the progress computation uses
      the primitive binary64 floats. *)

From Stdlib Require Import ZArith List String Bool Lia.
From Stdlib Require Import Uint63 PrimFloat SpecFloat FloatOps.
From Stdlib Require Import DecimalString DecimalPos DecimalZ.
Import ListNotations.
Open Scope Z_scope.

(** ** Types ([types.ts]) *)

Inductive TaskStatus := TODO | IN_PROGRESS | COMPLETED.
Inductive Priority := LOW | MEDIUM | HIGH.
Inductive ProjectRole := Owner | Member | Viewer.
Inductive InvitationStatus := pending | accepted | declined.

Definition TaskStatus_eqb (a b : TaskStatus) : bool :=
  match a, b with
  | TODO, TODO | IN_PROGRESS, IN_PROGRESS | COMPLETED, COMPLETED => true
  | _, _ => false
  end.

Definition InvitationStatus_eqb (a b : InvitationStatus) : bool :=
  match a, b with
  | pending, pending | accepted, accepted | declined, declined => true
  | _, _ => false
  end.

(** ** JavaScript numbers *)

(** An integer count as a JavaScript number. *)
Definition number_of_nat (n : nat) : float :=
  PrimFloat.of_uint63 (Uint63.of_Z (Z.of_nat n)).

(** [Math.round]: the integer closest to [x], ties towards plus infinity,
    computed on the exact value of the double.  [None] stands for the
    results that are not integers (NaN and the infinities), which are sent
    to the backend as [null]. *)
Definition Math_round (x : float) : option Z :=
  match Prim2SF x with
  | S754_zero _ => Some 0
  | S754_finite s m e =>
      let num := if s then Z.neg m else Z.pos m in
      Some (if 0 <=? e then num * 2 ^ e
            else (2 * num + 2 ^ (- e)) / 2 ^ (1 - e))
  | S754_infinity _ | S754_nan => None
  end.

(** [round(100 * completed / total)] over the rationals, ties upwards: the
    reading of the informal formula, used for comparison only. *)
Definition exact_round_percent (completed total : nat) : Z :=
  (200 * Z.of_nat completed + Z.of_nat total) / (2 * Z.of_nat total).

(** ** The database *)

Module Schema.

(** [projects]: the key and the derived progress. *)
Record ProjectRow := mkProject {
  p_id : string;
  p_progress : option Z
}.

(** [project_members]. *)
Record MemberRow := mkMember {
  m_id : string;
  m_project_id : string;
  m_user_id : string;
  m_role : ProjectRole
}.

(** [tasks]. *)
Record TaskRow := mkTask {
  t_id : string;
  t_project_id : string;
  t_milestone_id : option string;
  t_title : string;
  t_description : option string;
  t_status : TaskStatus;
  t_priority : Priority;
  t_assignee_id : option string;
  t_due_date : option string;
  t_position : option Z
}.

(** [project_invitations]. *)
Record InvitationRow := mkInvitation {
  i_id : string;
  i_project_id : string;
  i_invited_user_id : string;
  i_invited_by : string;
  i_role : ProjectRole;
  i_status : InvitationStatus
}.

Record Database := mkDatabase {
  projects : list ProjectRow;
  project_members : list MemberRow;
  tasks : list TaskRow;
  project_invitations : list InvitationRow
}.

Definition with_projects (d : Database) (ps : list ProjectRow) : Database :=
  mkDatabase ps (project_members d) (tasks d) (project_invitations d).
Definition with_members (d : Database) (ms : list MemberRow) : Database :=
  mkDatabase (projects d) ms (tasks d) (project_invitations d).
Definition with_tasks (d : Database) (ts : list TaskRow) : Database :=
  mkDatabase (projects d) (project_members d) ts (project_invitations d).
Definition with_invitations (d : Database) (rows : list InvitationRow) : Database :=
  mkDatabase (projects d) (project_members d) (tasks d) rows.

End Schema.
Import Schema.

(** ** Requests and their completion *)

Inductive Error :=
| PostgrestError (code : string)   (* the [error] member of a reply *)
| JsError (message : string)       (* [new Error(message)] *)
| Rejection.                       (* a rejected promise *)

(** The reply [{ data, error }] of a request: exactly one of the two is set. *)
Inductive Reply (A : Type) :=
| Data (a : A)
| Failure (e : Error).
Arguments Data {A} a.
Arguments Failure {A} e.

Definition data_of {A} (r : Reply A) : option A :=
  match r with Data a => Some a | Failure _ => None end.

(** What the environment does with one request. *)
Inductive Outcome :=
| Served (uuid : string)
| Refused
| Crashed.

Record World := mkWorld {
  db : Database;
  env : list Outcome
}.

Inductive Completion (A : Type) :=
| Ret (a : A)
| Throw (e : Error).
Arguments Ret {A} a.
Arguments Throw {A} e.

Definition Async (A : Type) : Type := World -> Completion A * World.

Definition ret {A} (a : A) : Async A := fun w => (Ret a, w).
Definition throw {A} (e : Error) : Async A := fun w => (Throw e, w).

Definition bind {A B} (m : Async A) (k : A -> Async B) : Async B :=
  fun w =>
    match m w with
    | (Ret a, w') => k a w'
    | (Throw e, w') => (Throw e, w')
    end.

(** [try { m } catch (error) { h error }] *)
Definition try_catch {A} (m : Async A) (h : Error -> Async A) : Async A :=
  fun w =>
    match m w with
    | (Ret a, w') => (Ret a, w')
    | (Throw e, w') => h e w'
    end.

Declare Scope async_scope.
Delimit Scope async_scope with async.
Notation "x <- m ;; k" := (bind m (fun x => k))
  (at level 61, m at next level, right associativity) : async_scope.
Notation "'await' m ;; k" := (bind m (fun _ => k))
  (at level 61, m at next level, right associativity) : async_scope.
Open Scope async_scope.

(** One request: the query [q] runs on the database when the environment
    serves it; an exhausted environment refuses. *)
Definition request {A} (q : string -> Database -> Reply A * Database)
  : Async (Reply A) :=
  fun w =>
    match env w with
    | [] => (Ret (Failure (PostgrestError "unavailable")), w)
    | Served uuid :: e =>
        let (r, d) := q uuid (db w) in (Ret r, mkWorld d e)
    | Refused :: e =>
        (Ret (Failure (PostgrestError "refused")), mkWorld (db w) e)
    | Crashed :: e => (Throw Rejection, mkWorld (db w) e)
    end.

(** [.single()]: exactly one row, or the error PGRST116. *)
Definition single {A} (rows : list A) : Reply A :=
  match rows with
  | [r] => Data r
  | _ => Failure (PostgrestError "PGRST116")
  end.

(** A query that only reads. *)
Definition reading {A} (f : Database -> Reply A)
  : string -> Database -> Reply A * Database :=
  fun _ d => (f d, d).

(** ** Queries on [tasks] and [projects] *)

(** The insert payload of [createTask]; [None] is a member that is
    [undefined], which the client leaves out of the JSON body, so that the
    column default applies.  (The TypeScript type asks for [status] and
    [priority]; nothing in [createTask] checks them.) *)
Record TaskInsert := mkTaskInsert {
  ins_project_id : string;
  ins_title : string;
  ins_description : option string;
  ins_status : option TaskStatus;
  ins_priority : option Priority;
  ins_assignee_id : option string;
  ins_due_date : option string;
  ins_milestone_id : option string;
  ins_position : option Z
}.

(** The [updateData] object of [updateTask]: the columns to set. *)
Record TaskUpdate := mkTaskUpdate {
  set_title : option string;
  set_description : option string;
  set_status : option TaskStatus;
  set_priority : option Priority;
  set_assignee_id : option string;
  set_due_date : option string;
  set_milestone_id : option string
}.

Definition or_else {A} (new : option A) (old : A) : A :=
  match new with Some a => a | None => old end.

Definition or_keep {A} (new : option A) (old : option A) : option A :=
  match new with Some a => Some a | None => old end.

(** [UPDATE tasks SET ...] on one row. *)
Definition apply_update (u : TaskUpdate) (r : TaskRow) : TaskRow :=
  mkTask (t_id r) (t_project_id r)
    (or_keep (set_milestone_id u) (t_milestone_id r))
    (or_else (set_title u) (t_title r))
    (or_keep (set_description u) (t_description r))
    (or_else (set_status u) (t_status r))
    (or_else (set_priority u) (t_priority r))
    (or_keep (set_assignee_id u) (t_assignee_id r))
    (or_keep (set_due_date u) (t_due_date r))
    (t_position r).

(** [ORDER BY position DESC]: does [a] come strictly before [b]?  Postgres
    puts NULL first in descending order. *)
Definition before_desc (a b : option Z) : bool :=
  match a, b with
  | None, Some _ => true
  | Some x, Some y => y <? x
  | _, None => false
  end.

(** [.order('position', { ascending: false }).limit(1)]: the first row in
    descending order, if there is a row. *)
Fixpoint top_position (ps : list (option Z)) : list (option Z) :=
  match ps with
  | [] => []
  | p :: rest =>
      match top_position rest with
      | q :: _ => if before_desc q p then [q] else [p]
      | [] => [p]
      end
  end.

Definition of_project (projectId : string) (r : TaskRow) : bool :=
  String.eqb (t_project_id r) projectId.

Definition has_task_id (taskId : string) (r : TaskRow) : bool :=
  String.eqb (t_id r) taskId.

(** [from('tasks').select('position').eq('project_id', projectId)
     .order('position', { ascending: false }).limit(1).single()] *)
Definition select_max_position (projectId : string) (d : Database)
  : Reply (option Z) :=
  single (top_position (map t_position (filter (of_project projectId) (tasks d)))).

(** The column [position] is an [INTEGER]: a value outside of the range of
    the type is refused when the body of the request is read, with the
    error 22003 (numeric value out of range). *)
Definition integer_check (n : Z) : bool :=
  (-2147483648 <=? n) && (n <=? 2147483647).

Definition position_check (v : option Z) : bool :=
  match v with
  | Some n => integer_check n
  | None => true
  end.

(** [from('tasks').insert({...}).select().single()] *)
Definition insert_task (v : TaskInsert) (uuid : string) (d : Database)
  : Reply TaskRow * Database :=
  if negb (position_check (ins_position v))
  then (Failure (PostgrestError "22003"), d)
  else if existsb (has_task_id uuid) (tasks d)
  then (Failure (PostgrestError "23505"), d)
  else
    let row :=
      mkTask uuid (ins_project_id v) (ins_milestone_id v) (ins_title v)
        (ins_description v)
        (or_else (ins_status v) TODO)        (* DEFAULT 'Todo' *)
        (or_else (ins_priority v) MEDIUM)    (* DEFAULT 'Medium' *)
        (ins_assignee_id v) (ins_due_date v)
        (or_keep (ins_position v) (Some 0))  (* DEFAULT 0 *) in
    (Data row, with_tasks d (tasks d ++ [row])).

(** [from('tasks').update(updateData).eq('id', taskId)] *)
Definition update_task (u : TaskUpdate) (taskId : string) (_ : string) (d : Database)
  : Reply unit * Database :=
  (Data tt,
   with_tasks d
     (map (fun r => if has_task_id taskId r then apply_update u r else r) (tasks d))).

(** [from('tasks').update({ milestone_id, position }).eq('id', taskId)]:
    an [undefined] milestone is left out of the body. *)
Definition update_task_place (milestoneId : option string) (targetPosition : Z)
  (taskId : string) (_ : string) (d : Database) : Reply unit * Database :=
  if negb (integer_check targetPosition)
  then (Failure (PostgrestError "22003"), d)
  else
    (Data tt,
     with_tasks d
       (map (fun r =>
               if has_task_id taskId r
               then mkTask (t_id r) (t_project_id r)
                      (or_keep milestoneId (t_milestone_id r))
                      (t_title r) (t_description r) (t_status r) (t_priority r)
                      (t_assignee_id r) (t_due_date r) (Some targetPosition)
               else r)
            (tasks d))).

(** [from('tasks').select('project_id').eq('id', taskId).single()] *)
Definition select_task_project (taskId : string) (d : Database) : Reply string :=
  single (map t_project_id (filter (has_task_id taskId) (tasks d))).

(** [from('tasks').delete().eq('id', taskId)] *)
Definition delete_task (taskId : string) (_ : string) (d : Database)
  : Reply unit * Database :=
  (Data tt, with_tasks d (filter (fun r => negb (has_task_id taskId r)) (tasks d))).

(** [from('tasks').select('status').eq('project_id', projectId)] *)
Definition select_statuses (projectId : string) (d : Database)
  : Reply (list TaskStatus) :=
  Data (map t_status (filter (of_project projectId) (tasks d))).

(** [CHECK (progress >= 0 AND progress <= 100)]; NULL passes a check. *)
Definition progress_check (v : option Z) : bool :=
  match v with
  | Some n => (0 <=? n) && (n <=? 100)
  | None => true
  end.

(** [from('projects').update({ progress }).eq('id', projectId)] *)
Definition update_progress (progress : option Z) (projectId : string)
  (_ : string) (d : Database) : Reply unit * Database :=
  if existsb (fun p => String.eqb (p_id p) projectId) (projects d)
     && negb (progress_check progress)
  then (Failure (PostgrestError "23514"), d)
  else
    (Data tt,
     with_projects d
       (map (fun p => if String.eqb (p_id p) projectId
                      then mkProject (p_id p) progress else p)
          (projects d))).

(** ** Task operations ([services/database.ts]) *)

Record Comment := mkComment {
  c_id : string;
  c_userId : string;
  c_content : string
}.

(** The [Task] objects of the application. *)
Record Task := mkTaskObject {
  id : string;
  title : string;
  description : option string;
  status : TaskStatus;
  priority : Priority;
  assigneeId : option string;
  dueDate : option string;
  milestoneId : option string;
  comments : list Comment
}.

Definition dbToTask (row : TaskRow) : Task :=
  mkTaskObject (t_id row) (t_title row) (t_description row) (t_status row)
    (t_priority row) (t_assignee_id row) (t_due_date row) (t_milestone_id row) [].

(** The argument [taskData : Omit<Task, 'id' | 'comments'>] of [createTask];
    [None] is [undefined]. *)
Record TaskData := mkTaskData {
  td_title : string;
  td_description : option string;
  td_status : option TaskStatus;
  td_priority : option Priority;
  td_assigneeId : option string;
  td_dueDate : option string;
  td_milestoneId : option string
}.

(** The argument [updates : Partial<Task>] of [updateTask], without the
    members [id] and [comments], which [updateTask] does not read. *)
Record PartialTask := mkPartialTask {
  pt_title : option string;
  pt_description : option string;
  pt_status : option TaskStatus;
  pt_priority : option Priority;
  pt_assigneeId : option string;
  pt_dueDate : option string;
  pt_milestoneId : option string
}.

(** [x || 0] on a number that may be [null] or [undefined]. *)
Definition or_zero (x : option Z) : Z :=
  match x with
  | Some n => if n =? 0 then 0 else n
  | None => 0
  end.

Definition is_completed (s : TaskStatus) : bool := TaskStatus_eqb s COMPLETED.

(** [Math.round((completed / tasks.length) * 100)] *)
Definition progress_of (completed total : nat) : option Z :=
  Math_round
    (PrimFloat.mul (PrimFloat.div (number_of_nat completed) (number_of_nat total))
       (number_of_nat 100)).

Definition updateProjectProgress (projectId : string) : Async unit :=
  try_catch
    (r <- request (reading (select_statuses projectId)) ;;
     match data_of r with
     | None | Some [] =>
         await request (update_progress (Some 0) projectId) ;;
         ret tt
     | Some statuses =>
         let completed := List.length (filter is_completed statuses) in
         let progress := progress_of completed (List.length statuses) in
         await request (update_progress progress projectId) ;;
         ret tt
     end)
    (fun _ => ret tt).

Definition createTask (projectId : string) (taskData : TaskData) : Async Task :=
  try_catch
    (maxPos <- request (reading (select_max_position projectId)) ;;
     let position :=
       or_zero (match data_of maxPos with Some p => p | None => None end) + 1 in
     r <- request
            (insert_task
               (mkTaskInsert projectId (td_title taskData)
                  (td_description taskData) (td_status taskData)
                  (td_priority taskData) (td_assigneeId taskData)
                  (td_dueDate taskData) (td_milestoneId taskData)
                  (Some position))) ;;
     match r with
     | Failure error => throw error
     | Data row => ret (dbToTask row)
     end)
    (fun error => throw error).

Definition updateTask (taskId : string) (updates : PartialTask) : Async unit :=
  try_catch
    (let updateData :=
       mkTaskUpdate (pt_title updates) (pt_description updates)
         (pt_status updates) (pt_priority updates) (pt_assigneeId updates)
         (pt_dueDate updates) (pt_milestoneId updates) in
     r <- request (update_task updateData taskId) ;;
     match r with
     | Failure error => throw error
     | Data _ =>
         task <- request (reading (select_task_project taskId)) ;;
         match data_of task with
         | Some project_id => updateProjectProgress project_id
         | None => ret tt
         end
     end)
    (fun error => throw error).

Definition deleteTask (taskId : string) : Async unit :=
  try_catch
    (task <- request (reading (select_task_project taskId)) ;;
     r <- request (delete_task taskId) ;;
     match r with
     | Failure error => throw error
     | Data _ =>
         match data_of task with
         | Some project_id => updateProjectProgress project_id
         | None => ret tt
         end
     end)
    (fun error => throw error).

Definition moveTask (taskId : string) (milestoneId : option string)
  (targetPosition : Z) : Async unit :=
  try_catch
    (r <- request (update_task_place milestoneId targetPosition taskId) ;;
     match r with
     | Failure error => throw error
     | Data _ => ret tt
     end)
    (fun error => throw error).

(** ** The move handler ([App.tsx]) *)

(** The part of [loadProjects] that touches the backend is read-only and
    its failure is caught inside it; the handler is modelled up to the
    requests that can write. *)
Definition handleMoveTask (projectId taskId : string)
  (newMilestoneId : option string) (targetTaskId : option string) : Async unit :=
  try_catch
    (updateTask taskId
       (mkPartialTask None None None None None None newMilestoneId))
    (fun _ => ret tt).

(** ** Queries on [project_members] and [project_invitations] *)

Definition member_of (projectId userId : string) (m : MemberRow) : bool :=
  String.eqb (m_project_id m) projectId && String.eqb (m_user_id m) userId.

Definition invited_to (projectId userId : string) (i : InvitationRow) : bool :=
  String.eqb (i_project_id i) projectId && String.eqb (i_invited_user_id i) userId.

Definition is_pending (i : InvitationRow) : bool :=
  InvitationStatus_eqb (i_status i) pending.

Definition has_invitation_id (invitationId : string) (i : InvitationRow) : bool :=
  String.eqb (i_id i) invitationId.

(** [CHECK (role IN ('Member', 'Viewer'))] *)
Definition invitation_role_check (r : ProjectRole) : bool :=
  match r with
  | Member | Viewer => true
  | Owner => false
  end.

(** [from('project_members').select('id').eq('project_id', projectId)
     .eq('user_id', userId).single()] *)
Definition select_member (projectId userId : string) (d : Database) : Reply string :=
  single (map m_id (filter (member_of projectId userId) (project_members d))).

(** [from('project_members').insert({ project_id, user_id, role })] *)
Definition insert_member (projectId userId : string) (role : ProjectRole)
  (uuid : string) (d : Database) : Reply unit * Database :=
  if existsb (fun m => String.eqb (m_id m) uuid) (project_members d)
     || existsb (member_of projectId userId) (project_members d)
  then (Failure (PostgrestError "23505"), d)
  else
    (Data tt,
     with_members d (project_members d ++ [mkMember uuid projectId userId role])).

(** [from('project_invitations').select('id').eq('project_id', projectId)
     .eq('invited_user_id', userId).eq('status', 'pending').single()] *)
Definition select_pending_invitation (projectId userId : string) (d : Database)
  : Reply string :=
  single
    (map i_id
       (filter (fun i => invited_to projectId userId i && is_pending i)
          (project_invitations d))).

(** [from('project_invitations').insert({ project_id, invited_user_id,
     invited_by, role, status: 'pending' }).select().single()] *)
Definition insert_invitation (projectId invitedUserId invitedBy : string)
  (role : ProjectRole) (uuid : string) (d : Database)
  : Reply InvitationRow * Database :=
  if negb (invitation_role_check role)
  then (Failure (PostgrestError "23514"), d)
  else if existsb (has_invitation_id uuid) (project_invitations d)
          || existsb (invited_to projectId invitedUserId) (project_invitations d)
  then (Failure (PostgrestError "23505"), d)
  else
    let row := mkInvitation uuid projectId invitedUserId invitedBy role pending in
    (Data row, with_invitations d (project_invitations d ++ [row])).

(** [from('project_invitations').select('*').eq('id', invitationId)
     .eq('status', 'pending').single()] *)
Definition select_pending_by_id (invitationId : string) (d : Database)
  : Reply InvitationRow :=
  single
    (filter (fun i => has_invitation_id invitationId i && is_pending i)
       (project_invitations d)).

(** [SET status = st] on one row. *)
Definition set_invitation_status (st : InvitationStatus) (i : InvitationRow)
  : InvitationRow :=
  mkInvitation (i_id i) (i_project_id i) (i_invited_user_id i) (i_invited_by i)
    (i_role i) st.

(** [from('project_invitations').update({ status }).eq('id', invitationId)] *)
Definition update_invitation_status (st : InvitationStatus) (invitationId : string)
  (_ : string) (d : Database) : Reply unit * Database :=
  (Data tt,
   with_invitations d
     (map (fun i =>
             if has_invitation_id invitationId i
             then set_invitation_status st i
             else i)
        (project_invitations d))).

(** [from('project_invitations').delete().eq('id', invitationId)
     .eq('status', 'pending')] *)
Definition delete_pending_invitation (invitationId : string) (_ : string)
  (d : Database) : Reply unit * Database :=
  (Data tt,
   with_invitations d
     (filter (fun i => negb (has_invitation_id invitationId i && is_pending i))
        (project_invitations d))).

(** ** Membership and invitation operations ([services/database.ts]) *)

Record ProjectInvitation := mkProjectInvitation {
  inv_id : string;
  inv_projectId : string;
  inv_invitedUserId : string;
  inv_invitedBy : string;
  inv_role : ProjectRole;
  inv_status : InvitationStatus
}.

Definition addProjectMember (projectId userId : string) (role : ProjectRole)
  : Async unit :=
  try_catch
    (r <- request (insert_member projectId userId role) ;;
     match r with
     | Failure error => throw error
     | Data _ => ret tt
     end)
    (fun error => throw error).

Definition createProjectInvitation (projectId invitedUserId invitedBy : string)
  (role : ProjectRole) : Async ProjectInvitation :=
  try_catch
    (existingMember <- request (reading (select_member projectId invitedUserId)) ;;
     match data_of existingMember with
     | Some _ => throw (JsError "User is already a member of this project")
     | None =>
         existingInvitation <-
           request (reading (select_pending_invitation projectId invitedUserId)) ;;
         match data_of existingInvitation with
         | Some _ =>
             throw (JsError "User already has a pending invitation to this project")
         | None =>
             r <- request (insert_invitation projectId invitedUserId invitedBy role) ;;
             match r with
             | Failure error => throw error
             | Data data =>
                 ret (mkProjectInvitation (i_id data) (i_project_id data)
                        (i_invited_user_id data) (i_invited_by data)
                        (i_role data) (i_status data))
             end
         end
     end)
    (fun error => throw error).

(** The test [if (!invitation) throw ...] that follows [if (invError)] in
    the source cannot fire: a [.single()] reply without an error has its
    row. *)
Definition acceptProjectInvitation (invitationId : string) : Async unit :=
  try_catch
    (r <- request (reading (select_pending_by_id invitationId)) ;;
     match r with
     | Failure invError => throw invError
     | Data invitation =>
         m <- request
                (insert_member (i_project_id invitation)
                   (i_invited_user_id invitation) (i_role invitation)) ;;
         match m with
         | Failure memberError => throw memberError
         | Data _ =>
             u <- request (update_invitation_status accepted invitationId) ;;
             match u with
             | Failure updateError => throw updateError
             | Data _ => ret tt
             end
         end
     end)
    (fun error => throw error).

Definition declineProjectInvitation (invitationId : string) : Async unit :=
  try_catch
    (r <- request (update_invitation_status declined invitationId) ;;
     match r with
     | Failure error => throw error
     | Data _ => ret tt
     end)
    (fun error => throw error).

Definition cancelProjectInvitation (invitationId : string) : Async unit :=
  try_catch
    (r <- request (delete_pending_invitation invitationId) ;;
     match r with
     | Failure error => throw error
     | Data _ => ret tt
     end)
    (fun error => throw error).

(** ** The task generator ([generateProjectTasks]) *)

Module Gemini.

(** Values produced by [JSON.parse]. *)
#[warnings="-register-all"]
Inductive JsValue :=
| JNull
| JBool (b : bool)
| JNumber (x : float)
| JString (s : string)
| JArray (items : list JsValue)
| JObject (members : list (string * JsValue)).

(** One call [ai.models.generateContent(...)] followed by [JSON.parse] of
    its text, as the environment decides it. *)
Inductive Response :=
| CallFails                 (* the call throws *)
| EmptyText                 (* [response.text] is undefined or empty *)
| Malformed                 (* [JSON.parse] throws *)
| Json (v : JsValue).

(** What the function does to the outside, in order. *)
Inductive Event :=
| Generate (attempt : Z)    (* a call to the generative service *)
| Wait (ms : Z).            (* [setTimeout(res, ms)] awaited *)

(** A date string [YYYY-MM-DD] is represented by the UTC day it names,
    counted from 1970-01-01: [new Date(ms).toISOString().split('T')[0]].
    The [RangeError] that [toISOString] raises for a time beyond the year
    275760 is not modelled. *)
Definition isoDate (ms : Z) : Z := ms / 86400000.

(** The [Task] objects built here; the members that stay [undefined] are
    left out.  The title is whatever truthy value the JSON carried. *)
Record Task := mkTask {
  id : string;
  title : JsValue;
  status : TaskStatus;
  priority : Priority;
  dueDate : option Z;
  comments : list Comment
}.

Definition digits (n : Z) : string := NilZero.string_of_int (Z.to_int n).

(** The member [name] of an object; [None] is [undefined]. *)
Fixpoint lookup (name : string) (members : list (string * JsValue))
  : option JsValue :=
  match members with
  | [] => None
  | (k, v) :: rest => if String.eqb k name then Some v else lookup name rest
  end.

(** [t.name] on a parsed value: [None] is the TypeError raised on [null],
    [Some None] is [undefined] (a number, a string, a boolean and an array
    have no such member). *)
Definition property (t : JsValue) (name : string) : option (option JsValue) :=
  match t with
  | JNull => None
  | JObject members => Some (lookup name members)
  | _ => Some None
  end.

Definition truthy (v : JsValue) : bool :=
  match v with
  | JNull => false
  | JBool b => b
  | JNumber x => negb (PrimFloat.eqb x 0) && PrimFloat.eqb x x
  | JString s => negb (String.eqb s EmptyString)
  | JArray _ | JObject _ => true
  end.

(** [["High", "Medium", "Low"].includes(p) ? p : "Medium"] *)
Definition priority_of (p : option JsValue) : Priority :=
  match p with
  | Some (JString s) =>
      if String.eqb s "High" then HIGH
      else if String.eqb s "Medium" then MEDIUM
      else if String.eqb s "Low" then LOW
      else MEDIUM
  | _ => MEDIUM
  end.

(** The callback of [rawTasks.map]; [None] when it throws. *)
Definition toTask (now : Z) (t : JsValue) (index : Z) : option Task :=
  match property t "title", property t "priority" with
  | Some ttl, Some prio =>
      Some (mkTask
              ("generated-" ++ digits now ++ "-" ++ digits index)
              (match ttl with
               | Some v => if truthy v then v else JString "Untitled Task"
               | None => JString "Untitled Task"
               end)
              TODO
              (priority_of prio)
              (Some (isoDate (now + 86400000 * (index + 1))))
              [])
  | _, _ => None
  end.

(** [rawTasks.map(callback)], from [index] on. *)
Fixpoint mapTasks (now : Z) (rawTasks : list JsValue) (index : Z)
  : option (list Task) :=
  match rawTasks with
  | [] => Some []
  | t :: rest =>
      match toTask now t index with
      | None => None
      | Some task =>
          match mapTasks now rest (index + 1) with
          | None => None
          | Some tasks => Some (task :: tasks)
          end
      end
  end.

(** The body of the [try] block; [None] when it throws. *)
Definition attemptOnce (now : Z) (r : Response) : option (list Task) :=
  match r with
  | CallFails | EmptyText | Malformed => None
  | Json (JArray []) => None
  | Json (JArray rawTasks) => mapTasks now rawTasks 0
  | Json _ => None
  end.

Definition simulateAiResponse (now : Z) (desc : string) : list Task :=
  [ mkTask "sim-1" (JString "Initial Project Setup") TODO HIGH (Some (isoDate now)) [];
    mkTask "sim-2" (JString "Research & Analysis") TODO MEDIUM None [];
    mkTask "sim-3" (JString "Draft Requirements") TODO HIGH None [];
    mkTask "sim-4" (JString "Team Kickoff Meeting") TODO MEDIUM None [];
    mkTask "sim-5" (JString "Review Milestone 1") TODO LOW None [] ].

Definition MAX_RETRIES : Z := 3.

(** The [while (attempt < MAX_RETRIES)] loop, with the statement that
    follows it.  [api attempt] answers the call issued when the counter is
    [attempt]; [None] only when [fuel] iterations do not reach the end. *)
Fixpoint retryLoop (api : Z -> Response) (now : Z) (projectDescription : string)
  (fuel : nat) (attempt : Z) (trace : list Event)
  : option (list Task * list Event) :=
  match fuel with
  | O => None
  | S fuel' =>
      if attempt <? MAX_RETRIES then
        let trace := trace ++ [Generate attempt] in
        match attemptOnce now (api attempt) with
        | Some tasks => Some (tasks, trace)
        | None =>
            let attempt := attempt + 1 in
            if attempt >=? MAX_RETRIES
            then Some (simulateAiResponse now projectDescription, trace)
            else retryLoop api now projectDescription fuel' attempt
                   (trace ++ [Wait (1000 * 2 ^ attempt)])
        end
      else Some (simulateAiResponse now projectDescription, trace)
  end.

(** [apiKey] is [process.env.API_KEY] when that is a string; [now] is the
    reading of the clock, taken as one value for the whole call. *)
Definition generateProjectTasks (apiKey : option string) (api : Z -> Response)
  (now : Z) (fuel : nat) (projectDescription projectType : string)
  : option (list Task * list Event) :=
  match apiKey with
  | None | Some EmptyString => Some (simulateAiResponse now projectDescription, [])
  | Some _ => retryLoop api now projectDescription fuel 0 []
  end.

End Gemini.

(** ** Sequences of calls *)

Inductive Call :=
| CreateTask (projectId : string) (taskData : TaskData)
| UpdateTask (taskId : string) (updates : PartialTask)
| DeleteTask (taskId : string)
| MoveTask (taskId : string) (milestoneId : option string) (targetPosition : Z)
| HandleMoveTask (projectId taskId : string) (newMilestoneId targetTaskId : option string)
| AddProjectMember (projectId userId : string) (role : ProjectRole)
| CreateProjectInvitation (projectId invitedUserId invitedBy : string)
    (role : ProjectRole)
| AcceptProjectInvitation (invitationId : string)
| DeclineProjectInvitation (invitationId : string)
| CancelProjectInvitation (invitationId : string).

(** The world a call leaves behind, whether it returns or throws. *)
Definition perform (c : Call) (w : World) : World :=
  match c with
  | CreateTask p t => snd (createTask p t w)
  | UpdateTask t u => snd (updateTask t u w)
  | DeleteTask t => snd (deleteTask t w)
  | MoveTask t m p => snd (moveTask t m p w)
  | HandleMoveTask p t m tgt => snd (handleMoveTask p t m tgt w)
  | AddProjectMember p u r => snd (addProjectMember p u r w)
  | CreateProjectInvitation p u b r => snd (createProjectInvitation p u b r w)
  | AcceptProjectInvitation i => snd (acceptProjectInvitation i w)
  | DeclineProjectInvitation i => snd (declineProjectInvitation i w)
  | CancelProjectInvitation i => snd (cancelProjectInvitation i w)
  end.

Definition run (calls : list Call) (w : World) : World :=
  fold_left (fun w c => perform c w) calls w.

(** ** Properties of a database *)

(** The keys of the schema, as properties of the stored tables. *)
Definition member_key (m : MemberRow) : string * string :=
  (m_project_id m, m_user_id m).

Definition invitation_key (i : InvitationRow) : string * string :=
  (i_project_id i, i_invited_user_id i).

Record Constraints (d : Database) : Prop := mkConstraints {
  tasks_pkey : NoDup (map t_id (tasks d));
  members_unique : NoDup (map member_key (project_members d));
  invitations_pkey : NoDup (map i_id (project_invitations d));
  invitations_unique : NoDup (map invitation_key (project_invitations d))
}.

(** Every stored invitation proposes the role Member or Viewer. *)
Definition roles_ok (d : Database) : Prop :=
  Forall (fun i => i_role i = Member \/ i_role i = Viewer) (project_invitations d).

Definition is_member (d : Database) (projectId userId : string) : bool :=
  existsb (member_of projectId userId) (project_members d).

Definition has_pending_invitation (d : Database) (projectId userId : string) : bool :=
  existsb (fun i => invited_to projectId userId i && is_pending i)
    (project_invitations d).

Definition has_invitation (d : Database) (projectId userId : string) : bool :=
  existsb (invited_to projectId userId) (project_invitations d).

(** Two task rows that differ at most in the milestone reference. *)
Definition same_but_milestone (r r' : TaskRow) : Prop :=
  t_id r' = t_id r /\ t_project_id r' = t_project_id r /\
  t_title r' = t_title r /\ t_description r' = t_description r /\
  t_status r' = t_status r /\ t_priority r' = t_priority r /\
  t_assignee_id r' = t_assignee_id r /\ t_due_date r' = t_due_date r /\
  t_position r' = t_position r.

(** The statuses of the tasks of a project, and the progress that
    [updateProjectProgress] derives from them. *)
Definition statuses_of (d : Database) (projectId : string) : list TaskStatus :=
  map t_status (filter (of_project projectId) (tasks d)).

Definition completed_count (d : Database) (projectId : string) : nat :=
  List.length (filter is_completed (statuses_of d projectId)).

Definition total_count (d : Database) (projectId : string) : nat :=
  List.length (statuses_of d projectId).

Definition derived_progress (d : Database) (projectId : string) : option Z :=
  match total_count d projectId with
  | O => Some 0
  | total => progress_of (completed_count d projectId) total
  end.

Definition stored_progress (d : Database) (projectId : string)
  : list (option Z) :=
  map p_progress (filter (fun p => String.eqb (p_id p) projectId) (projects d)).

(** ** Relations between the database before and after an operation *)

(** [m] takes every database to one that is [P]-related to it, whether it
    returns or throws. *)
Definition relates {A} (P : Database -> Database -> Prop) (m : Async A) : Prop :=
  forall w, P (db w) (db (snd (m w))).

(** Tables left as they are. *)
Definition keeps_tasks (d d' : Database) : Prop := tasks d' = tasks d.
Definition keeps_members (d d' : Database) : Prop :=
  project_members d' = project_members d.
Definition keeps_invitations (d d' : Database) : Prop :=
  project_invitations d' = project_invitations d.
Definition keeps_projects (d d' : Database) : Prop := projects d' = projects d.

(** Only the milestone reference of the task [taskId] may differ. *)
Definition moved_only (taskId : string) (d d' : Database) : Prop :=
  Forall2 (fun r r' => r' = r \/ (t_id r = taskId /\ same_but_milestone r r'))
    (tasks d) (tasks d').

(** ** Example worlds *)

Definition example_task (taskId : string) (st : TaskStatus) : TaskRow :=
  mkTask taskId "p1" None "task" None st MEDIUM None None (Some 1).

(** A project at 50 percent: one task of two is completed. *)
Definition half_done : Database :=
  mkDatabase [mkProject "p1" (Some 50)]
    [mkMember "m1" "p1" "owner" Owner]
    [example_task "t1" COMPLETED; example_task "t2" TODO]
    [].

Definition set_status_only (st : TaskStatus) : PartialTask :=
  mkPartialTask None None (Some st) None None None None.

(** [half_done] with one invitation of the user [u2], in the given state. *)
Definition invited (st : InvitationStatus) : Database :=
  with_invitations half_done [mkInvitation "i1" "p1" "u2" "owner" Member st].

(** An environment that serves every request of a short run, handing out
    the given identifiers in turn. *)
Definition serving (uuids : list string) : list Outcome := map Served uuids.

(** The role property is carried over. *)
Definition roles_kept (d d' : Database) : Prop := roles_ok d -> roles_ok d'.


(** The user [u2] is invited to [p1] and then added to the project
    directly, by [addProjectMember]. *)
Definition invited_then_added : World :=
  run [CreateProjectInvitation "p1" "u2" "owner" Viewer;
       AddProjectMember "p1" "u2" Member]
    (mkWorld half_done (serving ["r1"; "r2"; "i1"; "m2"; "r3"; "m3"; "r4"]%string)).

(** The keys of the schema are carried over. *)
Definition constraints_kept (d d' : Database) : Prop :=
  Constraints d -> Constraints d'.

(** ** Example answers of the generative service *)


(** Every call fails. *)
Definition failing_api (_ : Z) : Gemini.Response := Gemini.CallFails.

(** The second call answers with six task objects, the first one fails. *)
Definition six_tasks_on_retry (attempt : Z) : Gemini.Response :=
  if attempt =? 1 then
    Gemini.Json
      (Gemini.JArray
         (repeat
            (Gemini.JObject
               [("title"%string, Gemini.JString "Write tests");
                ("priority"%string, Gemini.JString "Low")])
            6))
  else Gemini.Malformed.

(** The traces that [generateProjectTasks] can leave. *)
Definition retry_traces : list (list Gemini.Event) :=
  [ [];
    [Gemini.Generate 0];
    [Gemini.Generate 0; Gemini.Wait 2000; Gemini.Generate 1];
    [Gemini.Generate 0; Gemini.Wait 2000; Gemini.Generate 1;
     Gemini.Wait 4000; Gemini.Generate 2] ].

Definition is_generate (ev : Gemini.Event) : bool :=
  match ev with
  | Gemini.Generate _ => true
  | Gemini.Wait _ => false
  end.

(** A configured credential: [apiKey] is a non-empty string. *)
Definition configured (apiKey : option string) : Prop :=
  exists c s, apiKey = Some (String c s).

(** The answers on which an attempt fails: the call throws, the text is
    empty or is not JSON, the value is not an array, the array is empty, or
    one of its elements is [null] (the callback of [map] then throws). *)
Definition rejected (r : Gemini.Response) : Prop :=
  match r with
  | Gemini.Json (Gemini.JArray items) => items = [] \/ In Gemini.JNull items
  | _ => True
  end.

(** ** Progress: examples and the exhaustive check on small projects *)

Definition numbered_task (k : nat) : TaskRow :=
  mkTask ("t" ++ Gemini.digits (Z.of_nat k)) "p1" None "task" None
    (if (k <? 23)%nat then COMPLETED else TODO) MEDIUM None None
    (Some (Z.of_nat k + 1)).

(** A project of 40 tasks, [t0] to [t39], the first 23 of them completed. *)
Definition forty_tasks : Database :=
  mkDatabase [mkProject "p1" (Some 0)]
    [mkMember "m1" "p1" "owner" Owner]
    (map numbered_task (seq 0 40))
    [].

Definition rename_only (newTitle : string) : PartialTask :=
  mkPartialTask (Some newTitle) None None None None None None.

Definition option_Z_eqb (a b : option Z) : bool :=
  match a, b with
  | Some x, Some y => x =? y
  | None, None => true
  | _, _ => false
  end.

(** For every total from 1 below [bound] and every count of completed
    tasks up to the total, the double computation gives the exact rounding,
    which the check on [progress] admits. *)
Definition exact_below (bound : nat) : bool :=
  forallb
    (fun total =>
       forallb
         (fun completed =>
            option_Z_eqb (progress_of completed total)
              (Some (exact_round_percent completed total))
            && progress_check (progress_of completed total))
         (seq 0 (S total)))
    (seq 1 (bound - 1)).

(** The rows of [projects] after the progress of [projectId] is set. *)
Definition set_progress (v : option Z) (projectId : string) (d : Database)
  : Database :=
  with_projects d
    (map (fun p => if String.eqb (p_id p) projectId
                   then mkProject (p_id p) v else p)
       (projects d)).

(** The scenario of a project with four tasks, two of them completed. *)
Definition four_tasks : Database :=
  mkDatabase [mkProject "p1" (Some 50)]
    [mkMember "m1" "p1" "owner" Owner]
    [example_task "t1" COMPLETED; example_task "t2" COMPLETED;
     example_task "t3" TODO; example_task "t4" IN_PROGRESS]
    [].

(** * Further operations of the data-access layer *)

(** ** Team management ([services/database.ts]) *)

(** [from('project_members').update({ role }).eq('project_id', projectId)
     .eq('user_id', userId)] *)
Definition update_member_role (role : ProjectRole) (projectId userId : string)
  (_ : string) (d : Database) : Reply unit * Database :=
  (Data tt,
   with_members d
     (map (fun m =>
             if member_of projectId userId m
             then mkMember (m_id m) (m_project_id m) (m_user_id m) role
             else m)
        (project_members d))).

(** [from('project_members').delete().eq('project_id', projectId)
     .eq('user_id', userId)] *)
Definition delete_member (projectId userId : string) (_ : string) (d : Database)
  : Reply unit * Database :=
  (Data tt,
   with_members d
     (filter (fun m => negb (member_of projectId userId m)) (project_members d))).

Definition updateMemberRole (projectId userId : string) (role : ProjectRole)
  : Async unit :=
  try_catch
    (r <- request (update_member_role role projectId userId) ;;
     match r with
     | Failure error => throw error
     | Data _ => ret tt
     end)
    (fun error => throw error).

Definition removeProjectMember (projectId userId : string) : Async unit :=
  try_catch
    (r <- request (delete_member projectId userId) ;;
     match r with
     | Failure error => throw error
     | Data _ => ret tt
     end)
    (fun error => throw error).

(** ** Reading invitations ([services/database.ts]) *)

Definition toProjectInvitation (inv : InvitationRow) : ProjectInvitation :=
  mkProjectInvitation (i_id inv) (i_project_id inv) (i_invited_user_id inv)
    (i_invited_by inv) (i_role inv) (i_status inv).

(** [from('project_invitations').select('*').eq('project_id', projectId)
     .eq('status', 'pending').order('created_at', { ascending: false })]:
    the rows were inserted in the order of the table, so the newest comes
    first (the order between rows of one instant is not fixed by the
    query). *)
Definition select_project_invitations (projectId : string) (d : Database)
  : Reply (list InvitationRow) :=
  Data (rev (filter (fun i => String.eqb (i_project_id i) projectId && is_pending i)
               (project_invitations d))).

(** [from('project_invitations').select('*').eq('invited_user_id', userId)
     .eq('status', 'pending').order('created_at', { ascending: false })] *)
Definition select_user_invitations (userId : string) (d : Database)
  : Reply (list InvitationRow) :=
  Data (rev (filter (fun i => String.eqb (i_invited_user_id i) userId && is_pending i)
               (project_invitations d))).

Definition getProjectInvitations (projectId : string)
  : Async (list ProjectInvitation) :=
  try_catch
    (r <- request (reading (select_project_invitations projectId)) ;;
     match r with
     | Failure error => throw error
     | Data data => ret (map toProjectInvitation data)
     end)
    (fun error => throw error).

Definition getUserInvitations (userId : string) : Async (list ProjectInvitation) :=
  try_catch
    (r <- request (reading (select_user_invitations userId)) ;;
     match r with
     | Failure error => throw error
     | Data data => ret (map toProjectInvitation data)
     end)
    (fun error => throw error).

(** ** Projects ([services/database.ts]) *)

Record ProjectMember := mkProjectMember {
  pm_userId : string;
  pm_role : ProjectRole
}.

Record Milestone := mkMilestone {
  ms_id : string;
  ms_title : string;
  ms_dueDate : option string;
  ms_description : option string
}.

(** The [Project] objects of the application, without [createdAt]. *)
Record Project := mkProjectObject {
  pj_id : string;
  pj_name : string;
  pj_description : string;
  pj_templateType : string;
  pj_progress : option Z;
  pj_team : list ProjectMember;
  pj_tasks : list Task;
  pj_milestones : list Milestone
}.

(** A row of [projects] as the backend returns it.  The table of the model
    keeps its key and its progress; the columns [name], [description],
    [template_type] and [created_by] are carried by the replies only. *)
Record ProjectReply := mkProjectReply {
  pf_id : string;
  pf_name : string;
  pf_description : string;
  pf_template_type : string;
  pf_progress : option Z
}.

Definition has_project_id (projectId : string) (p : ProjectRow) : bool :=
  String.eqb (p_id p) projectId.

(** [from('projects').insert({ name, description, template_type,
     created_by, progress }).select().single()] *)
Definition insert_project (name description templateType createdBy : string)
  (progress : option Z) (uuid : string) (d : Database)
  : Reply ProjectReply * Database :=
  if existsb (has_project_id uuid) (projects d)
  then (Failure (PostgrestError "23505"), d)
  else if negb (progress_check progress)
  then (Failure (PostgrestError "23514"), d)
  else
    (Data (mkProjectReply uuid name description templateType progress),
     with_projects d (projects d ++ [mkProject uuid progress])).

(** The key of the [k]-th row of a bulk insert that is served with [uuid]:
    every row of the statement gets a key of its own. *)
Definition batch_id (uuid : string) (k : nat) : string :=
  (uuid ++ "#" ++ Gemini.digits (Z.of_nat k))%string.

Fixpoint keyed_members (uuid : string) (k : nat)
  (rows : list (string * string * ProjectRole)) : list MemberRow :=
  match rows with
  | [] => []
  | (projectId, userId, role) :: rest =>
      mkMember (batch_id uuid k) projectId userId role
      :: keyed_members uuid (S k) rest
  end.

(** The rows of one INSERT statement are checked one after the other
    against the table and the rows before them; [None] when a key is
    violated, and then no row is inserted. *)
Fixpoint add_members (table new : list MemberRow) : option (list MemberRow) :=
  match new with
  | [] => Some table
  | n :: rest =>
      if existsb (fun m => String.eqb (m_id m) (m_id n)) table
         || existsb (member_of (m_project_id n) (m_user_id n)) table
      then None
      else add_members (table ++ [n]) rest
  end.

(** [from('project_members').insert(teamMembers)] *)
Definition insert_members (rows : list (string * string * ProjectRole))
  (uuid : string) (d : Database) : Reply unit * Database :=
  match add_members (project_members d) (keyed_members uuid 0 rows) with
  | Some table => (Data tt, with_members d table)
  | None => (Failure (PostgrestError "23505"), d)
  end.

(** [from('project_members').select('user_id, role')
     .eq('project_id', projectId)] *)
Definition select_team (projectId : string) (d : Database)
  : Reply (list ProjectMember) :=
  Data (map (fun m => mkProjectMember (m_user_id m) (m_role m))
          (filter (fun m => String.eqb (m_project_id m) projectId)
             (project_members d))).

Definition dbToProject (row : ProjectReply) : Async Project :=
  teamData <- request (reading (select_team (pf_id row))) ;;
  ret (mkProjectObject (pf_id row) (pf_name row) (pf_description row)
         (pf_template_type row) (pf_progress row)
         (match data_of teamData with Some team => team | None => [] end)
         [] []).

Definition createProject (name description templateType createdBy : string)
  (teamMemberIds : list string) : Async Project :=
  try_catch
    (r <- request (insert_project name description templateType createdBy (Some 0)) ;;
     match r with
     | Failure projectError => throw projectError
     | Data project =>
         let teamMembers :=
           (pf_id project, createdBy, Owner)
           :: map (fun userId => (pf_id project, userId, Member)) teamMemberIds in
         t <- request (insert_members teamMembers) ;;
         match t with
         | Failure teamError => throw teamError
         | Data _ => dbToProject project
         end
     end)
    (fun error => throw error).

(** The argument [updates] of [updateProject]; [None] is [undefined]. *)
Record ProjectUpdates := mkProjectUpdates {
  upd_name : option string;
  upd_description : option string;
  upd_progress : option Z
}.

(** [from('projects').update(updateData).eq('id', projectId)]: of the
    columns that [updateData] can set, the model keeps [progress]. *)
Definition update_project (u : ProjectUpdates) (projectId : string) (_ : string)
  (d : Database) : Reply unit * Database :=
  match upd_progress u with
  | None => (Data tt, d)
  | Some v =>
      if existsb (has_project_id projectId) (projects d)
         && negb (progress_check (Some v))
      then (Failure (PostgrestError "23514"), d)
      else
        (Data tt,
         with_projects d
           (map (fun p => if has_project_id projectId p
                          then mkProject (p_id p) (Some v) else p)
              (projects d)))
  end.

Definition updateProject (projectId : string) (updates : ProjectUpdates)
  : Async unit :=
  try_catch
    (r <- request (update_project updates projectId) ;;
     match r with
     | Failure error => throw error
     | Data _ => ret tt
     end)
    (fun error => throw error).

(** [from('projects').delete().eq('id', projectId)], with the
    [ON DELETE CASCADE] of [project_members], [tasks] and
    [project_invitations] on [project_id]: the cascade runs for a row of
    [projects] that is deleted. *)
Definition delete_project (projectId : string) (_ : string) (d : Database)
  : Reply unit * Database :=
  if existsb (has_project_id projectId) (projects d)
  then
    (Data tt,
     mkDatabase
       (filter (fun p => negb (has_project_id projectId p)) (projects d))
       (filter (fun m => negb (String.eqb (m_project_id m) projectId))
          (project_members d))
       (filter (fun t => negb (of_project projectId t)) (tasks d))
       (filter (fun i => negb (String.eqb (i_project_id i) projectId))
          (project_invitations d)))
  else (Data tt, d).

Definition deleteProject (projectId : string) : Async unit :=
  try_catch
    (r <- request (delete_project projectId) ;;
     match r with
     | Failure error => throw error
     | Data _ => ret tt
     end)
    (fun error => throw error).

(** ** Handlers of the application ([App.tsx]) *)

(** As for [handleMoveTask], the handlers are modelled up to the requests
    that can write: the reload [loadProjects] that follows only reads and
    catches its own failures. *)

(** The argument [updates : Partial<Project>] of [handleEditProject]: the
    members that the edit form sets, and [progress], which [updateProject]
    reads as well. *)
Record PartialProject := mkPartialProject {
  pp_name : option string;
  pp_description : option string;
  pp_progress : option Z;
  pp_team : option (list ProjectMember)
}.

Definition handleEditProject (projectId : string) (updates : PartialProject)
  : Async unit :=
  try_catch
    (updateProject projectId
       (mkProjectUpdates (pp_name updates) (pp_description updates)
          (pp_progress updates)))
    (fun _ => ret tt).

Definition handleUpdateTask (projectId taskId : string) (updates : PartialTask)
  : Async unit :=
  try_catch (updateTask taskId updates) (fun _ => ret tt).

Record WizardData := mkWizardData {
  wd_name : string;
  wd_description : string;
  wd_template : string;
  wd_selectedTeamIds : list string;
  wd_suggestedTasks : list Task
}.

(** A [Task] passed where [createTask] expects its [taskData]: the members
    that [createTask] reads. *)
Definition taskDataOf (task : Task) : TaskData :=
  mkTaskData (title task) (description task) (Some (status task))
    (Some (priority task)) (assigneeId task) (dueDate task) (milestoneId task).

(** [for (const task of tasks) { await db.createTask(projectId, task); }] *)
Fixpoint createTasks (projectId : string) (tasks : list Task) : Async unit :=
  match tasks with
  | [] => ret tt
  | task :: rest =>
      await createTask projectId (taskDataOf task) ;;
      createTasks projectId rest
  end.

(** [user] is the identifier of the signed-in user, if there is one. *)
Definition handleCreateProject (user : option string) (data : WizardData)
  : Async unit :=
  match user with
  | None => ret tt
  | Some userId =>
      try_catch
        (newProject <- createProject (wd_name data) (wd_description data)
                         (wd_template data) userId (wd_selectedTeamIds data) ;;
         createTasks (pj_id newProject) (wd_suggestedTasks data))
        (fun _ => ret tt)
  end.

(** ** Further relations between two states of the database *)

(** An optional column that holds a value still holds one. *)
Definition still_set {A} (old new : option A) : Prop := old <> None -> new <> None.

(** The rows of [tasks] are the same tasks, and none of their optional
    columns has been cleared. *)
Definition nothing_cleared (d d' : Database) : Prop :=
  Forall2
    (fun r r' =>
       t_id r' = t_id r
       /\ still_set (t_assignee_id r) (t_assignee_id r')
       /\ still_set (t_milestone_id r) (t_milestone_id r')
       /\ still_set (t_due_date r) (t_due_date r')
       /\ still_set (t_description r) (t_description r'))
    (tasks d) (tasks d').

(** Two task rows that differ at most in the milestone reference and the
    position. *)
Definition same_but_place (r r' : TaskRow) : Prop :=
  t_id r' = t_id r /\ t_project_id r' = t_project_id r /\
  t_title r' = t_title r /\ t_description r' = t_description r /\
  t_status r' = t_status r /\ t_priority r' = t_priority r /\
  t_assignee_id r' = t_assignee_id r /\ t_due_date r' = t_due_date r.

Definition placed_only (taskId : string) (d d' : Database) : Prop :=
  Forall2 (fun r r' => r' = r \/ (t_id r = taskId /\ same_but_place r r'))
    (tasks d) (tasks d').

(** The update that the entry "Unassigned" of the assignee menu sends:
    [{ assigneeId: undefined }]. *)
Definition unassign : PartialTask :=
  mkPartialTask None None None None None None None.

(** ** The requests and the rows of [createTasks] *)

(** The requests of [createTasks] when all of them are served: for each
    task the lookup of the position, then the insert with a fresh key. *)
Fixpoint serving_tasks (keys : list (string * string)) (e : list Outcome)
  : list Outcome :=
  match keys with
  | [] => e
  | (lookup, key) :: rest => Served lookup :: Served key :: serving_tasks rest e
  end.

(** The rows that [createTasks] appends to a project whose tasks have the
    positions 1 to [k]. *)
Fixpoint created_rows (projectId : string) (k : nat) (tasks : list Task)
  (keys : list (string * string)) : list TaskRow :=
  match tasks, keys with
  | task :: tasks', (_, key) :: keys' =>
      mkTask key projectId (milestoneId task) (title task) (description task)
        (status task) (priority task) (assigneeId task) (dueDate task)
        (Some (Z.of_nat k + 1))
      :: created_rows projectId (S k) tasks' keys'
  | _, _ => []
  end.

(** ** The rows of one project *)

(** The rows that [createProject] sends to [project_members]. *)
Definition team_rows (projectId createdBy : string) (teamMemberIds : list string)
  : list (string * string * ProjectRole) :=
  (projectId, createdBy, Owner)
  :: map (fun userId => (projectId, userId, Member)) teamMemberIds.

(** The database without the project [projectId] and the rows that refer
    to it. *)
Definition others (projectId : string) (d : Database) : Database :=
  mkDatabase
    (filter (fun p => negb (has_project_id projectId p)) (projects d))
    (filter (fun m => negb (String.eqb (m_project_id m) projectId))
       (project_members d))
    (filter (fun t => negb (of_project projectId t)) (tasks d))
    (filter (fun i => negb (String.eqb (i_project_id i) projectId))
       (project_invitations d)).

(** No row of the database is the project [projectId] or refers to it. *)
Definition unknown_project (projectId : string) (d : Database) : Prop :=
  others projectId d = d.

(** The identifier that the backend gives to the next row, when it serves
    the next request. *)
Definition next_id (w : World) : option string :=
  match env w with
  | Served uuid :: _ => Some uuid
  | _ => None
  end.

(** What [createTask] for the project [uuid] may change. *)
Definition project_grows (uuid : string) (d d' : Database) : Prop :=
  projects d' = projects d /\ others uuid d' = others uuid d.

(** The wizard data of a project with one further team member and two
    suggested tasks. *)
Definition launch : WizardData :=
  mkWizardData "Launch" "The launch of the product" "Marketing" ["u2"%string]
    [ mkTaskObject "sim-1" "Initial Project Setup" None TODO HIGH None
        (Some "2026-01-01"%string) None [];
      mkTaskObject "sim-2" "Research & Analysis" None COMPLETED MEDIUM None None None [] ].

(** The requests of [handleCreateProject] for [launch], all served. *)
Definition launch_served (e : list Outcome) : list Outcome :=
  Served "p2" :: Served "b1" :: Served "r1"
  :: serving_tasks [("r2", "t3"); ("r3", "t4")]%string e.

(** ** The tasks that the generator returns *)

(** [`generated-${Date.now()}-${index}`] *)
Definition generated_id (now index : Z) : string :=
  ("generated-" ++ Gemini.digits now ++ "-" ++ Gemini.digits index)%string.

(** A task as the wizard expects it: a title that is not falsy, the status
    Todo, no comment. *)
Definition presentable (task : Gemini.Task) : Prop :=
  Gemini.truthy (Gemini.title task) = true
  /\ Gemini.status task = TODO
  /\ Gemini.comments task = [].

(** ** The team selection of the wizard ([components/Wizard.tsx]) *)

(** [selectedTeamIds.includes(userId)] *)
Definition includes (selectedTeamIds : list string) (userId : string) : bool :=
  existsb (String.eqb userId) selectedTeamIds.

(** What the user does on the team step: a click on the card of a user, or
    the form [handleInvite] with an address that is valid and belongs to
    the user [existingUser], if it belongs to one. *)
Inductive TeamEvent :=
| ClickUser (userId : string)
| Invite (existingUser : option string).

(** The [onClick] of a user card. *)
Definition clickUser (selectedTeamIds : list string) (userId : string)
  : list string :=
  if includes selectedTeamIds userId
  then filter (fun id => negb (String.eqb id userId)) selectedTeamIds
  else selectedTeamIds ++ [userId].

(** [handleInvite] on the selection. *)
Definition handleInvite (selectedTeamIds : list string)
  (existingUser : option string) : list string :=
  match existingUser with
  | Some userId =>
      if negb (includes selectedTeamIds userId)
      then selectedTeamIds ++ [userId]
      else selectedTeamIds
  | None => selectedTeamIds
  end.

Definition team_step (selectedTeamIds : list string) (ev : TeamEvent)
  : list string :=
  match ev with
  | ClickUser userId => clickUser selectedTeamIds userId
  | Invite existingUser => handleInvite selectedTeamIds existingUser
  end.

(** The selection after the events, from the empty selection of a new
    wizard. *)
Definition team_selection (events : list TeamEvent) : list string :=
  fold_left team_step events [].

(** The users that an event names. *)
Definition event_user (ev : TeamEvent) : option string :=
  match ev with
  | ClickUser userId => Some userId
  | Invite existingUser => existingUser
  end.

(** [users.filter(u => u.id !== user.id)]: the users that [App] gives to
    the wizard. *)
Definition availableUsers (users : list string) (currentUser : string)
  : list string :=
  filter (fun u => negb (String.eqb u currentUser)) users.

(** ** The row that [createTask] inserts *)

(** The row stored for [taskData] under the key [uuid] at [position], with
    the column defaults for the status and the priority. *)
Definition inserted_row (projectId : string) (taskData : TaskData)
  (uuid : string) (position : Z) : TaskRow :=
  mkTask uuid projectId (td_milestoneId taskData) (td_title taskData)
    (td_description taskData)
    (or_else (td_status taskData) TODO)
    (or_else (td_priority taskData) MEDIUM)
    (td_assigneeId taskData) (td_dueDate taskData) (Some position).

(** What [createTask] takes as the highest position of the project: the
    row of a served lookup, and 0 when the lookup fails, finds no row or
    finds NULL ([maxPos?.position || 0]). *)
Definition highest_seen (o : Outcome) (projectId : string) (d : Database) : Z :=
  match o with
  | Served _ =>
      or_zero (match data_of (select_max_position projectId d) with
               | Some p => p
               | None => None
               end)
  | _ => 0
  end.

(** A project whose task has the last position of the type [INTEGER]. *)
Definition last_position : Database :=
  mkDatabase [mkProject "p1" (Some 0)]
    [mkMember "m1" "p1" "owner" Owner]
    [mkTask "t1" "p1" None "task" None TODO MEDIUM None None (Some 2147483647)]
    [].

(** A project with tasks at the positions 1 and 2. *)
Definition two_positions : Database :=
  mkDatabase [mkProject "p1" (Some 0)]
    [mkMember "m1" "p1" "owner" Owner]
    [mkTask "t1" "p1" None "first" None TODO MEDIUM None None (Some 1);
     mkTask "t2" "p1" None "second" None TODO MEDIUM None None (Some 2)]
    [].

(** * Verification *)

(** ** The monad and the requests *)

Lemma try_rethrow {A} (m : Async A) (w : World) :
  try_catch m (fun error => throw error) w = m w.
Proof.
  unfold try_catch, throw. destruct (m w) as [[a | e] w']; reflexivity.
Qed.

Lemma request_served {A} (q : string -> Database -> Reply A * Database)
  (d : Database) (uuid : string) (e : list Outcome) :
  request q (mkWorld d (Served uuid :: e)) =
  (Ret (fst (q uuid d)), mkWorld (snd (q uuid d)) e).
Proof. unfold request; simpl. destruct (q uuid d); reflexivity. Qed.

(** A request changes the database only through its query. *)
Lemma request_db {A} (q : string -> Database -> Reply A * Database)
  (P : Database -> Database -> Prop) :
  (forall d, P d d) ->
  (forall uuid d, P d (snd (q uuid d))) ->
  forall w, P (db w) (db (snd (request q w))).
Proof.
  intros Hrefl Hq [d e]. unfold request; simpl.
  destruct e as [| [uuid | |] e]; simpl; auto.
  specialize (Hq uuid d). destruct (q uuid d); simpl in *; auto.
Qed.

(** ** Relating the database before and after an operation *)

Section Relates.

Variable P : Database -> Database -> Prop.
Hypothesis P_refl : forall d, P d d.
Hypothesis P_trans : forall d1 d2 d3, P d1 d2 -> P d2 d3 -> P d1 d3.

Lemma relates_ret {A} (a : A) : relates P (ret a).
Proof. intros w. apply P_refl. Qed.

Lemma relates_throw {A} (e : Error) : relates P (@throw A e).
Proof. intros w. apply P_refl. Qed.

Lemma relates_bind {A B} (m : Async A) (k : A -> Async B) :
  relates P m -> (forall a, relates P (k a)) -> relates P (bind m k).
Proof.
  intros Hm Hk w. unfold bind. specialize (Hm w).
  destruct (m w) as [[a | e] w']; simpl in *; [| exact Hm].
  eapply P_trans; [exact Hm | apply Hk].
Qed.

Lemma relates_try {A} (m : Async A) (h : Error -> Async A) :
  relates P m -> (forall e, relates P (h e)) -> relates P (try_catch m h).
Proof.
  intros Hm Hh w. unfold try_catch. specialize (Hm w).
  destruct (m w) as [[a | e] w']; simpl in *; [exact Hm |].
  eapply P_trans; [exact Hm | apply Hh].
Qed.

Lemma relates_request {A} (q : string -> Database -> Reply A * Database) :
  (forall uuid d, P d (snd (q uuid d))) -> relates P (request q).
Proof. intros Hq w. apply (request_db q P); auto. Qed.

Lemma relates_reading {A} (f : Database -> Reply A) :
  relates P (request (reading f)).
Proof. apply relates_request. intros; apply P_refl. Qed.

End Relates.

(** Decomposes an operation into its requests. *)
Ltac relate_steps Hrefl Htrans :=
  repeat match goal with
    | |- relates _ (try_catch _ _) => apply (relates_try _ Htrans); [| intros ?]
    | |- relates _ (bind _ _) => apply (relates_bind _ Htrans); [| intros ?]
    | |- relates _ (ret _) => apply (relates_ret _ Hrefl)
    | |- relates _ (throw _) => apply (relates_throw _ Hrefl)
    | |- relates _ (request (reading _)) => apply (relates_reading _ Hrefl)
    | |- relates _ (match ?x with _ => _ end) => destruct x
    | |- relates _ (let _ := _ in _) => progress cbv zeta
    end.

(** ** Effects of the task operations on the tables *)

Lemma keeps_tasks_refl d : keeps_tasks d d.
Proof. reflexivity. Qed.
Lemma keeps_tasks_trans d1 d2 d3 :
  keeps_tasks d1 d2 -> keeps_tasks d2 d3 -> keeps_tasks d1 d3.
Proof. unfold keeps_tasks; congruence. Qed.

Lemma keeps_members_refl d : keeps_members d d.
Proof. reflexivity. Qed.
Lemma keeps_members_trans d1 d2 d3 :
  keeps_members d1 d2 -> keeps_members d2 d3 -> keeps_members d1 d3.
Proof. unfold keeps_members; congruence. Qed.

Lemma keeps_invitations_refl d : keeps_invitations d d.
Proof. reflexivity. Qed.
Lemma keeps_invitations_trans d1 d2 d3 :
  keeps_invitations d1 d2 -> keeps_invitations d2 d3 -> keeps_invitations d1 d3.
Proof. unfold keeps_invitations; congruence. Qed.

Lemma update_progress_keeps v projectId uuid d :
  let d' := snd (update_progress v projectId uuid d) in
  keeps_tasks d d' /\ keeps_members d d' /\ keeps_invitations d d'.
Proof.
  unfold update_progress.
  destruct (_ && _); simpl; repeat split.
Qed.

Lemma updateProjectProgress_tasks projectId :
  relates keeps_tasks (updateProjectProgress projectId).
Proof.
  unfold updateProjectProgress.
  relate_steps keeps_tasks_refl keeps_tasks_trans;
    apply (relates_request _ keeps_tasks_refl); intros; apply update_progress_keeps.
Qed.

Lemma updateProjectProgress_members projectId :
  relates keeps_members (updateProjectProgress projectId).
Proof.
  unfold updateProjectProgress.
  relate_steps keeps_members_refl keeps_members_trans;
    apply (relates_request _ keeps_members_refl); intros; apply update_progress_keeps.
Qed.

Lemma updateProjectProgress_invitations projectId :
  relates keeps_invitations (updateProjectProgress projectId).
Proof.
  unfold updateProjectProgress.
  relate_steps keeps_invitations_refl keeps_invitations_trans;
    apply (relates_request _ keeps_invitations_refl); intros;
    apply update_progress_keeps.
Qed.

(** ** Moving a task *)

Lemma same_but_milestone_refl r : same_but_milestone r r.
Proof. unfold same_but_milestone; repeat split. Qed.

Lemma moved_only_refl taskId d : moved_only taskId d d.
Proof.
  unfold moved_only. induction (tasks d); constructor; auto.
Qed.

Lemma moved_only_trans taskId d1 d2 d3 :
  moved_only taskId d1 d2 -> moved_only taskId d2 d3 -> moved_only taskId d1 d3.
Proof.
  unfold moved_only. generalize (tasks d1), (tasks d2), (tasks d3).
  intros l1 l2 l3 H12. revert l3.
  induction H12 as [| r1 r2 l1 l2 Hr H12 IH]; intros l3 H23;
    inversion H23 as [| r2' r3 l2' l3' Hr' H23']; subst; constructor; auto.
  destruct Hr as [-> | [Hid Hs]]; [exact Hr' |].
  destruct Hr' as [-> | [Hid' Hs']]; [right; split; assumption |].
  right. split; [exact Hid |].
  unfold same_but_milestone in *.
  repeat match goal with H : _ /\ _ |- _ => destruct H end.
  repeat split; congruence.
Qed.

Lemma keeps_tasks_moved_only taskId d d' : keeps_tasks d d' -> moved_only taskId d d'.
Proof.
  unfold keeps_tasks, moved_only. intros ->.
  induction (tasks d); constructor; auto.
Qed.

(** Setting only the milestone column of the rows with key [taskId]. *)
Lemma update_task_milestone_only taskId m uuid d :
  moved_only taskId d
    (snd (update_task (mkTaskUpdate None None None None None None m) taskId uuid d)).
Proof.
  unfold moved_only, update_task; simpl.
  induction (tasks d) as [| r l IH]; simpl; constructor; auto.
  unfold has_task_id. destruct (String.eqb_spec (t_id r) taskId) as [E | E].
  - right. split; [exact E |]. unfold same_but_milestone; simpl. repeat split.
  - left; reflexivity.
Qed.

Lemma updateTask_moved_only taskId m :
  relates (moved_only taskId)
    (updateTask taskId (mkPartialTask None None None None None None m)).
Proof.
  unfold updateTask; simpl.
  relate_steps (moved_only_refl taskId) (moved_only_trans taskId).
  - apply (relates_request _ (moved_only_refl taskId)).
    intros; apply update_task_milestone_only.
  - intros w. apply keeps_tasks_moved_only, updateProjectProgress_tasks.
Qed.

(** C7: [handleMoveTask] changes, in the table of tasks, nothing but the
    milestone reference of the moved task: the rows stay in place, every row
    of another task is left as it is, and the row of the moved task keeps
    all its other columns, its position among them; the target task passed
    to the handler has no effect on the completion or on the stored state. *)
Theorem handleMoveTask_only_milestone :
  forall (projectId taskId : string) (newMilestoneId targetTaskId : option string)
         (w : World),
    Forall2
      (fun r r' => r' = r \/ (t_id r = taskId /\ same_but_milestone r r'))
      (tasks (db w))
      (tasks (db (snd (handleMoveTask projectId taskId newMilestoneId targetTaskId w))))
    /\ (forall other : option string,
          handleMoveTask projectId taskId newMilestoneId other w =
          handleMoveTask projectId taskId newMilestoneId targetTaskId w).
Proof.
  intros projectId taskId m target w. split; [| reflexivity].
  change (moved_only taskId (db w)
            (db (snd (handleMoveTask projectId taskId m target w)))).
  revert w. change (relates (moved_only taskId) (handleMoveTask projectId taskId m target)).
  unfold handleMoveTask.
  apply (relates_try _ (moved_only_trans taskId)).
  - apply updateTask_moved_only.
  - intros e. apply (relates_ret _ (moved_only_refl taskId)).
Qed.

Lemma apply_update_nothing r :
  apply_update (mkTaskUpdate None None None None None None None) r = r.
Proof. destruct r; reflexivity. Qed.

(** Moving a task to no milestone sends an empty update: the table of
    tasks stays as it is, in every environment. *)
Lemma handleMoveTask_without_milestone projectId taskId targetTaskId :
  relates keeps_tasks (handleMoveTask projectId taskId None targetTaskId).
Proof.
  unfold handleMoveTask, updateTask; simpl.
  relate_steps keeps_tasks_refl keeps_tasks_trans.
  - apply (relates_request _ keeps_tasks_refl). intros uuid d.
    unfold keeps_tasks, update_task; simpl.
    rewrite <- (map_id (tasks d)) at 2. apply map_ext.
    intros r. destruct (has_task_id taskId r); [apply apply_update_nothing | reflexivity].
  - apply updateProjectProgress_tasks.
Qed.

(** A served move to the milestone [m] sets the milestone reference of
    the task, whatever happens to the requests that follow. *)
Lemma handleMoveTask_sets_milestone projectId taskId m targetTaskId d uuid e :
  tasks (db (snd (handleMoveTask projectId taskId (Some m) targetTaskId
                    (mkWorld d (Served uuid :: e)))))
  = map (fun r =>
           if has_task_id taskId r
           then mkTask (t_id r) (t_project_id r) (Some m) (t_title r)
                  (t_description r) (t_status r) (t_priority r)
                  (t_assignee_id r) (t_due_date r) (t_position r)
           else r)
      (tasks d).
Proof.
  set (rest :=
         task <- request (reading (select_task_project taskId));;
         match data_of task with
         | Some project_id => updateProjectProgress project_id
         | None => ret tt
         end).
  assert (Hrest : relates keeps_tasks rest).
  { subst rest. relate_steps keeps_tasks_refl keeps_tasks_trans.
    apply updateProjectProgress_tasks. }
  set (d1 := snd (update_task (mkTaskUpdate None None None None None None (Some m))
                    taskId uuid d)).
  assert (Hrun : snd (handleMoveTask projectId taskId (Some m) targetTaskId
                        (mkWorld d (Served uuid :: e)))
                 = snd (rest (mkWorld d1 e))).
  { unfold handleMoveTask, updateTask, try_catch. unfold bind at 1.
    rewrite request_served.
    change (snd
              (match
                  (match rest (mkWorld d1 e) with
                   | (Ret a, w') => (Ret a, w')
                   | (Throw err, w') => throw err w'
                   end)
                with
                | (Ret a, w') => (Ret a, w')
                | (Throw _, w') => ret tt w'
                end)
            = snd (rest (mkWorld d1 e))).
    destruct (rest (mkWorld d1 e)) as [[a | err] w']; reflexivity. }
  rewrite Hrun. rewrite (Hrest (mkWorld d1 e)). reflexivity.
Qed.

(** ** Failures of the progress recomputation *)

Lemma updateProjectProgress_returns projectId w :
  fst (updateProjectProgress projectId w) = Ret tt.
Proof.
  unfold updateProjectProgress, try_catch, bind.
  destruct (request (reading (select_statuses projectId)) w) as [[r | e] w1];
    [| reflexivity].
  destruct (data_of r) as [[| s l] |];
    match goal with
    | |- context [request ?q w1] => destruct (request q w1) as [[? | ?] ?]
    end; reflexivity.
Qed.

(** C10: once the update or the deletion of a task has been carried out, the
    operation returns normally whatever happens to the requests of the
    progress recomputation (refused, rejected, or never answered); the
    stored progress can then be out of date, as it is in the example, where
    the second task of [half_done] is completed and the recomputation is
    rejected.  The lookup of the owning project must have been answered,
    with a row or with an error. *)
Theorem task_mutation_returns_despite_progress_failure :
  (forall taskId updates d uuid o e,
      o <> Crashed ->
      fst (updateTask taskId updates (mkWorld d (Served uuid :: o :: e))) = Ret tt)
  /\ (forall taskId d o uuid e,
         o <> Crashed ->
         fst (deleteTask taskId (mkWorld d (o :: Served uuid :: e))) = Ret tt)
  /\ (let w := mkWorld half_done [Served "r1"; Served "r2"; Crashed] in
      let r := updateTask "t2" (set_status_only COMPLETED) w in
      fst r = Ret tt
      /\ statuses_of (db (snd r)) "p1" = [COMPLETED; COMPLETED]
      /\ derived_progress (db (snd r)) "p1" = Some 100
      /\ stored_progress (db (snd r)) "p1" = [Some 50]).
Proof.
  split; [| split].
  - intros taskId updates d uuid o e Ho.
    unfold updateTask. rewrite try_rethrow. unfold bind. rewrite request_served. simpl.
    destruct o as [u | |]; [| | congruence]; unfold request; simpl.
    + destruct (select_task_project taskId _); simpl;
        [apply updateProjectProgress_returns | reflexivity].
    + reflexivity.
  - intros taskId d o uuid e Ho.
    unfold deleteTask. rewrite try_rethrow. unfold bind.
    destruct o as [u | |]; [| | congruence]; unfold request at 1; simpl.
    + destruct (select_task_project taskId d); simpl;
        [apply updateProjectProgress_returns | reflexivity].
    + reflexivity.
  - vm_compute. repeat split.
Qed.

Lemma task_mutation_returns_despite_progress_failure_witness :
  fst (updateTask "t2" (set_status_only COMPLETED)
         (mkWorld half_done [Served "r1"; Refused; Crashed])) = Ret tt
  /\ fst (deleteTask "t2" (mkWorld half_done [Served "r1"; Served "r2"; Refused])) = Ret tt.
Proof.
  split.
  - apply (proj1 task_mutation_returns_despite_progress_failure); discriminate.
  - apply (proj1 (proj2 task_mutation_returns_despite_progress_failure)); discriminate.
Defined.

(** ** Creating a task *)

Lemma or_zero_Some n : or_zero (Some n) = n.
Proof. unfold or_zero. destruct (Z.eqb_spec n 0); congruence. Qed.

(** On positions that are not NULL, the first row in descending order
    carries the maximum. *)
Lemma top_position_max ps :
  Forall (fun p => p <> None) ps -> ps <> [] ->
  exists m, top_position ps = [Some m] /\ In (Some m) ps /\
            forall q, In (Some q) ps -> q <= m.
Proof.
  induction ps as [| p rest IH]; intros Hall Hne; [congruence |].
  inversion Hall as [| p' rest' Hp Hrest]; subst.
  destruct p as [x |]; [| congruence].
  destruct rest as [| p2 rest2].
  - exists x. simpl. repeat split; auto.
    intros q [E | []]. injection E as ->. lia.
  - remember (p2 :: rest2) as rest eqn:Erest.
    destruct IH as (m & Htop & Hin & Hmax); [assumption | subst; discriminate |].
    cbn [top_position]. rewrite Htop. cbn [before_desc].
    destruct (Z.ltb_spec x m) as [Hlt | Hge].
    + exists m. repeat split; [right; exact Hin |].
      intros q [E | Hq]; [injection E as ->; lia | auto].
    + exists x. repeat split; [left; reflexivity |].
      intros q [E | Hq]; [injection E as ->; lia |].
      specialize (Hmax q Hq). lia.
Qed.

(** In descending order NULL comes first. *)
Lemma top_position_null ps : In None ps -> top_position ps = [None].
Proof.
  induction ps as [| p rest IH]; intros Hin; [contradiction |].
  cbn [top_position].
  destruct Hin as [-> | Hin].
  - destruct (top_position rest) as [| q ?]; [reflexivity |].
    destruct q; reflexivity.
  - rewrite (IH Hin). destruct p; reflexivity.
Qed.

Lemma integer_check_range n :
  integer_check n = true <-> -2147483648 <= n <= 2147483647.
Proof. unfold integer_check. rewrite andb_true_iff, !Z.leb_le. tauto. Qed.

(** The run of [createTask] when the request of the insert is served. *)
Lemma createTask_run projectId taskData d o u2 e :
  o <> Crashed ->
  existsb (has_task_id u2) (tasks d) = false ->
  let position := highest_seen o projectId d + 1 in
  createTask projectId taskData (mkWorld d (o :: Served u2 :: e))
  = if integer_check position
    then (Ret (dbToTask (inserted_row projectId taskData u2 position)),
          mkWorld
            (with_tasks d (tasks d ++ [inserted_row projectId taskData u2 position]))
            e)
    else (Throw (PostgrestError "22003"), mkWorld d e).
Proof.
  intros Ho Hfresh position.
  unfold createTask. rewrite try_rethrow. unfold bind at 1.
  assert (Hlookup :
            exists r,
              request (reading (select_max_position projectId)) (mkWorld d (o :: Served u2 :: e))
              = (Ret r, mkWorld d (Served u2 :: e))
              /\ or_zero (match data_of r with Some p => p | None => None end) + 1
                 = position).
  { destruct o as [u1 | |]; [| | congruence].
    - eexists. split; [apply request_served | reflexivity].
    - eexists. split; reflexivity. }
  destruct Hlookup as (r & -> & Hr). cbv zeta. unfold bind at 1.
  rewrite request_served. unfold insert_task.
  cbn [ins_position position_check]. rewrite Hr.
  destruct (integer_check position); cbn [negb]; [| reflexivity].
  rewrite Hfresh. reflexivity.
Qed.

(** C6, as the code has it.  The position that [createTask] gives to the
    new task is the highest position that its lookup has seen plus one.
    When the lookup is served this is 1 in a project without tasks, the
    maximum of the positions plus one when no position of the project is
    NULL, and 1 when one of them is NULL (NULL comes first in descending
    order); when the lookup is refused it is 1 whatever the positions are,
    because the error of the lookup is not read.  With the insert served
    under an unused identifier, the task is appended with this position,
    and with the status Todo when the caller gives none, provided the
    position is in the range of the column; beyond 2147483647 the insert is
    refused, [createTask] throws and nothing is stored.  When the insert is
    refused nothing is stored either. *)
Theorem createTask_next_position_default_status :
  forall (projectId : string) (taskData : TaskData) (d : Database)
         (o : Outcome) (u2 : string) (e : list Outcome),
    let positions := map t_position (filter (of_project projectId) (tasks d)) in
    existsb (has_task_id u2) (tasks d) = false ->
    o <> Crashed ->
    exists position : Z,
      match o with
      | Served _ =>
          (positions = [] -> position = 1)
          /\ (In None positions -> position = 1)
          /\ (positions <> [] -> Forall (fun p => p <> None) positions ->
              exists m, In (Some m) positions
                        /\ (forall q, In (Some q) positions -> q <= m)
                        /\ position = m + 1)
      | _ => position = 1
      end
      /\ (-2147483648 <= position <= 2147483647 ->
          exists row : TaskRow,
            createTask projectId taskData (mkWorld d (o :: Served u2 :: e))
            = (Ret (dbToTask row), mkWorld (with_tasks d (tasks d ++ [row])) e)
            /\ t_project_id row = projectId
            /\ t_position row = Some position
            /\ (forall s, td_status taskData = Some s -> status (dbToTask row) = s)
            /\ (td_status taskData = None -> status (dbToTask row) = TODO))
      /\ (~ (-2147483648 <= position <= 2147483647) ->
          createTask projectId taskData (mkWorld d (o :: Served u2 :: e))
          = (Throw (PostgrestError "22003"), mkWorld d e))
      /\ createTask projectId taskData (mkWorld d (o :: Refused :: e))
         = (Throw (PostgrestError "refused"), mkWorld d e).
Proof.
  intros projectId taskData d o u2 e positions Hfresh Ho.
  exists (highest_seen o projectId d + 1).
  pose proof (createTask_run projectId taskData d o u2 e Ho Hfresh) as Hrun.
  cbv zeta in Hrun.
  split; [| split; [| split]].
  - destruct o as [u1 | |]; [| reflexivity | congruence].
    unfold highest_seen, select_max_position. fold positions.
    split; [| split].
    + intros ->. reflexivity.
    + intros Hnull. rewrite (top_position_null positions Hnull). reflexivity.
    + intros Hne Hpos.
      destruct (top_position_max positions Hpos Hne) as (m & Htop & Hin & Hmax).
      exists m. rewrite Htop. cbn [single data_of]. rewrite or_zero_Some. auto.
  - intros Hin. apply integer_check_range in Hin.
    rewrite Hin in Hrun. eexists. split; [exact Hrun |].
    unfold inserted_row.
    cbn [t_project_id t_position dbToTask status t_status].
    split; [reflexivity |]. split; [reflexivity |].
    split; [intros s ->; reflexivity | intros ->; reflexivity].
  - intros Hout.
    destruct (integer_check (highest_seen o projectId d + 1)) eqn:Hc;
      [| exact Hrun].
    exfalso. apply Hout, integer_check_range, Hc.
  - unfold createTask. rewrite try_rethrow. unfold bind at 1.
    destruct o as [u1 | |]; [| | congruence].
    + rewrite request_served. reflexivity.
    + reflexivity.
Qed.

Lemma createTask_next_position_default_status_witness :
  createTask "p1" (mkTaskData "new" None None None None None None)
    (mkWorld last_position [Served "r1"; Served "t2"])
  = (Throw (PostgrestError "22003"), mkWorld last_position []).
Proof.
  destruct (createTask_next_position_default_status "p1"
              (mkTaskData "new" None None None None None None)
              last_position (Served "r1") "t2" [])
    as (position & (_ & _ & Hmax) & _ & Hout & _).
  - reflexivity.
  - discriminate.
  - apply Hout.
    destruct Hmax as (m & Hin & _ & ->);
      [discriminate | repeat constructor; discriminate |].
    simpl in Hin. destruct Hin as [E | []]. injection E as <-. lia.
Defined.

(** The claim as the specification words it fails when the lookup of the
    highest position is refused and the insert is served: in a project
    with tasks at the positions 1 and 2 the new task is stored at the
    position 1, not 3. *)
Lemma createTask_after_refused_lookup_starts_at_1 :
  map t_position (filter (of_project "p1") (tasks two_positions)) = [Some 1; Some 2]
  /\ exists row : TaskRow,
       createTask "p1" (mkTaskData "new" None None None None None None)
         (mkWorld two_positions [Refused; Served "t3"])
       = (Ret (dbToTask row),
          mkWorld (with_tasks two_positions (tasks two_positions ++ [row])) [])
       /\ t_position row = Some 1.
Proof.
  split; [reflexivity |]. eexists. split; reflexivity.
Qed.

(** ** Declining and cancelling an invitation *)

Lemma filter_keep_all {A} (f : A -> bool) (l : list A) :
  (forall x, In x l -> f x = true) -> filter f l = l.
Proof.
  induction l as [| a l IH]; intros H; simpl; [reflexivity |].
  rewrite (H a (or_introl eq_refl)). f_equal. apply IH.
  intros x Hx. apply H. right; exact Hx.
Qed.

Lemma with_invitations_same d : with_invitations d (project_invitations d) = d.
Proof. destruct d; reflexivity. Qed.

Lemma declineProjectInvitation_members invitationId :
  relates keeps_members (declineProjectInvitation invitationId).
Proof.
  unfold declineProjectInvitation.
  relate_steps keeps_members_refl keeps_members_trans.
  apply (relates_request _ keeps_members_refl). intros; reflexivity.
Qed.

Lemma cancelProjectInvitation_members invitationId :
  relates keeps_members (cancelProjectInvitation invitationId).
Proof.
  unfold cancelProjectInvitation.
  relate_steps keeps_members_refl keeps_members_trans.
  apply (relates_request _ keeps_members_refl). intros; reflexivity.
Qed.

(** C8: declining and cancelling leave the table of memberships as it is,
    in every environment.  A served cancellation deletes exactly the rows
    with the given key that are pending; a cancellation that is not served
    deletes nothing; and when the invitation is accepted or declined the
    cancellation leaves the whole database as it is. *)
Theorem decline_cancel_no_membership :
  forall (invitationId : string) (w : World),
    let cancelled := db (snd (cancelProjectInvitation invitationId w)) in
    let rest :=
      filter (fun i => negb (has_invitation_id invitationId i && is_pending i))
        (project_invitations (db w)) in
    project_members (db (snd (declineProjectInvitation invitationId w)))
    = project_members (db w)
    /\ project_members cancelled = project_members (db w)
    /\ (project_invitations cancelled = rest
        \/ project_invitations cancelled = project_invitations (db w))
    /\ (forall uuid e, env w = Served uuid :: e ->
                       project_invitations cancelled = rest)
    /\ ((forall i, In i (project_invitations (db w)) ->
                   i_id i = invitationId -> i_status i <> pending) ->
        cancelled = db w).
Proof.
  intros invitationId w cancelled rest.
  split; [apply declineProjectInvitation_members |].
  split; [apply cancelProjectInvitation_members |].
  assert (Hrun :
    cancelled = with_invitations (db w) rest /\ (exists uuid e, env w = Served uuid :: e)
    \/ cancelled = db w /\ (forall uuid e, env w <> Served uuid :: e)).
  { subst cancelled rest. unfold cancelProjectInvitation. rewrite try_rethrow.
    unfold bind, request. destruct w as [d e]. simpl.
    destruct e as [| [uuid | |] e]; simpl.
    - right; split; [reflexivity | discriminate].
    - left; split; [reflexivity | eauto].
    - right; split; [reflexivity | discriminate].
    - right; split; [reflexivity | discriminate]. }
  split; [| split].
  - destruct Hrun as [[-> _] | [-> _]]; [left | right]; reflexivity.
  - intros uuid e He. destruct Hrun as [[-> _] | [_ Hno]]; [reflexivity |].
    exfalso; exact (Hno _ _ He).
  - intros Hresolved. destruct Hrun as [[-> _] | [-> _]]; [| reflexivity].
    subst rest. rewrite filter_keep_all; [apply with_invitations_same |].
    intros i Hi. unfold has_invitation_id, is_pending.
    destruct (String.eqb_spec (i_id i) invitationId) as [E | E]; [| reflexivity].
    specialize (Hresolved i Hi E).
    destruct (i_status i); simpl; congruence.
Qed.

Lemma decline_cancel_no_membership_witness :
  db (snd (cancelProjectInvitation "i1" (mkWorld (invited accepted) (serving ["r1"%string]))))
  = invited accepted
  /\ project_invitations
       (db (snd (cancelProjectInvitation "i1"
                   (mkWorld (invited pending) (serving ["r1"%string])))))
     = [].
Proof.
  split.
  - apply (decline_cancel_no_membership "i1"
             (mkWorld (invited accepted) (serving ["r1"%string]))).
    simpl. intros i [<- | []] _. discriminate.
  - apply (proj1 (proj2 (proj2 (proj2
             (decline_cancel_no_membership "i1"
                (mkWorld (invited pending) (serving ["r1"%string])))))) "r1"%string []).
    reflexivity.
Defined.

(** ** The role of an invitation *)

Lemma roles_kept_refl d : roles_kept d d.
Proof. unfold roles_kept; auto. Qed.

Lemma roles_kept_trans d1 d2 d3 :
  roles_kept d1 d2 -> roles_kept d2 d3 -> roles_kept d1 d3.
Proof. unfold roles_kept; auto. Qed.

Lemma keeps_invitations_roles d d' : keeps_invitations d d' -> roles_kept d d'.
Proof. unfold keeps_invitations, roles_kept, roles_ok. intros ->; auto. Qed.

Lemma role_check_sound r :
  invitation_role_check r = true -> r = Member \/ r = Viewer.
Proof. destruct r; simpl; auto; discriminate. Qed.

Lemma insert_invitation_roles p u b r uuid d :
  roles_kept d (snd (insert_invitation p u b r uuid d)).
Proof.
  unfold insert_invitation, roles_kept, roles_ok.
  destruct (invitation_role_check r) eqn:Hr; simpl; [| auto].
  destruct (_ || _); simpl; [auto |].
  intros H. apply Forall_app. split; [exact H |].
  constructor; [| constructor]. simpl. apply role_check_sound, Hr.
Qed.

Lemma update_invitation_status_roles st i uuid d :
  roles_kept d (snd (update_invitation_status st i uuid d)).
Proof.
  unfold update_invitation_status, roles_kept, roles_ok; simpl.
  induction (project_invitations d) as [| x l IH]; simpl; intros H;
    inversion H; subst; constructor; auto.
  destruct (has_invitation_id i x); simpl; assumption.
Qed.

Lemma delete_pending_invitation_roles i uuid d :
  roles_kept d (snd (delete_pending_invitation i uuid d)).
Proof.
  unfold delete_pending_invitation, roles_kept, roles_ok; simpl.
  rewrite !Forall_forall. intros H x Hx. apply filter_In in Hx. apply H, Hx.
Qed.

Lemma insert_task_invitations v uuid d :
  keeps_invitations d (snd (insert_task v uuid d)).
Proof.
  unfold insert_task. destruct (negb _); [reflexivity |].
  destruct (existsb _ _); reflexivity.
Qed.

Lemma update_task_place_invitations m p taskId uuid d :
  keeps_invitations d (snd (update_task_place m p taskId uuid d)).
Proof. unfold update_task_place. destruct (negb _); reflexivity. Qed.

Lemma insert_member_invitations p u r uuid d :
  keeps_invitations d (snd (insert_member p u r uuid d)).
Proof. unfold insert_member. destruct (_ || _); reflexivity. Qed.

Lemma update_progress_invitations v p uuid d :
  keeps_invitations d (snd (update_progress v p uuid d)).
Proof. apply update_progress_keeps. Qed.

Ltac relate_roles :=
  relate_steps roles_kept_refl roles_kept_trans;
  try (apply (relates_request _ roles_kept_refl); intros;
       first [ apply insert_invitation_roles
             | apply update_invitation_status_roles
             | apply delete_pending_invitation_roles
             | apply keeps_invitations_roles;
               first [ apply insert_task_invitations
                     | apply update_task_place_invitations
                     | apply insert_member_invitations
                     | apply update_progress_invitations
                     | reflexivity ] ]).

Lemma updateProjectProgress_roles projectId :
  relates roles_kept (updateProjectProgress projectId).
Proof.
  intros w. apply keeps_invitations_roles, updateProjectProgress_invitations.
Qed.

Lemma perform_roles (c : Call) (w : World) :
  roles_ok (db w) -> roles_ok (db (perform c w)).
Proof.
  revert w. destruct c; simpl;
    match goal with
    | |- forall w, roles_ok (db w) -> roles_ok (db (snd (?m w))) =>
        change (relates roles_kept m)
    end;
    [ unfold createTask | unfold updateTask | unfold deleteTask | unfold moveTask
    | unfold handleMoveTask, updateTask | unfold addProjectMember
    | unfold createProjectInvitation | unfold acceptProjectInvitation
    | unfold declineProjectInvitation | unfold cancelProjectInvitation ];
    relate_roles; apply updateProjectProgress_roles.
Qed.

Lemma run_roles (calls : list Call) :
  forall w, roles_ok (db w) -> roles_ok (db (run calls w)).
Proof.
  unfold run. induction calls as [| c calls IH]; intros w H; simpl; [exact H |].
  apply IH, perform_roles, H.
Qed.

(** Case analysis on the run of an operation, down to its requests. *)
Ltac run_cases H :=
  unfold try_catch, bind, request, reading, throw, ret in H; simpl in H;
  repeat match type of H with
    | context [match ?x with _ => _ end] =>
        match x with
        | context [match _ with _ => _ end] => fail 1
        | _ => destruct x eqn:?; simpl in H; try discriminate H
        end
    | context [if ?b then _ else _] =>
        match b with
        | context [if _ then _ else _] => fail 1
        | _ => destruct b eqn:?; simpl in H; try discriminate H
        end
    end.

Lemma createProjectInvitation_role p u b role w inv :
  fst (createProjectInvitation p u b role w) = Ret inv ->
  inv_role inv = role /\ (role = Member \/ role = Viewer)
  /\ inv_status inv = pending.
Proof.
  intros H. destruct w as [d e].
  unfold createProjectInvitation, insert_invitation in H.
  run_cases H.
  all: injection H as <-; simpl.
  all: repeat split; auto.
  all: match goal with
       | Hc : negb (invitation_role_check ?r) = false |- _ =>
           apply negb_false_iff in Hc; apply role_check_sound in Hc; exact Hc
       end.
Qed.

(** C9: the property that every stored invitation proposes the role Member
    or Viewer is kept by every sequence of calls of the data-access layer,
    in every environment; the invite operation returns an invitation only
    for these two roles, with the role it was given, and throws for Owner. *)
Theorem invitation_role_member_or_viewer :
  (forall (calls : list Call) (w : World),
      roles_ok (db w) -> roles_ok (db (run calls w)))
  /\ (forall projectId invitedUserId invitedBy role w inv,
         fst (createProjectInvitation projectId invitedUserId invitedBy role w)
         = Ret inv ->
         inv_role inv = role /\ (role = Member \/ role = Viewer))
  /\ (forall projectId invitedUserId invitedBy w,
         exists e,
           fst (createProjectInvitation projectId invitedUserId invitedBy Owner w)
           = Throw e).
Proof.
  split; [exact run_roles | split].
  - intros p u b role w inv H.
    destruct (createProjectInvitation_role p u b role w inv H) as (? & ? & _).
    auto.
  - intros p u b w.
    destruct (fst (createProjectInvitation p u b Owner w)) as [inv | e] eqn:H;
      [| eauto].
    destruct (createProjectInvitation_role p u b Owner w inv H)
      as (_ & [? | ?] & _); discriminate.
Qed.

Lemma invitation_role_member_or_viewer_witness :
  roles_ok
    (db (run [CreateProjectInvitation "p1" "u2" "owner" Owner;
              CreateProjectInvitation "p1" "u2" "owner" Viewer;
              DeclineProjectInvitation "i1"]
           (mkWorld half_done
              (serving ["r1"; "r2"; "i0"; "r3"; "r4"; "i1"; "r5"]%string))))
  /\ (Viewer = Member \/ Viewer = Viewer).
Proof.
  split.
  - apply (proj1 invitation_role_member_or_viewer). constructor.
  - apply (proj1 (proj2 invitation_role_member_or_viewer)
             "p1"%string "u2"%string "owner"%string Viewer
             (mkWorld half_done (serving ["r1"; "r2"; "i1"]%string))
             (mkProjectInvitation "i1" "p1" "u2" "owner" Viewer pending)).
    reflexivity.
Defined.

(** ** Keys and [.single()] *)

Lemma filter_none {A} (f : A -> bool) (l : list A) :
  existsb f l = false -> filter f l = [].
Proof.
  induction l as [| a l IH]; simpl; [reflexivity |].
  destruct (f a); simpl; [discriminate | exact IH].
Qed.

(** Under a key, a filter that fixes the key finds at most one row. *)
Lemma filter_unique {A K} (k : A -> K) (f : A -> bool) (key : K) (l : list A) :
  (forall x, f x = true -> k x = key) ->
  NoDup (map k l) ->
  existsb f l = true ->
  exists x, filter f l = [x] /\ In x l /\ f x = true.
Proof.
  intros Hkey. induction l as [| a l IH]; simpl; intros Hnd Hex; [discriminate |].
  inversion Hnd as [| ka kl Hnotin Hnd']; subst.
  destruct (f a) eqn:Hfa.
  - exists a. split; [| auto].
    f_equal. apply filter_none.
    destruct (existsb f l) eqn:Hl; [| reflexivity].
    apply existsb_exists in Hl. destruct Hl as (x & Hx & Hfx).
    exfalso. apply Hnotin.
    rewrite (Hkey a Hfa), <- (Hkey x Hfx). apply in_map, Hx.
  - simpl in Hex. destruct (IH Hnd' Hex) as (x & Hf & Hin & Hfx).
    exists x. auto.
Qed.

Lemma member_of_key p u m : member_of p u m = true -> member_key m = (p, u).
Proof.
  unfold member_of, member_key. intros H. apply andb_true_iff in H.
  destruct H as [H1 H2]. apply String.eqb_eq in H1, H2. congruence.
Qed.

Lemma invited_to_key p u i : invited_to p u i = true -> invitation_key i = (p, u).
Proof.
  unfold invited_to, invitation_key. intros H. apply andb_true_iff in H.
  destruct H as [H1 H2]. apply String.eqb_eq in H1, H2. congruence.
Qed.

Lemma existsb_pending_invited p u l :
  existsb (invited_to p u) l = false ->
  existsb (fun i => invited_to p u i && is_pending i) l = false.
Proof.
  induction l as [| a l IH]; simpl; [reflexivity |].
  intros H. apply orb_false_iff in H. destruct H as [-> H]. simpl. auto.
Qed.

(** ** Inviting a user *)


Lemma half_done_constraints : Constraints half_done.
Proof.
  constructor; simpl; repeat constructor; simpl; intuition discriminate.
Qed.

Lemma invited_constraints st : Constraints (invited st).
Proof.
  constructor; simpl; repeat constructor; simpl; intuition discriminate.
Qed.



(** ** Accepting an invitation *)

Lemma NoDup_map_inj {A K} (k : A -> K) (l : list A) (x y : A) :
  NoDup (map k l) -> In x l -> In y l -> k x = k y -> x = y.
Proof.
  induction l as [| a l IH]; simpl; intros Hnd Hx Hy Hk; [contradiction |].
  inversion Hnd as [| ka kl Hnotin Hnd']; subst.
  destruct Hx as [-> | Hx], Hy as [-> | Hy]; auto.
  - exfalso. apply Hnotin. rewrite Hk. apply in_map, Hy.
  - exfalso. apply Hnotin. rewrite <- Hk. apply in_map, Hx.
Qed.

Lemma existsb_none {A} (f : A -> bool) (l : list A) :
  (forall x, In x l -> f x = false) -> existsb f l = false.
Proof.
  induction l as [| a l IH]; simpl; intros H; [reflexivity |].
  rewrite (H a (or_introl eq_refl)). simpl. apply IH. auto.
Qed.

Lemma pending_by_id_found invitationId d inv :
  Constraints d ->
  In inv (project_invitations d) ->
  i_id inv = invitationId -> i_status inv = pending ->
  select_pending_by_id invitationId d = Data inv.
Proof.
  intros HC Hin Hid Hst. unfold select_pending_by_id.
  set (f := fun i => has_invitation_id invitationId i && is_pending i).
  assert (Hf : f inv = true).
  { unfold f, has_invitation_id, is_pending. rewrite Hid, Hst, String.eqb_refl.
    reflexivity. }
  destruct (filter_unique i_id f invitationId (project_invitations d))
    as (x & Hx & Hxin & Hfx).
  - intros x Hx. apply andb_true_iff in Hx. apply String.eqb_eq, Hx.
  - exact (invitations_pkey d HC).
  - apply existsb_exists. exists inv. auto.
  - rewrite Hx. simpl. f_equal.
    apply (NoDup_map_inj i_id (project_invitations d)); auto.
    + exact (invitations_pkey d HC).
    + apply andb_true_iff in Hfx. destruct Hfx as [Hfx _].
      apply String.eqb_eq in Hfx. congruence.
Qed.

Lemma pending_by_id_missing invitationId d :
  (forall i, In i (project_invitations d) ->
             i_id i = invitationId -> i_status i <> pending) ->
  select_pending_by_id invitationId d = Failure (PostgrestError "PGRST116").
Proof.
  intros H. unfold select_pending_by_id. rewrite filter_none; [reflexivity |].
  apply existsb_none. intros i Hi. unfold has_invitation_id, is_pending.
  destruct (String.eqb_spec (i_id i) invitationId) as [E | E]; [| reflexivity].
  specialize (H i Hi E). destruct (i_status i); simpl; congruence.
Qed.

(** C2, as the code has it: with its requests served on a database that
    satisfies the keys of the schema, accepting a pending invitation whose
    invitee is not yet a member of the project appends exactly one
    membership, with the project, the user and the role of the invitation,
    and sets the status of the invitation to accepted; when the invitee is
    already a member, the insert violates [UNIQUE(project_id, user_id)] and
    accepting throws, the database staying as it is; accepting an
    invitation that is not pending (or that does not exist) throws in every
    environment and leaves the database as it is. *)
Theorem acceptProjectInvitation_outcomes :
  (forall (invitationId : string) (d : Database) (inv : InvitationRow)
          (u1 u2 u3 : string) (e : list Outcome),
      Constraints d ->
      In inv (project_invitations d) ->
      i_id inv = invitationId -> i_status inv = pending ->
      is_member d (i_project_id inv) (i_invited_user_id inv) = false ->
      existsb (fun m => String.eqb (m_id m) u2) (project_members d) = false ->
      let accepted_rows :=
        map (fun i => if has_invitation_id invitationId i
                      then set_invitation_status accepted i else i)
          (project_invitations d) in
      acceptProjectInvitation invitationId
        (mkWorld d (Served u1 :: Served u2 :: Served u3 :: e))
      = (Ret tt,
         mkWorld
           (mkDatabase (projects d)
              (project_members d
               ++ [mkMember u2 (i_project_id inv) (i_invited_user_id inv) (i_role inv)])
              (tasks d) accepted_rows)
           e)
      /\ In (set_invitation_status accepted inv) accepted_rows)
  /\ (forall (invitationId : string) (d : Database) (inv : InvitationRow)
             (u1 u2 : string) (e : list Outcome),
         Constraints d ->
         In inv (project_invitations d) ->
         i_id inv = invitationId -> i_status inv = pending ->
         is_member d (i_project_id inv) (i_invited_user_id inv) = true ->
         acceptProjectInvitation invitationId
           (mkWorld d (Served u1 :: Served u2 :: e))
         = (Throw (PostgrestError "23505"), mkWorld d e))
  /\ (forall (invitationId : string) (w : World),
         (forall i, In i (project_invitations (db w)) ->
                    i_id i = invitationId -> i_status i <> pending) ->
         (exists err, fst (acceptProjectInvitation invitationId w) = Throw err)
         /\ db (snd (acceptProjectInvitation invitationId w)) = db w).
Proof.
  split; [| split].
  - intros invitationId d inv u1 u2 u3 e HC Hin Hid Hst Hm Hfresh rows.
    split.
    + unfold acceptProjectInvitation. rewrite try_rethrow. unfold bind.
      rewrite request_served. cbn [reading fst snd].
      rewrite (pending_by_id_found invitationId d inv HC Hin Hid Hst).
      rewrite request_served. unfold insert_member.
      unfold is_member in Hm. rewrite Hfresh, Hm. cbn [orb fst snd].
      rewrite request_served. reflexivity.
    + subst rows.
      apply (in_map (fun i => if has_invitation_id invitationId i
                              then set_invitation_status accepted i else i)) in Hin.
      unfold has_invitation_id in Hin at 1.
      rewrite Hid, String.eqb_refl in Hin. exact Hin.
  - intros invitationId d inv u1 u2 e HC Hin Hid Hst Hm.
    unfold acceptProjectInvitation. rewrite try_rethrow. unfold bind.
    rewrite request_served. cbn [reading fst snd].
    rewrite (pending_by_id_found invitationId d inv HC Hin Hid Hst).
    rewrite request_served. unfold insert_member.
    unfold is_member in Hm. rewrite Hm, orb_true_r. reflexivity.
  - intros invitationId [d e] Hnone. simpl in Hnone.
    unfold acceptProjectInvitation. rewrite try_rethrow. unfold bind, request.
    cbn [env db].
    destruct e as [| [uuid | |] e]; cbn [reading fst snd throw];
      try (split; [eexists; reflexivity | reflexivity]).
    rewrite (pending_by_id_missing invitationId d Hnone).
    split; [eexists; reflexivity | reflexivity].
Qed.

Lemma acceptProjectInvitation_outcomes_witness :
  acceptProjectInvitation "i1"
    (mkWorld (invited pending) (serving ["r1"; "m2"; "r3"]%string))
  = (Ret tt,
     mkWorld
       (mkDatabase (projects half_done)
          [mkMember "m1" "p1" "owner" Owner; mkMember "m2" "p1" "u2" Member]
          (tasks half_done)
          [mkInvitation "i1" "p1" "u2" "owner" Member accepted])
       [])
  /\ (exists err,
        fst (acceptProjectInvitation "i1"
               (mkWorld (invited declined) (serving ["r1"; "m2"; "r3"]%string)))
        = Throw err).
Proof.
  split.
  - apply (proj1 acceptProjectInvitation_outcomes "i1"%string (invited pending)
             (mkInvitation "i1" "p1" "u2" "owner" Member pending)
             "r1"%string "m2"%string "r3"%string []
             (invited_constraints pending));
      [left; reflexivity | reflexivity | reflexivity | reflexivity | reflexivity].
  - apply (proj2 (proj2 acceptProjectInvitation_outcomes) "i1"%string
             (mkWorld (invited declined) (serving ["r1"; "m2"; "r3"]%string))).
    simpl. intros i [<- | []] _. discriminate.
Defined.

(** C2 as stated fails: the invitation [i1] is pending, but its invitee has
    meanwhile been added to the project; accepting it throws (the unique
    key on project and user), creates no membership and leaves the
    invitation pending. *)
Lemma accept_by_member_refused :
  In (mkInvitation "i1" "p1" "u2" "owner" Viewer pending)
    (project_invitations (db invited_then_added))
  /\ is_member (db invited_then_added) "p1" "u2" = true
  /\ acceptProjectInvitation "i1" invited_then_added
     = (Throw (PostgrestError "23505"),
        mkWorld (db invited_then_added) (serving ["r4"%string])).
Proof. vm_compute. repeat split. left; reflexivity. Qed.

(** ** The keys of the schema are invariants *)

Lemma NoDup_map_snoc {A K} (k : A -> K) (l : list A) (x : A) :
  NoDup (map k l) -> ~ In (k x) (map k l) -> NoDup (map k (l ++ [x])).
Proof.
  induction l as [| a l IH]; simpl; intros Hnd Hnotin.
  - constructor; [intros [] | constructor].
  - inversion Hnd as [| ka kl Ha Hnd']; subst.
    constructor; [| apply IH; tauto].
    rewrite map_app, in_app_iff. simpl. intros [Hin | [E | []]]; [tauto |].
    apply Hnotin. left. symmetry. exact E.
Qed.

Lemma NoDup_map_filter {A K} (k : A -> K) (f : A -> bool) (l : list A) :
  NoDup (map k l) -> NoDup (map k (filter f l)).
Proof.
  induction l as [| a l IH]; simpl; intros Hnd; [constructor |].
  inversion Hnd as [| ka kl Hnotin Hnd']; subst.
  destruct (f a); simpl; [| auto].
  constructor; [| auto].
  intros Hin. apply Hnotin. apply in_map_iff in Hin.
  destruct Hin as (x & Hk & Hx). apply filter_In in Hx.
  rewrite <- Hk. apply in_map, Hx.
Qed.

Lemma map_key_kept {A K} (k : A -> K) (g : A -> A) (l : list A) :
  (forall x, k (g x) = k x) -> map k (map g l) = map k l.
Proof.
  intros H. rewrite map_map. apply map_ext. exact H.
Qed.

Lemma key_not_stored {A K} (k : A -> K) (f : A -> bool) (key : K) (l : list A) :
  (forall x, k x = key -> f x = true) ->
  existsb f l = false -> ~ In key (map k l).
Proof.
  intros Hf Hex Hin. apply in_map_iff in Hin. destruct Hin as (x & Hk & Hx).
  assert (existsb f l = true) by (apply existsb_exists; eauto).
  congruence.
Qed.

Lemma constraints_kept_refl d : constraints_kept d d.
Proof. unfold constraints_kept; auto. Qed.

Lemma constraints_kept_trans d1 d2 d3 :
  constraints_kept d1 d2 -> constraints_kept d2 d3 -> constraints_kept d1 d3.
Proof. unfold constraints_kept; auto. Qed.

Lemma insert_task_constraints v uuid d :
  constraints_kept d (snd (insert_task v uuid d)).
Proof.
  unfold insert_task, constraints_kept.
  destruct (negb _); [auto |].
  destruct (existsb (has_task_id uuid) (tasks d)) eqn:Hex; simpl; [auto |].
  intros [H1 H2 H3 H4]. constructor; simpl; auto.
  apply NoDup_map_snoc; [exact H1 |]. simpl.
  apply (key_not_stored t_id (has_task_id uuid)); [| exact Hex].
  intros x <-. apply String.eqb_refl.
Qed.

Lemma update_task_constraints u taskId uuid d :
  constraints_kept d (snd (update_task u taskId uuid d)).
Proof.
  unfold update_task, constraints_kept; simpl.
  intros [H1 H2 H3 H4]. constructor; simpl; auto.
  rewrite map_key_kept; [exact H1 |].
  intros x. destruct (has_task_id taskId x); reflexivity.
Qed.

Lemma update_task_place_constraints m p taskId uuid d :
  constraints_kept d (snd (update_task_place m p taskId uuid d)).
Proof.
  unfold update_task_place, constraints_kept.
  destruct (negb _); simpl; [auto |].
  intros [H1 H2 H3 H4]. constructor; simpl; auto.
  rewrite map_key_kept; [exact H1 |].
  intros x. destruct (has_task_id taskId x); reflexivity.
Qed.

Lemma delete_task_constraints taskId uuid d :
  constraints_kept d (snd (delete_task taskId uuid d)).
Proof.
  unfold delete_task, constraints_kept; simpl.
  intros [H1 H2 H3 H4]. constructor; simpl; auto.
  apply NoDup_map_filter, H1.
Qed.

Lemma update_progress_constraints v p uuid d :
  constraints_kept d (snd (update_progress v p uuid d)).
Proof.
  unfold update_progress, constraints_kept.
  destruct (_ && _); simpl; [auto |].
  intros [H1 H2 H3 H4]. constructor; simpl; auto.
Qed.

Lemma insert_member_constraints p u r uuid d :
  constraints_kept d (snd (insert_member p u r uuid d)).
Proof.
  unfold insert_member, constraints_kept.
  destruct (_ || _) eqn:Hex; simpl; [auto |].
  apply orb_false_iff in Hex. destruct Hex as [_ Hkey].
  intros [H1 H2 H3 H4]. constructor; simpl; auto.
  apply NoDup_map_snoc; [exact H2 |]. simpl.
  apply (key_not_stored member_key (member_of p u)); [| exact Hkey].
  intros x Hx. unfold member_key in Hx. injection Hx as <- <-.
  unfold member_of. rewrite !String.eqb_refl. reflexivity.
Qed.

Lemma insert_invitation_constraints p u b r uuid d :
  constraints_kept d (snd (insert_invitation p u b r uuid d)).
Proof.
  unfold insert_invitation, constraints_kept.
  destruct (negb _); simpl; [auto |].
  destruct (_ || _) eqn:Hex; simpl; [auto |].
  apply orb_false_iff in Hex. destruct Hex as [Hid Hkey].
  intros [H1 H2 H3 H4]. constructor; simpl; auto.
  - apply NoDup_map_snoc; [exact H3 |]. simpl.
    apply (key_not_stored i_id (has_invitation_id uuid)); [| exact Hid].
    intros x <-. apply String.eqb_refl.
  - apply NoDup_map_snoc; [exact H4 |]. simpl.
    apply (key_not_stored invitation_key (invited_to p u)); [| exact Hkey].
    intros x Hx. unfold invitation_key in Hx. injection Hx as <- <-.
    unfold invited_to. rewrite !String.eqb_refl. reflexivity.
Qed.

Lemma update_invitation_status_constraints st i uuid d :
  constraints_kept d (snd (update_invitation_status st i uuid d)).
Proof.
  unfold update_invitation_status, constraints_kept; simpl.
  intros [H1 H2 H3 H4]. constructor; simpl; auto.
  - rewrite map_key_kept; [exact H3 |].
    intros x. destruct (has_invitation_id i x); reflexivity.
  - rewrite map_key_kept; [exact H4 |].
    intros x. destruct (has_invitation_id i x); reflexivity.
Qed.

Lemma delete_pending_invitation_constraints i uuid d :
  constraints_kept d (snd (delete_pending_invitation i uuid d)).
Proof.
  unfold delete_pending_invitation, constraints_kept; simpl.
  intros [H1 H2 H3 H4]. constructor; simpl; auto.
  - apply NoDup_map_filter, H3.
  - apply NoDup_map_filter, H4.
Qed.

Ltac relate_constraints :=
  relate_steps constraints_kept_refl constraints_kept_trans;
  try (apply (relates_request _ constraints_kept_refl); intros;
       first [ apply insert_task_constraints
             | apply update_task_constraints
             | apply update_task_place_constraints
             | apply delete_task_constraints
             | apply update_progress_constraints
             | apply insert_member_constraints
             | apply insert_invitation_constraints
             | apply update_invitation_status_constraints
             | apply delete_pending_invitation_constraints ]).

Lemma updateProjectProgress_constraints projectId :
  relates constraints_kept (updateProjectProgress projectId).
Proof. unfold updateProjectProgress. relate_constraints. Qed.

Lemma perform_constraints (c : Call) (w : World) :
  Constraints (db w) -> Constraints (db (perform c w)).
Proof.
  revert w. destruct c; simpl;
    match goal with
    | |- forall w, Constraints (db w) -> Constraints (db (snd (?m w))) =>
        change (relates constraints_kept m)
    end;
    [ unfold createTask | unfold updateTask | unfold deleteTask | unfold moveTask
    | unfold handleMoveTask, updateTask | unfold addProjectMember
    | unfold createProjectInvitation | unfold acceptProjectInvitation
    | unfold declineProjectInvitation | unfold cancelProjectInvitation ];
    relate_constraints; apply updateProjectProgress_constraints.
Qed.

(** Every sequence of calls keeps the keys of the schema, in every
    environment: the databases that the theorems below assume are the ones
    that the operations produce. *)
Lemma run_constraints (calls : list Call) :
  forall w, Constraints (db w) -> Constraints (db (run calls w)).
Proof.
  unfold run. induction calls as [| c calls IH]; intros w H; simpl; [exact H |].
  apply IH, perform_constraints, H.
Qed.

(** ** The task generator *)

Lemma retryLoop_unrolled api now desc n :
  Gemini.retryLoop api now desc (3 + n) 0 [] =
  Some
    (match Gemini.attemptOnce now (api 0) with
     | Some tasks => (tasks, [Gemini.Generate 0])
     | None =>
         match Gemini.attemptOnce now (api 1) with
         | Some tasks =>
             (tasks, [Gemini.Generate 0; Gemini.Wait 2000; Gemini.Generate 1])
         | None =>
             match Gemini.attemptOnce now (api 2) with
             | Some tasks =>
                 (tasks,
                  [Gemini.Generate 0; Gemini.Wait 2000; Gemini.Generate 1;
                   Gemini.Wait 4000; Gemini.Generate 2])
             | None =>
                 (Gemini.simulateAiResponse now desc,
                  [Gemini.Generate 0; Gemini.Wait 2000; Gemini.Generate 1;
                   Gemini.Wait 4000; Gemini.Generate 2])
             end
         end
     end).
Proof.
  change (3 + n)%nat with (S (S (S n))).
  cbn [Gemini.retryLoop]. unfold Gemini.MAX_RETRIES.
  change (0 <? 3) with true. cbn iota.
  destruct (Gemini.attemptOnce now (api 0)); [reflexivity |].
  change (0 + 1) with 1. change (1 >=? 3) with false. change (1 <? 3) with true.
  cbn iota.
  destruct (Gemini.attemptOnce now (api 1)); [reflexivity |].
  change (1 + 1) with 2. change (2 >=? 3) with false. change (2 <? 3) with true.
  cbn iota.
  destruct (Gemini.attemptOnce now (api 2)); [reflexivity |].
  reflexivity.
Qed.

Lemma toTask_total now t index :
  t <> Gemini.JNull ->
  exists task, Gemini.toTask now t index = Some task /\ Gemini.status task = TODO.
Proof.
  intros Ht. unfold Gemini.toTask.
  destruct t; try congruence; simpl; eexists; split; reflexivity.
Qed.

Lemma toTask_null now index : Gemini.toTask now Gemini.JNull index = None.
Proof. reflexivity. Qed.

Lemma mapTasks_total now items :
  ~ In Gemini.JNull items ->
  forall index,
  exists tasks,
    Gemini.mapTasks now items index = Some tasks
    /\ List.length tasks = List.length items
    /\ Forall (fun task => Gemini.status task = TODO) tasks.
Proof.
  induction items as [| t items IH]; intros Hnull index; simpl.
  - exists []. repeat split. constructor.
  - destruct (toTask_total now t index) as (task & -> & Hst).
    { intros ->. apply Hnull. left; reflexivity. }
    destruct (IH (fun H => Hnull (or_intror H)) (index + 1))
      as (tasks & -> & Hlen & Hall).
    exists (task :: tasks). simpl. repeat split; auto.
Qed.

Lemma mapTasks_null now items :
  In Gemini.JNull items -> forall index, Gemini.mapTasks now items index = None.
Proof.
  induction items as [| t items IH]; intros Hin index; simpl; [contradiction |].
  destruct Hin as [-> | Hin]; [reflexivity |].
  destruct (Gemini.toTask now t index); [| reflexivity].
  rewrite (IH Hin). reflexivity.
Qed.

Lemma attemptOnce_rejected now r :
  rejected r <-> Gemini.attemptOnce now r = None.
Proof.
  destruct r as [| | | v]; simpl; try tauto.
  destruct v as [| b | x | s | items | members]; simpl; try tauto.
  destruct items as [| t items]; [tauto |].
  split.
  - intros [H | H]; [discriminate | apply mapTasks_null, H].
  - intros H. right.
    destruct (in_dec (fun a b : bool => Bool.bool_dec a b) true
                (map (fun v => match v with Gemini.JNull => true | _ => false end)
                   (t :: items))) as [Hin | Hnot].
    + apply in_map_iff in Hin. destruct Hin as (v & Hv & Hin).
      destruct v; try discriminate. exact Hin.
    + exfalso.
      destruct (mapTasks_total now (t :: items)) with (index := 0)
        as (tasks & Hsome & _).
      * intros Hin. apply Hnot.
        apply (in_map (fun v => match v with Gemini.JNull => true | _ => false end))
          in Hin. exact Hin.
      * congruence.
Qed.


Lemma fuel_split fuel : (3 <= fuel)%nat -> exists n, fuel = (3 + n)%nat.
Proof. intros H. exists (fuel - 3)%nat. lia. Qed.




(** C5, as the code has it.  With enough fuel for the loop the function
    returns, and what it did is one of four traces: nothing (no
    credential), one call, two calls with a wait of 2000 ms between them,
    or three calls with waits of 2000 ms and 4000 ms; there are at most
    three calls and no wait after the third. *)
Theorem generateProjectTasks_retries :
  forall (apiKey : option string) (api : Z -> Gemini.Response) (now : Z)
         (fuel : nat) (desc type : string),
    (3 <= fuel)%nat ->
    exists tasks trace,
      Gemini.generateProjectTasks apiKey api now fuel desc type = Some (tasks, trace)
      /\ In trace retry_traces
      /\ (List.length (filter is_generate trace) <= 3)%nat.
Proof.
  intros apiKey api now fuel desc type Hfuel.
  destruct (fuel_split fuel Hfuel) as (n & ->).
  unfold Gemini.generateProjectTasks, retry_traces.
  destruct apiKey as [[| c s] |];
    try (do 2 eexists; split; [reflexivity | split; [left; reflexivity | simpl; lia]]).
  rewrite retryLoop_unrolled.
  destruct (Gemini.attemptOnce now (api 0));
    [do 2 eexists; split; [reflexivity | split; [simpl; tauto | simpl; lia]] |].
  destruct (Gemini.attemptOnce now (api 1));
    [do 2 eexists; split; [reflexivity | split; [simpl; tauto | simpl; lia]] |].
  destruct (Gemini.attemptOnce now (api 2));
    do 2 eexists; (split; [reflexivity | split; [simpl; tauto | simpl; lia]]).
Qed.

Lemma generateProjectTasks_retries_witness :
  exists tasks trace,
    Gemini.generateProjectTasks (Some "key"%string) six_tasks_on_retry 0 3 "d" "t"
    = Some (tasks, trace)
    /\ In trace retry_traces
    /\ (List.length (filter is_generate trace) <= 3)%nat.
Proof.
  apply (generateProjectTasks_retries (Some "key"%string) six_tasks_on_retry 0 3
           "d" "t").
  apply le_n.
Defined.

(** C5 as stated fails: when the three calls fail, the waits are of 2000 ms
    before the second call and of 4000 ms before the third. *)
Lemma backoff_waits_two_and_four_seconds :
  Gemini.generateProjectTasks (Some "key"%string) failing_api 0 3 "d" "t"
  = Some (Gemini.simulateAiResponse 0 "d",
          [Gemini.Generate 0; Gemini.Wait 2000; Gemini.Generate 1;
           Gemini.Wait 4000; Gemini.Generate 2]).
Proof. reflexivity. Qed.

(** ** Progress *)

(** C1 fails on [createTask], which does not recompute the progress: in a
    project with one of two tasks completed and the progress 50, a served
    [createTask] adds a third task and returns it, one of three tasks is
    then completed, and the stored progress is still 50, not 33. *)
Theorem createTask_leaves_progress :
  let r := createTask "p1" (mkTaskData "third" None (Some TODO) (Some LOW)
                              None None None)
             (mkWorld half_done (serving ["r1"; "t3"; "r2"; "r3"]%string)) in
  (exists task, fst r = Ret task /\ id task = "t3"%string)
  /\ completed_count (db (snd r)) "p1" = 1%nat
  /\ total_count (db (snd r)) "p1" = 3%nat
  /\ exact_round_percent 1 3 = 33
  /\ derived_progress (db (snd r)) "p1" = Some 33
  /\ stored_progress (db (snd r)) "p1" = [Some 50].
Proof.
  vm_compute. split; [eexists; split; reflexivity |]. repeat split.
Qed.

(** The double computation rounds a tie down where the product falls just
    below it: with 23 of 40 tasks completed, [(23 / 40) * 100] is
    57.49999999999999 and the progress stored by a served update is 57,
    while 100 * 23 / 40 = 57.5 rounds to 58. *)
Lemma progress_tie_23_of_40 :
  let r := updateTask "t39" (rename_only "renamed")
             (mkWorld forty_tasks (serving ["r1"; "r2"; "r3"; "r4"]%string)) in
  fst r = Ret tt
  /\ completed_count (db (snd r)) "p1" = 23%nat
  /\ total_count (db (snd r)) "p1" = 40%nat
  /\ stored_progress (db (snd r)) "p1" = [Some 57]
  /\ exact_round_percent 23 40 = 58.
Proof. vm_compute. repeat split. Qed.

Lemma exact_below_40 : exact_below 40 = true.
Proof. vm_compute. reflexivity. Qed.

(** Below 40 tasks the double computation is the exact rounding. *)
Lemma progress_of_exact (completed total : nat) :
  (completed <= total)%nat -> (1 <= total < 40)%nat ->
  progress_of completed total = Some (exact_round_percent completed total)
  /\ progress_check (progress_of completed total) = true.
Proof.
  intros Hc Ht. pose proof exact_below_40 as H. unfold exact_below in H.
  rewrite forallb_forall in H. specialize (H total).
  rewrite forallb_forall in H.
  assert (Hin : In total (seq 1 (40 - 1))) by (apply in_seq; lia).
  specialize (H Hin completed).
  assert (Hin' : In completed (seq 0 (S total))) by (apply in_seq; lia).
  specialize (H Hin'). apply andb_true_iff in H. destruct H as [H1 H2].
  split; [| exact H2].
  destruct (progress_of completed total) as [v |]; simpl in H1; [| discriminate].
  apply Z.eqb_eq in H1. congruence.
Qed.

Lemma derived_progress_tasks d d' projectId :
  tasks d' = tasks d -> derived_progress d' projectId = derived_progress d projectId.
Proof.
  unfold derived_progress, total_count, completed_count, statuses_of.
  intros ->. reflexivity.
Qed.

(** A served recomputation stores the progress derived from the tasks. *)
Lemma updateProjectProgress_stores projectId d u1 u2 e :
  progress_check (derived_progress d projectId) = true ->
  updateProjectProgress projectId (mkWorld d (Served u1 :: Served u2 :: e))
  = (Ret tt, mkWorld (set_progress (derived_progress d projectId) projectId d) e).
Proof.
  intros Hcheck. unfold updateProjectProgress, try_catch, bind.
  rewrite request_served. cbn [reading fst snd select_statuses data_of].
  unfold derived_progress, total_count, completed_count in *.
  fold (statuses_of d projectId) in *.
  destruct (statuses_of d projectId) as [| s l] eqn:Hs.
  - rewrite request_served. unfold update_progress. cbn [progress_check].
    rewrite andb_false_r. reflexivity.
  - cbn [List.length] in Hcheck. cbv zeta.
    rewrite request_served. unfold update_progress.
    cbn [List.length]. rewrite Hcheck, andb_false_r. reflexivity.
Qed.

Lemma stored_progress_set v projectId d :
  stored_progress (set_progress v projectId d) projectId
  = map (fun _ => v) (stored_progress d projectId).
Proof.
  unfold stored_progress, set_progress; simpl.
  induction (projects d) as [| p ps IH]; simpl; [reflexivity |].
  destruct (String.eqb (p_id p) projectId) eqn:E; simpl; rewrite ?E; simpl;
    [f_equal |]; exact IH.
Qed.

Lemma task_project_found taskId d row :
  NoDup (map t_id (tasks d)) ->
  In row (tasks d) -> t_id row = taskId ->
  select_task_project taskId d = Data (t_project_id row).
Proof.
  intros Hnd Hin Hid. unfold select_task_project.
  destruct (filter_unique t_id (has_task_id taskId) taskId (tasks d))
    as (x & Hx & Hxin & Hfx); auto.
  - intros x Hx. apply String.eqb_eq, Hx.
  - apply existsb_exists. exists row. split; [exact Hin |].
    unfold has_task_id. rewrite Hid. apply String.eqb_refl.
  - rewrite Hx. simpl. do 2 f_equal.
    apply (NoDup_map_inj t_id (tasks d)); auto.
    apply String.eqb_eq in Hfx. congruence.
Qed.

(** What does hold of C1: a served update or deletion of an existing task
    stores, in every row of the project, the progress derived from the
    tasks the project then has, that is [Math.round((completed / total) *
    100)] on doubles, or 0 without tasks; below 40 tasks this is the exact
    rounding of 100 * completed / total.  The value must pass the check on
    [progress], which it does below 40 tasks. *)
Lemma progress_after_update_and_delete :
  forall (taskId : string) (d : Database) (row : TaskRow)
         (u1 u2 u3 u4 : string) (e : list Outcome),
    Constraints d -> In row (tasks d) -> t_id row = taskId ->
    let projectId := t_project_id row in
    let w := mkWorld d (Served u1 :: Served u2 :: Served u3 :: Served u4 :: e) in
    (forall updates,
        let r := updateTask taskId updates w in
        progress_check (derived_progress (db (snd r)) projectId) = true ->
        fst r = Ret tt
        /\ stored_progress (db (snd r)) projectId
           = map (fun _ => derived_progress (db (snd r)) projectId)
               (stored_progress d projectId))
    /\ (let r := deleteTask taskId w in
        progress_check (derived_progress (db (snd r)) projectId) = true ->
        fst r = Ret tt
        /\ stored_progress (db (snd r)) projectId
           = map (fun _ => derived_progress (db (snd r)) projectId)
               (stored_progress d projectId)).
Proof.
  intros taskId d row u1 u2 u3 u4 e HC Hin Hid projectId w. subst w. split.
  - intros updates. cbv zeta.
    unfold updateTask. rewrite try_rethrow. unfold bind.
    rewrite request_served. cbn [fst snd update_task].
    rewrite request_served. cbn [reading fst snd].
    set (u := mkTaskUpdate _ _ _ _ _ _ _).
    set (d1 := with_tasks d _).
    assert (Hlook : select_task_project taskId d1
                    = Data (t_project_id (apply_update u row))).
    { apply task_project_found.
      - exact (tasks_pkey _ (update_task_constraints u taskId u1 d HC)).
      - subst d1. cbn [tasks with_tasks].
        apply (in_map (fun r => if has_task_id taskId r then apply_update u r else r))
          in Hin.
        unfold has_task_id in Hin at 1. rewrite Hid, String.eqb_refl in Hin.
        exact Hin.
      - exact Hid. }
    rewrite Hlook. cbn [data_of apply_update t_project_id]. fold projectId.
    intros Hcheck.
    destruct (progress_check (derived_progress d1 projectId)) eqn:Hc1.
    + rewrite (updateProjectProgress_stores projectId d1 u3 u4 e Hc1) in *.
      cbn [fst snd db] in *.
      rewrite (derived_progress_tasks d1 (set_progress _ projectId d1)) by reflexivity.
      split; [reflexivity |].
      change (stored_progress d projectId) with (stored_progress d1 projectId).
      apply stored_progress_set.
    + exfalso.
      pose proof (updateProjectProgress_tasks projectId
                    (mkWorld d1 (Served u3 :: Served u4 :: e))) as Hk.
      unfold keeps_tasks in Hk. cbn [db] in Hk.
      rewrite (derived_progress_tasks d1 _ projectId Hk) in Hcheck. congruence.
  - cbv zeta. unfold deleteTask. rewrite try_rethrow. unfold bind.
    rewrite request_served. cbn [reading fst snd].
    rewrite (task_project_found taskId d row (tasks_pkey d HC) Hin Hid).
    rewrite request_served. cbn [fst snd delete_task data_of]. fold projectId.
    set (d1 := with_tasks d _).
    intros Hcheck.
    destruct (progress_check (derived_progress d1 projectId)) eqn:Hc1.
    + rewrite (updateProjectProgress_stores projectId d1 u3 u4 e Hc1) in *.
      cbn [fst snd db] in *.
      rewrite (derived_progress_tasks d1 (set_progress _ projectId d1)) by reflexivity.
      split; [reflexivity |].
      change (stored_progress d projectId) with (stored_progress d1 projectId).
      apply stored_progress_set.
    + exfalso.
      pose proof (updateProjectProgress_tasks projectId
                    (mkWorld d1 (Served u3 :: Served u4 :: e))) as Hk.
      unfold keeps_tasks in Hk. cbn [db] in Hk.
      rewrite (derived_progress_tasks d1 _ projectId Hk) in Hcheck. congruence.
Qed.

Lemma derived_progress_exact d projectId :
  (total_count d projectId < 40)%nat ->
  derived_progress d projectId
  = Some (match total_count d projectId with
          | O => 0
          | total => exact_round_percent (completed_count d projectId) total
          end)
  /\ progress_check (derived_progress d projectId) = true.
Proof.
  intros Hsmall. unfold derived_progress.
  assert (Hle : (completed_count d projectId <= total_count d projectId)%nat)
    by apply filter_length_le.
  destruct (total_count d projectId) as [| n] eqn:Ht; [split; reflexivity |].
  apply progress_of_exact; lia.
Qed.

(** Four tasks, two completed, progress 50: deleting a completed task
    leaves one of three completed, and the progress becomes 33. *)
Lemma delete_completed_task_scenario :
  let r := deleteTask "t1"
             (mkWorld four_tasks (serving ["r1"; "r2"; "r3"; "r4"]%string)) in
  fst r = Ret tt
  /\ stored_progress four_tasks "p1" = [Some 50]
  /\ stored_progress (db (snd r)) "p1" = [Some 33].
Proof.
  destruct (proj2 (progress_after_update_and_delete "t1" four_tasks
                     (example_task "t1" COMPLETED) "r1" "r2" "r3" "r4" []
                     ltac:(constructor; simpl; repeat constructor; simpl;
                           intuition discriminate)
                     ltac:(left; reflexivity) eq_refl))
    as [Hret Hstored].
  - apply derived_progress_exact. vm_compute. lia.
  - cbv zeta. split; [exact Hret |]. split; [reflexivity |].
    etransitivity; [exact Hstored | vm_compute; reflexivity].
Qed.

(** * Further properties of the data-access layer *)

(** ** Updates cannot clear a column *)

Lemma nothing_cleared_refl d : nothing_cleared d d.
Proof.
  unfold nothing_cleared, still_set. induction (tasks d); constructor; auto.
Qed.

Lemma nothing_cleared_trans d1 d2 d3 :
  nothing_cleared d1 d2 -> nothing_cleared d2 d3 -> nothing_cleared d1 d3.
Proof.
  unfold nothing_cleared, still_set.
  generalize (tasks d1), (tasks d2), (tasks d3).
  intros l1 l2 l3 H12. revert l3.
  induction H12 as [| r1 r2 l1 l2 Hr H12 IH]; intros l3 H23;
    inversion H23 as [| r2' r3 l2' l3' Hr' H23']; subst; constructor; auto.
  destruct Hr as (Hi & Ha & Hm & Hd & Hx), Hr' as (Hi' & Ha' & Hm' & Hd' & Hx').
  repeat split; [congruence | auto ..].
Qed.

Lemma keeps_tasks_nothing_cleared d d' : keeps_tasks d d' -> nothing_cleared d d'.
Proof.
  unfold keeps_tasks, nothing_cleared. intros ->.
  apply (nothing_cleared_refl d).
Qed.

Lemma or_keep_still_set {A} (new old : option A) : still_set old (or_keep new old).
Proof. unfold still_set. destruct new; simpl; congruence. Qed.

Lemma update_task_nothing_cleared u taskId uuid d :
  nothing_cleared d (snd (update_task u taskId uuid d)).
Proof.
  unfold nothing_cleared, update_task; simpl.
  induction (tasks d) as [| r l IH]; simpl; constructor; auto.
  destruct (has_task_id taskId r); simpl.
  - repeat split; apply or_keep_still_set.
  - unfold still_set. repeat split; auto.
Qed.

(** X1: [updateTask] can set the assignee, the milestone, the due date and
    the description of a task but cannot clear them: in every environment
    and for every update, each row of [tasks] is still there and each of
    these columns that held a value still holds one.  The update
    [{ assigneeId: undefined }] that the entry "Unassigned" sends leaves the
    table of tasks exactly as it is. *)
Theorem updateTask_cannot_clear :
  forall (projectId taskId : string) (updates : PartialTask) (w : World),
    Forall2
      (fun r r' =>
         t_id r' = t_id r
         /\ still_set (t_assignee_id r) (t_assignee_id r')
         /\ still_set (t_milestone_id r) (t_milestone_id r')
         /\ still_set (t_due_date r) (t_due_date r')
         /\ still_set (t_description r) (t_description r'))
      (tasks (db w)) (tasks (db (snd (updateTask taskId updates w))))
    /\ tasks (db (snd (handleUpdateTask projectId taskId unassign w)))
       = tasks (db w).
Proof.
  intros projectId taskId updates w. split.
  - change (nothing_cleared (db w) (db (snd (updateTask taskId updates w)))).
    revert w. change (relates nothing_cleared (updateTask taskId updates)).
    unfold updateTask.
    relate_steps nothing_cleared_refl nothing_cleared_trans.
    + apply (relates_request _ nothing_cleared_refl).
      intros; apply update_task_nothing_cleared.
    + intros w. apply keeps_tasks_nothing_cleared, updateProjectProgress_tasks.
  - apply (handleMoveTask_without_milestone projectId taskId None w).
Qed.

(** ** A task that does not exist *)

Lemma map_untouched {A} (f : A -> bool) (g : A -> A) (l : list A) :
  (forall x, In x l -> f x = false) ->
  map (fun x => if f x then g x else x) l = l.
Proof.
  intros H. rewrite <- (map_id l) at 2. apply map_ext_in.
  intros x Hx. rewrite (H x Hx). reflexivity.
Qed.

Lemma with_tasks_same d : with_tasks d (tasks d) = d.
Proof. destruct d; reflexivity. Qed.

Lemma no_such_task taskId d :
  (forall r, In r (tasks d) -> t_id r <> taskId) ->
  forall r, In r (tasks d) -> has_task_id taskId r = false.
Proof.
  intros H r Hr. unfold has_task_id. apply String.eqb_neq. auto.
Qed.

(** X2: updating or deleting a task that does not exist is not an error:
    with its two requests served the operation returns normally, leaves
    the database as it is, and sends no request to recompute a progress. *)
Theorem missing_task_is_ignored :
  forall (taskId : string) (d : Database) (u1 u2 : string) (e : list Outcome),
    (forall r, In r (tasks d) -> t_id r <> taskId) ->
    (forall updates,
        updateTask taskId updates (mkWorld d (Served u1 :: Served u2 :: e))
        = (Ret tt, mkWorld d e))
    /\ deleteTask taskId (mkWorld d (Served u1 :: Served u2 :: e))
       = (Ret tt, mkWorld d e).
Proof.
  intros taskId d u1 u2 e Hnone.
  pose proof (no_such_task taskId d Hnone) as Hno.
  assert (Hlook : select_task_project taskId d = Failure (PostgrestError "PGRST116")).
  { unfold select_task_project. rewrite filter_none; [reflexivity |].
    apply existsb_none. exact Hno. }
  split.
  - intros updates. unfold updateTask. rewrite try_rethrow. unfold bind.
    rewrite request_served. cbn [fst snd update_task].
    rewrite (map_untouched _ _ _ Hno), with_tasks_same.
    rewrite request_served. cbn [reading fst snd]. rewrite Hlook. reflexivity.
  - unfold deleteTask. rewrite try_rethrow. unfold bind.
    rewrite request_served. cbn [reading fst snd]. rewrite Hlook.
    rewrite request_served. cbn [fst snd delete_task data_of].
    rewrite filter_keep_all, with_tasks_same; [reflexivity |].
    intros r Hr. rewrite (Hno r Hr). reflexivity.
Qed.

Lemma missing_task_is_ignored_witness :
  updateTask "t9" (set_status_only COMPLETED)
    (mkWorld half_done (serving ["r1"; "r2"; "r3"]%string))
  = (Ret tt, mkWorld half_done (serving ["r3"%string]))
  /\ deleteTask "t9" (mkWorld half_done (serving ["r1"; "r2"; "r3"]%string))
     = (Ret tt, mkWorld half_done (serving ["r3"%string])).
Proof.
  assert (H : forall r, In r (tasks half_done) -> t_id r <> "t9"%string).
  { simpl. intros r [<- | [<- | []]]; discriminate. }
  split.
  - apply (proj1 (missing_task_is_ignored "t9" half_done "r1" "r2"
                    (serving ["r3"%string]) H)).
  - apply (proj2 (missing_task_is_ignored "t9" half_done "r1" "r2"
                    (serving ["r3"%string]) H)).
Defined.

(** ** A failed read of the statuses *)

(** X3: when the query for the statuses of the tasks is refused,
    [updateProjectProgress] takes the project to have no task: after a
    served update of an existing task, a refused read of the statuses and a
    served write, every row of the project stores the progress 0, whatever
    the statuses of its tasks are, and [updateTask] returns normally. *)
Theorem refused_status_read_resets_progress :
  forall (taskId : string) (updates : PartialTask) (d : Database) (row : TaskRow)
         (u1 u2 u4 : string) (e : list Outcome),
    Constraints d -> In row (tasks d) -> t_id row = taskId ->
    let r := updateTask taskId updates
               (mkWorld d (Served u1 :: Served u2 :: Refused :: Served u4 :: e)) in
    fst r = Ret tt
    /\ stored_progress (db (snd r)) (t_project_id row)
       = map (fun _ => Some 0) (stored_progress d (t_project_id row))
    /\ tasks (db (snd r))
       = map (fun t => if has_task_id taskId t
                       then apply_update
                              (mkTaskUpdate (pt_title updates) (pt_description updates)
                                 (pt_status updates) (pt_priority updates)
                                 (pt_assigneeId updates) (pt_dueDate updates)
                                 (pt_milestoneId updates)) t
                       else t)
           (tasks d).
Proof.
  intros taskId updates d row u1 u2 u4 e HC Hin Hid. cbv zeta.
  unfold updateTask. rewrite try_rethrow. unfold bind.
  rewrite request_served. cbn [fst snd update_task].
  rewrite request_served. cbn [reading fst snd].
  set (u := mkTaskUpdate _ _ _ _ _ _ _).
  set (d1 := with_tasks d _).
  assert (Hlook : select_task_project taskId d1
                  = Data (t_project_id (apply_update u row))).
  { apply task_project_found.
    - exact (tasks_pkey _ (update_task_constraints u taskId u1 d HC)).
    - subst d1. cbn [tasks with_tasks].
      apply (in_map (fun r => if has_task_id taskId r then apply_update u r else r))
        in Hin.
      unfold has_task_id in Hin at 1. rewrite Hid, String.eqb_refl in Hin.
      exact Hin.
    - exact Hid. }
  rewrite Hlook. cbn [data_of apply_update t_project_id].
  unfold updateProjectProgress, try_catch, bind, request.
  cbn [env db reading fst snd data_of]. unfold update_progress.
  change (progress_check (Some 0)) with true. cbn [negb].
  rewrite andb_false_r. cbn [fst snd db].
  split; [reflexivity |]. split; [| reflexivity].
  change (stored_progress d (t_project_id row))
    with (stored_progress d1 (t_project_id row)).
  apply (stored_progress_set (Some 0) (t_project_id row) d1).
Qed.

Lemma refused_status_read_resets_progress_witness :
  let r := updateTask "t2" (set_status_only COMPLETED)
             (mkWorld half_done [Served "r1"; Served "r2"; Refused; Served "r4"]) in
  fst r = Ret tt
  /\ stored_progress (db (snd r)) "p1" = [Some 0]
  /\ statuses_of (db (snd r)) "p1" = [COMPLETED; COMPLETED].
Proof.
  destruct (refused_status_read_resets_progress "t2" (set_status_only COMPLETED)
              half_done (example_task "t2" TODO) "r1" "r2" "r4" []
              half_done_constraints (or_intror (or_introl eq_refl)) eq_refl)
    as (Hret & Hstored & Htasks).
  cbv zeta. split; [exact Hret |]. split; [exact Hstored |].
  unfold statuses_of. rewrite Htasks. reflexivity.
Defined.

(** ** Moving a task with [moveTask] *)

Lemma same_but_place_refl r : same_but_place r r.
Proof. unfold same_but_place; repeat split. Qed.

Lemma placed_only_refl taskId d : placed_only taskId d d.
Proof. unfold placed_only. induction (tasks d); constructor; auto. Qed.

Lemma update_task_place_placed_only m p taskId uuid d :
  placed_only taskId d (snd (update_task_place m p taskId uuid d)).
Proof.
  unfold update_task_place.
  destruct (negb _); cbn [snd]; [apply placed_only_refl |].
  unfold placed_only; simpl.
  induction (tasks d) as [| r l IH]; simpl; constructor; auto.
  unfold has_task_id. destruct (String.eqb_spec (t_id r) taskId) as [E | E].
  - right. split; [exact E |]. unfold same_but_place; simpl. repeat split.
  - left; reflexivity.
Qed.

Lemma placed_only_statuses taskId d d' projectId :
  placed_only taskId d d' -> statuses_of d' projectId = statuses_of d projectId.
Proof.
  unfold placed_only, statuses_of. generalize (tasks d), (tasks d').
  intros l l' H. induction H as [| r r' l l' Hr H IH]; simpl; [reflexivity |].
  assert (Hp : t_project_id r' = t_project_id r /\ t_status r' = t_status r).
  { destruct Hr as [-> | [_ Hs]]; [split; reflexivity |].
    unfold same_but_place in Hs. tauto. }
  destruct Hp as [Hp Hs].
  replace (of_project projectId r') with (of_project projectId r)
    by (unfold of_project; rewrite Hp; reflexivity).
  destruct (of_project projectId r); simpl; rewrite ?Hs; [f_equal |]; exact IH.
Qed.

(** X4: [moveTask] changes nothing but the milestone reference and the
    position of the moved task, in every environment: the rows of [tasks]
    stay in place, the rows of the other tasks and the tables [projects],
    [project_members] and [project_invitations] are left as they are, and
    the statuses, hence the progress derived from them, are the same for
    every project.  When its request is served and the target position is
    in the range of the column, from -2147483648 to 2147483647, the moved
    task has the target position; for a target position outside of this
    range the update of a stored task is refused with the error 22003,
    [moveTask] throws it and the database is as it was. *)
Theorem moveTask_only_place :
  forall (taskId : string) (milestoneId : option string) (targetPosition : Z)
         (w : World),
    let d' := db (snd (moveTask taskId milestoneId targetPosition w)) in
    Forall2 (fun r r' => r' = r \/ (t_id r = taskId /\ same_but_place r r'))
      (tasks (db w)) (tasks d')
    /\ projects d' = projects (db w)
    /\ project_members d' = project_members (db w)
    /\ project_invitations d' = project_invitations (db w)
    /\ (forall projectId,
           derived_progress d' projectId = derived_progress (db w) projectId)
    /\ (forall uuid e r',
           env w = Served uuid :: e ->
           -2147483648 <= targetPosition <= 2147483647 ->
           In r' (tasks d') -> t_id r' = taskId ->
           t_position r' = Some targetPosition)
    /\ (forall uuid e,
           env w = Served uuid :: e ->
           ~ (-2147483648 <= targetPosition <= 2147483647) ->
           existsb (has_task_id taskId) (tasks (db w)) = true ->
           moveTask taskId milestoneId targetPosition w
           = (Throw (PostgrestError "22003"), mkWorld (db w) e)).
Proof.
  intros taskId m p [d e]. cbv zeta.
  unfold moveTask. rewrite try_rethrow. unfold bind, request, ret, throw.
  cbn [env db].
  pose proof (update_task_place_placed_only m p taskId EmptyString d) as Hq.
  pose proof (placed_only_refl taskId d) as Hr.
  pose proof (integer_check_range p) as Hrange.
  destruct e as [| [uuid | |] e]; cbn [fst snd db] in *;
    try (repeat split; auto; discriminate).
  unfold update_task_place in *.
  destruct (integer_check p) eqn:Hp; cbn [negb fst snd db] in *.
  - split; [exact Hq |]. do 3 (split; [reflexivity |]). split; [| split].
    + intros projectId. unfold derived_progress, total_count, completed_count.
      pose proof (placed_only_statuses taskId d _ projectId Hq) as Hs.
      cbn [db snd fst] in *. rewrite Hs. reflexivity.
    + intros uuid' e' r' _ _ Hin Hid. cbn [tasks with_tasks] in Hin.
      apply in_map_iff in Hin. destruct Hin as (r & Hr' & _).
      destruct (has_task_id taskId r) eqn:Hh; subst r'; [reflexivity |].
      unfold has_task_id in Hh. apply String.eqb_neq in Hh. contradiction.
    + intros uuid' e' _ Hout _. exfalso. apply Hout, Hrange. reflexivity.
  - split; [exact Hr |]. do 3 (split; [reflexivity |]). split; [| split].
    + reflexivity.
    + intros uuid' e' r' _ Hin _ _. apply Hrange in Hin. discriminate.
    + intros uuid' e' E _ _. injection E as _ <-. reflexivity.
Qed.

Lemma moveTask_only_place_witness :
  t_position
    (mkTask "t2" "p1" (Some "ms1"%string) "task" None TODO MEDIUM None None (Some 7))
  = Some 7
  /\ moveTask "t2" None 2147483648 (mkWorld half_done (serving ["r1"%string]))
     = (Throw (PostgrestError "22003"), mkWorld half_done []).
Proof.
  split.
  - apply (proj1 (proj2 (proj2 (proj2 (proj2 (proj2
             (moveTask_only_place "t2" (Some "ms1"%string) 7
                (mkWorld half_done (serving ["r1"%string]))))))))
             "r1"%string [] _ eq_refl).
    + lia.
    + right. left. reflexivity.
    + reflexivity.
  - apply (proj2 (proj2 (proj2 (proj2 (proj2 (proj2
             (moveTask_only_place "t2" None 2147483648
                (mkWorld half_done (serving ["r1"%string]))))))))
             "r1"%string [] eq_refl).
    + lia.
    + reflexivity.
Defined.

(** ** Dropping a task on a milestone or outside of the milestones *)

(** X5: a served [handleMoveTask] with a milestone sets the milestone
    reference of the task with the given key and of no other task, whatever
    happens to the requests that follow; [handleMoveTask] without a
    milestone, which is what a drop outside of the milestones sends, leaves
    the table of tasks as it is in every environment, so that a task keeps
    the milestone it has. *)
Theorem handleMoveTask_effect :
  (forall (projectId taskId m : string) (targetTaskId : option string)
          (d : Database) (uuid : string) (e : list Outcome),
      tasks (db (snd (handleMoveTask projectId taskId (Some m) targetTaskId
                        (mkWorld d (Served uuid :: e)))))
      = map (fun r =>
               if has_task_id taskId r
               then mkTask (t_id r) (t_project_id r) (Some m) (t_title r)
                      (t_description r) (t_status r) (t_priority r)
                      (t_assignee_id r) (t_due_date r) (t_position r)
               else r)
          (tasks d))
  /\ (forall (projectId taskId : string) (targetTaskId : option string)
             (w : World),
         tasks (db (snd (handleMoveTask projectId taskId None targetTaskId w)))
         = tasks (db w)).
Proof.
  split.
  - intros. apply handleMoveTask_sets_milestone.
  - intros projectId taskId targetTaskId w.
    apply (handleMoveTask_without_milestone projectId taskId targetTaskId w).
Qed.

(** ** The stored progress *)

Lemma exact_round_percent_range (completed total : nat) :
  (completed <= total)%nat -> (1 <= total)%nat ->
  0 <= exact_round_percent completed total <= 100.
Proof.
  intros Hc Ht. unfold exact_round_percent. split.
  - apply Z.div_pos; lia.
  - assert ((200 * Z.of_nat completed + Z.of_nat total) / (2 * Z.of_nat total) < 101)
      by (apply Z.div_lt_upper_bound; lia).
    lia.
Qed.

(** X6: the progress computed on doubles is the exact rounding for every
    project of fewer than 40 tasks, and then lies between 0 and 100; 40
    tasks is the first size where it differs: with 23 of them completed it
    is 57, while 57.5 rounds to 58. *)
Theorem progress_rounding :
  (forall completed total : nat,
      (completed <= total)%nat -> (1 <= total < 40)%nat ->
      progress_of completed total = Some (exact_round_percent completed total)
      /\ 0 <= exact_round_percent completed total <= 100)
  /\ progress_of 23 40 = Some 57
  /\ exact_round_percent 23 40 = 58.
Proof.
  split; [| split; vm_compute; reflexivity].
  intros completed total Hc Ht. split.
  - apply progress_of_exact; assumption.
  - apply exact_round_percent_range; lia.
Qed.

Lemma progress_rounding_witness :
  progress_of 1 3 = Some 33 /\ progress_of 1 8 = Some 13.
Proof.
  split.
  - apply (proj1 (proj1 progress_rounding 1%nat 3%nat ltac:(lia) ltac:(lia))).
  - apply (proj1 (proj1 progress_rounding 1%nat 8%nat ltac:(lia) ltac:(lia))).
Defined.

Lemma statuses_length_update u taskId d projectId :
  total_count (snd (update_task u taskId EmptyString d)) projectId
  = total_count d projectId.
Proof.
  unfold total_count, statuses_of, update_task; simpl.
  rewrite !length_map. induction (tasks d) as [| r l IH]; simpl; [reflexivity |].
  assert (Hp : of_project projectId
                 (if has_task_id taskId r then apply_update u r else r)
               = of_project projectId r)
    by (destruct (has_task_id taskId r); reflexivity).
  rewrite Hp. destruct (of_project projectId r); simpl; rewrite IH; reflexivity.
Qed.

Lemma statuses_length_delete taskId d projectId :
  (total_count (snd (delete_task taskId EmptyString d)) projectId
   <= total_count d projectId)%nat.
Proof.
  unfold total_count, statuses_of, delete_task; simpl.
  rewrite !length_map. induction (tasks d) as [| r l IH]; simpl; [lia |].
  destruct (negb (has_task_id taskId r)); simpl;
    destruct (of_project projectId r); simpl; lia.
Qed.

Lemma updateTask_tasks taskId updates d uuid e :
  tasks (db (snd (updateTask taskId updates (mkWorld d (Served uuid :: e)))))
  = tasks (snd (update_task
                  (mkTaskUpdate (pt_title updates) (pt_description updates)
                     (pt_status updates) (pt_priority updates)
                     (pt_assigneeId updates) (pt_dueDate updates)
                     (pt_milestoneId updates))
                  taskId uuid d)).
Proof.
  set (rest :=
         task <- request (reading (select_task_project taskId));;
         match data_of task with
         | Some project_id => updateProjectProgress project_id
         | None => ret tt
         end).
  assert (Hrest : relates keeps_tasks rest).
  { subst rest. relate_steps keeps_tasks_refl keeps_tasks_trans.
    apply updateProjectProgress_tasks. }
  unfold updateTask. rewrite try_rethrow. unfold bind at 1.
  rewrite request_served. cbn [fst snd].
  match goal with
  | |- tasks (db (snd (_ ?w1))) = _ =>
      change (tasks (db (snd (rest w1))) = tasks (db w1))
  end.
  apply Hrest.
Qed.

Lemma deleteTask_tasks taskId d u1 u2 e :
  tasks (db (snd (deleteTask taskId (mkWorld d (Served u1 :: Served u2 :: e)))))
  = tasks (snd (delete_task taskId u2 d)).
Proof.
  unfold deleteTask. rewrite try_rethrow. unfold bind.
  rewrite request_served. cbn [reading fst snd].
  rewrite request_served. cbn [fst snd delete_task].
  destruct (data_of (select_task_project taskId d)) as [projectId |];
    [| reflexivity].
  apply (updateProjectProgress_tasks projectId (mkWorld _ e)).
Qed.

Lemma total_count_tasks d d' projectId :
  tasks d' = tasks d -> total_count d' projectId = total_count d projectId.
Proof. unfold total_count, statuses_of. intros ->. reflexivity. Qed.

(** X7: in a project of fewer than 40 tasks, a served update or deletion of
    one of its tasks returns normally and stores in the row of the project
    the exact rounding of 100 * completed / total, counted on the tasks that
    the project then has, ties upwards, and 0 when no task is left. *)
Theorem small_project_progress_is_exact :
  forall (taskId : string) (d : Database) (row : TaskRow)
         (u1 u2 u3 u4 : string) (e : list Outcome),
    Constraints d -> In row (tasks d) -> t_id row = taskId ->
    let projectId := t_project_id row in
    (total_count d projectId < 40)%nat ->
    let w := mkWorld d (Served u1 :: Served u2 :: Served u3 :: Served u4 :: e) in
    let exact d' :=
      Some (match total_count d' projectId with
            | O => 0
            | total => exact_round_percent (completed_count d' projectId) total
            end) in
    (forall updates,
        let r := updateTask taskId updates w in
        fst r = Ret tt
        /\ stored_progress (db (snd r)) projectId
           = map (fun _ => exact (db (snd r))) (stored_progress d projectId))
    /\ (let r := deleteTask taskId w in
        fst r = Ret tt
        /\ stored_progress (db (snd r)) projectId
           = map (fun _ => exact (db (snd r))) (stored_progress d projectId)).
Proof.
  intros taskId d row u1 u2 u3 u4 e HC Hin Hid projectId Hsmall w exact.
  destruct (progress_after_update_and_delete taskId d row u1 u2 u3 u4 e HC Hin Hid)
    as [Hupd Hdel].
  fold projectId in Hupd, Hdel. fold w in Hupd, Hdel.
  split.
  - intros updates r.
    assert (Hlt : (total_count (db (snd r)) projectId < 40)%nat).
    { subst r w. rewrite (total_count_tasks _ _ projectId
                            (updateTask_tasks taskId updates d u1 _)).
      pose proof (statuses_length_update
                    (mkTaskUpdate (pt_title updates) (pt_description updates)
                       (pt_status updates) (pt_priority updates)
                       (pt_assigneeId updates) (pt_dueDate updates)
                       (pt_milestoneId updates)) taskId d projectId) as Hl.
      unfold update_task in *. cbn [snd] in *. unfold total_count in *.
      rewrite Hl. exact Hsmall. }
    destruct (derived_progress_exact (db (snd r)) projectId Hlt) as [Hex Hck].
    destruct (Hupd updates Hck) as [Hret Hst].
    split; [exact Hret |]. fold r in Hst. rewrite Hst, Hex. reflexivity.
  - intros r.
    assert (Hlt : (total_count (db (snd r)) projectId < 40)%nat).
    { subst r w. rewrite (total_count_tasks _ _ projectId
                            (deleteTask_tasks taskId d u1 u2 _)).
      pose proof (statuses_length_delete taskId d projectId) as Hl.
      unfold delete_task in *. cbn [snd] in *. lia. }
    destruct (derived_progress_exact (db (snd r)) projectId Hlt) as [Hex Hck].
    destruct (Hdel Hck) as [Hret Hst].
    split; [exact Hret |]. fold r in Hst. rewrite Hst, Hex. reflexivity.
Qed.

Lemma small_project_progress_is_exact_witness :
  let r := updateTask "t3" (set_status_only COMPLETED)
             (mkWorld four_tasks (serving ["r1"; "r2"; "r3"; "r4"]%string)) in
  fst r = Ret tt /\ stored_progress (db (snd r)) "p1" = [Some 75].
Proof.
  destruct (proj1 (small_project_progress_is_exact "t3" four_tasks
                     (example_task "t3" TODO) "r1" "r2" "r3" "r4" []
                     ltac:(constructor; simpl; repeat constructor; simpl;
                           intuition discriminate)
                     ltac:(right; right; left; reflexivity) eq_refl
                     ltac:(vm_compute; lia))
              (set_status_only COMPLETED))
    as [Hret Hstored].
  cbv zeta. split; [exact Hret |].
  etransitivity; [exact Hstored | vm_compute; reflexivity].
Defined.

(** * Further properties of memberships and invitations *)

Lemma acceptProjectInvitation_run invitationId d inv u1 u2 u3 e :
  Constraints d ->
  In inv (project_invitations d) ->
  i_id inv = invitationId -> i_status inv = pending ->
  is_member d (i_project_id inv) (i_invited_user_id inv) = false ->
  existsb (fun m => String.eqb (m_id m) u2) (project_members d) = false ->
  acceptProjectInvitation invitationId
    (mkWorld d (Served u1 :: Served u2 :: Served u3 :: e))
  = (Ret tt,
     mkWorld
       (mkDatabase (projects d)
          (project_members d
           ++ [mkMember u2 (i_project_id inv) (i_invited_user_id inv) (i_role inv)])
          (tasks d)
          (map (fun i => if has_invitation_id invitationId i
                         then set_invitation_status accepted i else i)
             (project_invitations d)))
       e).
Proof.
  intros HC Hin Hid Hst Hm Hfresh.
  unfold acceptProjectInvitation. rewrite try_rethrow. unfold bind.
  rewrite request_served. cbn [reading fst snd].
  rewrite (pending_by_id_found invitationId d inv HC Hin Hid Hst).
  rewrite request_served. unfold insert_member.
  unfold is_member in Hm. rewrite Hfresh, Hm. cbn [orb fst snd].
  rewrite request_served. reflexivity.
Qed.

Lemma member_of_new p u id r : member_of p u (mkMember id p u r) = true.
Proof. unfold member_of; simpl. rewrite !String.eqb_refl. reflexivity. Qed.

(** X8: nothing keeps an accepted invitation from being declined: after a
    served acceptance of a pending invitation, a served
    [declineProjectInvitation] of the same invitation returns normally; the
    invitee is then a member of the project, with the role of the
    invitation, while every row of the invitation is declined. *)
Theorem accepted_invitation_can_be_declined :
  forall (invitationId : string) (d : Database) (inv : InvitationRow)
         (u1 u2 u3 u4 : string) (e : list Outcome),
    Constraints d ->
    In inv (project_invitations d) ->
    i_id inv = invitationId -> i_status inv = pending ->
    is_member d (i_project_id inv) (i_invited_user_id inv) = false ->
    existsb (fun m => String.eqb (m_id m) u2) (project_members d) = false ->
    let w1 := snd (acceptProjectInvitation invitationId
                     (mkWorld d (Served u1 :: Served u2 :: Served u3 ::
                                 Served u4 :: e))) in
    let r := declineProjectInvitation invitationId w1 in
    fst r = Ret tt
    /\ In (mkMember u2 (i_project_id inv) (i_invited_user_id inv) (i_role inv))
         (project_members (db (snd r)))
    /\ In (set_invitation_status declined inv) (project_invitations (db (snd r)))
    /\ (forall i, In i (project_invitations (db (snd r))) ->
                  i_id i = invitationId -> i_status i = declined).
Proof.
  intros invitationId d inv u1 u2 u3 u4 e HC Hin Hid Hst Hm Hfresh. cbv zeta.
  rewrite (acceptProjectInvitation_run invitationId d inv u1 u2 u3 _
             HC Hin Hid Hst Hm Hfresh).
  cbn [snd]. unfold declineProjectInvitation. rewrite try_rethrow. unfold bind.
  rewrite request_served.
  cbn [fst snd db update_invitation_status project_members project_invitations
       with_invitations ret].
  split; [reflexivity |]. split; [| split].
  - apply in_or_app. right. left. reflexivity.
  - rewrite map_map. apply in_map_iff. exists inv. split; [| exact Hin].
    subst invitationId. unfold has_invitation_id.
    rewrite String.eqb_refl. cbn [set_invitation_status i_id].
    rewrite String.eqb_refl. reflexivity.
  - intros i Hi Hidi. rewrite map_map in Hi. apply in_map_iff in Hi.
    destruct Hi as (x & Hx & _). subst i. unfold has_invitation_id in *.
    destruct (String.eqb (i_id x) invitationId) eqn:Hh.
    + cbn [set_invitation_status i_id] in *. rewrite Hh. reflexivity.
    + rewrite Hh in *. apply String.eqb_neq in Hh. contradiction.
Qed.

Lemma accepted_invitation_can_be_declined_witness :
  let w1 := snd (acceptProjectInvitation "i1"
                   (mkWorld (invited pending)
                      (serving ["r1"; "m2"; "r3"; "r4"]%string))) in
  let r := declineProjectInvitation "i1" w1 in
  fst r = Ret tt
  /\ In (mkMember "m2" "p1" "u2" Member) (project_members (db (snd r)))
  /\ In (mkInvitation "i1" "p1" "u2" "owner" Member declined)
       (project_invitations (db (snd r))).
Proof.
  destruct (accepted_invitation_can_be_declined "i1" (invited pending)
              (mkInvitation "i1" "p1" "u2" "owner" Member pending)
              "r1" "m2" "r3" "r4" [] (invited_constraints pending)
              (or_introl eq_refl) eq_refl eq_refl eq_refl eq_refl)
    as (Hret & Hmem & Hinv & _).
  cbv zeta. split; [exact Hret |]. split; [exact Hmem | exact Hinv].
Defined.

Lemma existsb_snoc {A} (f : A -> bool) (l : list A) (x : A) :
  existsb f (l ++ [x]) = existsb f l || f x.
Proof. rewrite existsb_app. simpl. rewrite orb_false_r. reflexivity. Qed.



(** ** Removing a member *)

Lemma removed_is_no_member projectId userId uuid d :
  is_member (snd (delete_member projectId userId uuid d)) projectId userId = false.
Proof.
  unfold is_member, delete_member; simpl. apply existsb_none.
  intros m Hm. apply filter_In in Hm. destruct Hm as [_ Hm].
  apply negb_true_iff in Hm. exact Hm.
Qed.

(** X10: a user who has accepted or declined an invitation to a project
    cannot be invited to it again, not even after having been removed from
    the project: [removeProjectMember] leaves the invitation in place, the
    user is then no member and has no pending invitation, and a served
    [createProjectInvitation] for this user throws an error of the backend
    and creates nothing. *)
Theorem removed_member_cannot_be_invited_again :
  forall (projectId userId invitedBy : string) (role : ProjectRole)
         (d : Database) (inv : InvitationRow)
         (u0 u1 u2 u3 : string) (e : list Outcome),
    Constraints d ->
    In inv (project_invitations d) ->
    i_project_id inv = projectId -> i_invited_user_id inv = userId ->
    i_status inv <> pending ->
    let w1 := snd (removeProjectMember projectId userId
                     (mkWorld d (Served u0 :: Served u1 :: Served u2 ::
                                 Served u3 :: e))) in
    let r := createProjectInvitation projectId userId invitedBy role w1 in
    is_member (db w1) projectId userId = false
    /\ has_pending_invitation (db w1) projectId userId = false
    /\ (exists code, fst r = Throw (PostgrestError code))
    /\ db (snd r) = db w1.
Proof.
  intros p u b role d inv u0 u1 u2 u3 e HC Hin Hp Hu Hst. cbv zeta.
  set (d1 := snd (delete_member p u u0 d)).
  assert (Hw1 : snd (removeProjectMember p u
                       (mkWorld d (Served u0 :: Served u1 :: Served u2 ::
                                   Served u3 :: e)))
                = mkWorld d1 (Served u1 :: Served u2 :: Served u3 :: e)).
  { unfold removeProjectMember. rewrite try_rethrow. unfold bind.
    rewrite request_served. reflexivity. }
  rewrite Hw1. cbn [db].
  assert (Hm : is_member d1 p u = false) by apply removed_is_no_member.
  assert (Hinv : has_invitation d1 p u = true).
  { unfold has_invitation. apply existsb_exists. exists inv.
    split; [exact Hin |]. unfold invited_to.
    rewrite Hp, Hu, !String.eqb_refl. reflexivity. }
  assert (Hpend : has_pending_invitation d1 p u = false).
  { unfold has_pending_invitation. apply existsb_none. intros i Hi.
    destruct (invited_to p u i) eqn:Hk; [| reflexivity].
    assert (i = inv) as ->.
    { apply (NoDup_map_inj invitation_key (project_invitations d));
        [exact (invitations_unique d HC) | exact Hi | exact Hin |].
      rewrite (invited_to_key p u i Hk). unfold invitation_key.
      rewrite Hp, Hu. reflexivity. }
    unfold is_pending. destruct (i_status inv); simpl; congruence. }
  clearbody d1.
  split; [exact Hm |]. split; [exact Hpend |].
  unfold createProjectInvitation. rewrite try_rethrow. unfold bind.
  rewrite request_served. cbn [reading fst snd]. unfold select_member.
  unfold is_member in Hm. rewrite (filter_none _ _ Hm). cbn [map single data_of].
  rewrite request_served. cbn [reading fst snd]. unfold select_pending_invitation.
  unfold has_pending_invitation in Hpend. rewrite (filter_none _ _ Hpend).
  cbn [map single data_of].
  rewrite request_served. unfold insert_invitation.
  destruct (negb (invitation_role_check role)); cbn [fst snd throw db];
    [split; [eexists; reflexivity | reflexivity] |].
  unfold has_invitation in Hinv. rewrite Hinv, orb_true_r. cbn [fst snd throw db].
  split; [eexists; reflexivity | reflexivity].
Qed.

Lemma removed_member_cannot_be_invited_again_witness :
  let w1 := snd (removeProjectMember "p1" "u2"
                   (mkWorld (invited accepted)
                      (serving ["r0"; "r1"; "r2"; "i2"]%string))) in
  exists code,
    fst (createProjectInvitation "p1" "u2" "owner" Viewer w1)
    = Throw (PostgrestError code).
Proof.
  apply (removed_member_cannot_be_invited_again "p1" "u2" "owner" Viewer
           (invited accepted)
           (mkInvitation "i1" "p1" "u2" "owner" Member accepted)
           "r0" "r1" "r2" "i2" [] (invited_constraints accepted)
           (or_introl eq_refl) eq_refl eq_refl).
  discriminate.
Defined.

Lemma with_members_same d : with_members d (project_members d) = d.
Proof. destruct d; reflexivity. Qed.

Lemma not_member_rows d projectId userId :
  is_member d projectId userId = false ->
  forall m, In m (project_members d) -> member_of projectId userId m = false.
Proof.
  unfold is_member. intros H m Hm.
  destruct (member_of projectId userId m) eqn:E; [| reflexivity].
  assert (existsb (member_of projectId userId) (project_members d) = true)
    by (apply existsb_exists; eauto).
  congruence.
Qed.

(** X11: adding a user who is not a member of the project and removing the
    user again, both requests served, gives back the database as it was;
    adding a user who is a member already throws on the unique key and
    changes nothing. *)
Theorem member_add_remove_round_trip :
  forall (projectId userId : string) (role : ProjectRole) (d : Database)
         (u1 u2 : string) (e : list Outcome),
    (is_member d projectId userId = false ->
     existsb (fun m => String.eqb (m_id m) u1) (project_members d) = false ->
     let added := addProjectMember projectId userId role
                    (mkWorld d (Served u1 :: Served u2 :: e)) in
     fst added = Ret tt
     /\ is_member (db (snd added)) projectId userId = true
     /\ removeProjectMember projectId userId (snd added) = (Ret tt, mkWorld d e))
    /\ (is_member d projectId userId = true ->
        addProjectMember projectId userId role (mkWorld d (Served u1 :: e))
        = (Throw (PostgrestError "23505"), mkWorld d e)).
Proof.
  intros p u role d u1 u2 e. split.
  - intros Hm Hfresh. cbv zeta.
    assert (Hadd : addProjectMember p u role (mkWorld d (Served u1 :: Served u2 :: e))
                   = (Ret tt,
                      mkWorld (with_members d
                                 (project_members d ++ [mkMember u1 p u role]))
                        (Served u2 :: e))).
    { unfold addProjectMember. rewrite try_rethrow. unfold bind.
      rewrite request_served. unfold insert_member.
      unfold is_member in Hm. rewrite Hfresh, Hm. reflexivity. }
    rewrite Hadd. cbn [fst snd db]. split; [reflexivity |]. split.
    + unfold is_member. cbn [project_members with_members].
      rewrite existsb_snoc, member_of_new. apply orb_true_r.
    + unfold removeProjectMember. rewrite try_rethrow. unfold bind.
      rewrite request_served. unfold delete_member.
      cbn [fst snd project_members with_members ret].
      rewrite filter_app. cbn [filter]. rewrite member_of_new. cbn [negb].
      rewrite app_nil_r, filter_keep_all.
      * destruct d; reflexivity.
      * intros m Hin. rewrite (not_member_rows d p u Hm m Hin). reflexivity.
  - intros Hm. unfold addProjectMember. rewrite try_rethrow. unfold bind.
    rewrite request_served. unfold insert_member.
    unfold is_member in Hm. rewrite Hm, orb_true_r. reflexivity.
Qed.

Lemma member_add_remove_round_trip_witness :
  removeProjectMember "p1" "u2"
    (snd (addProjectMember "p1" "u2" Viewer
            (mkWorld half_done (serving ["m2"; "r2"]%string))))
  = (Ret tt, mkWorld half_done [])
  /\ addProjectMember "p1" "owner" Member (mkWorld half_done (serving ["m2"%string]))
     = (Throw (PostgrestError "23505"), mkWorld half_done []).
Proof.
  split.
  - apply (proj1 (member_add_remove_round_trip "p1" "u2" Viewer half_done
                    "m2" "r2" []) eq_refl eq_refl).
  - apply (proj2 (member_add_remove_round_trip "p1" "owner" Member half_done
                    "m2" "r2" []) eq_refl).
Defined.

(** X12: changing the role of a user who is not a member of the project, or
    removing such a user, is not an error: the operation returns normally
    and the database is as it was.  For a member, a served
    [removeProjectMember] removes the membership whatever the role is, the
    role Owner included, and leaves the rows of the other members and the
    other tables as they are. *)
Theorem membership_of_a_non_member :
  forall (projectId userId : string) (d : Database) (uuid : string)
         (e : list Outcome),
    (is_member d projectId userId = false ->
     (forall role,
         updateMemberRole projectId userId role (mkWorld d (Served uuid :: e))
         = (Ret tt, mkWorld d e))
     /\ removeProjectMember projectId userId (mkWorld d (Served uuid :: e))
        = (Ret tt, mkWorld d e))
    /\ (let r := removeProjectMember projectId userId
                   (mkWorld d (Served uuid :: e)) in
        fst r = Ret tt
        /\ is_member (db (snd r)) projectId userId = false
        /\ (forall m, In m (project_members d) ->
                      member_key m <> (projectId, userId) ->
                      In m (project_members (db (snd r))))
        /\ projects (db (snd r)) = projects d
        /\ tasks (db (snd r)) = tasks d
        /\ project_invitations (db (snd r)) = project_invitations d).
Proof.
  intros p u d uuid e. split.
  - intros Hm. pose proof (not_member_rows d p u Hm) as Hrows. split.
    + intros role. unfold updateMemberRole. rewrite try_rethrow. unfold bind.
      rewrite request_served. unfold update_member_role. cbn [fst snd ret].
      rewrite (map_untouched _ _ _ Hrows), with_members_same. reflexivity.
    + unfold removeProjectMember. rewrite try_rethrow. unfold bind.
      rewrite request_served. unfold delete_member. cbn [fst snd ret].
      rewrite filter_keep_all, with_members_same; [reflexivity |].
      intros m Hin. rewrite (Hrows m Hin). reflexivity.
  - cbv zeta. unfold removeProjectMember. rewrite try_rethrow. unfold bind.
    rewrite request_served. cbn [fst snd ret db].
    split; [reflexivity |]. split; [apply removed_is_no_member |].
    split; [| repeat split].
    intros m Hin Hkey. unfold delete_member. cbn [snd project_members with_members].
    apply filter_In. split; [exact Hin |].
    apply negb_true_iff. destruct (member_of p u m) eqn:E; [| reflexivity].
    exfalso. apply Hkey. apply member_of_key, E.
Qed.

Lemma membership_of_a_non_member_witness :
  updateMemberRole "p1" "u2" Owner (mkWorld half_done (serving ["r1"%string]))
  = (Ret tt, mkWorld half_done [])
  /\ is_member
       (db (snd (removeProjectMember "p1" "owner"
                   (mkWorld half_done (serving ["r1"%string]))))) "p1" "owner"
     = false.
Proof.
  split.
  - apply (proj1 (proj1 (membership_of_a_non_member "p1" "u2" half_done "r1" [])
                    eq_refl)).
  - apply (proj2 (membership_of_a_non_member "p1" "owner" half_done "r1" [])).
Defined.

(** ** The lists of pending invitations *)

Lemma getProjectInvitations_run projectId d uuid e :
  getProjectInvitations projectId (mkWorld d (Served uuid :: e))
  = (Ret (map toProjectInvitation
            (rev (filter (fun i => String.eqb (i_project_id i) projectId
                                   && is_pending i)
                    (project_invitations d)))),
     mkWorld d e).
Proof.
  unfold getProjectInvitations. rewrite try_rethrow. unfold bind.
  rewrite request_served. reflexivity.
Qed.

Lemma getUserInvitations_run userId d uuid e :
  getUserInvitations userId (mkWorld d (Served uuid :: e))
  = (Ret (map toProjectInvitation
            (rev (filter (fun i => String.eqb (i_invited_user_id i) userId
                                   && is_pending i)
                    (project_invitations d)))),
     mkWorld d e).
Proof.
  unfold getUserInvitations. rewrite try_rethrow. unfold bind.
  rewrite request_served. reflexivity.
Qed.

Lemma listed_iff (f : InvitationRow -> bool) (l : list InvitationRow)
  (x : ProjectInvitation) :
  In x (map toProjectInvitation (rev (filter f l)))
  <-> exists row, In row l /\ f row = true /\ x = toProjectInvitation row.
Proof.
  rewrite in_map_iff. split.
  - intros (row & Hx & Hrow). apply in_rev in Hrow. apply filter_In in Hrow.
    exists row. intuition.
  - intros (row & Hin & Hf & ->). exists row. split; [reflexivity |].
    apply in_rev. rewrite rev_involutive. apply filter_In. auto.
Qed.

(** X13: an invitation that has just been created is in the list of the
    pending invitations of its project and in the list of its invitee, and
    it is in neither list any more once it has been cancelled or declined
    (all requests served).  The invitee is assumed to be no member and to
    have no invitation to the project, and the role to be Member or
    Viewer. *)
Theorem created_invitation_is_listed_until_resolved :
  forall (projectId userId invitedBy : string) (role : ProjectRole)
         (d : Database) (u1 u2 u3 : string) (e : list Outcome),
    Constraints d ->
    is_member d projectId userId = false ->
    has_invitation d projectId userId = false ->
    role <> Owner ->
    existsb (has_invitation_id u3) (project_invitations d) = false ->
    let created := mkProjectInvitation u3 projectId userId invitedBy role pending in
    let d1 := db (snd (createProjectInvitation projectId userId invitedBy role
                         (mkWorld d (Served u1 :: Served u2 :: Served u3 :: e)))) in
    let listed (d' : Database) :=
      forall (u4 : string) (e' : list Outcome),
        (exists l, fst (getProjectInvitations projectId (mkWorld d' (Served u4 :: e')))
                   = Ret l /\ In created l)
        /\ (exists l, fst (getUserInvitations userId (mkWorld d' (Served u4 :: e')))
                      = Ret l /\ In created l) in
    let unlisted (d' : Database) :=
      forall (u4 : string) (e' : list Outcome) (l : list ProjectInvitation),
        (fst (getProjectInvitations projectId (mkWorld d' (Served u4 :: e'))) = Ret l
         \/ fst (getUserInvitations userId (mkWorld d' (Served u4 :: e'))) = Ret l) ->
        forall x, In x l -> inv_id x <> u3 in
    listed d1
    /\ (forall u4 e',
           unlisted (db (snd (cancelProjectInvitation u3
                                (mkWorld d1 (Served u4 :: e'))))))
    /\ (forall u4 e',
           unlisted (db (snd (declineProjectInvitation u3
                                (mkWorld d1 (Served u4 :: e')))))).
Proof.
  intros p u b role d u1 u2 u3 e HC Hm Hi Hrole Hfresh created d1 listed unlisted.
  set (row := mkInvitation u3 p u b role pending).
  assert (Hd1 : d1 = with_invitations d (project_invitations d ++ [row])).
  { subst d1. unfold createProjectInvitation. rewrite try_rethrow. unfold bind.
    rewrite request_served. cbn [reading fst snd]. unfold select_member.
    unfold is_member in Hm. rewrite (filter_none _ _ Hm). cbn [map single data_of].
    rewrite request_served. cbn [reading fst snd]. unfold select_pending_invitation.
    rewrite (filter_none _ _ (existsb_pending_invited p u _ Hi)).
    cbn [map single data_of].
    rewrite request_served. unfold insert_invitation.
    replace (invitation_role_check role) with true
      by (destruct role; [congruence | reflexivity | reflexivity]).
    unfold has_invitation in Hi. rewrite Hfresh, Hi. reflexivity. }
  assert (Hold : forall i, In i (project_invitations d) -> i_id i <> u3).
  { intros i Hin Heq.
    assert (existsb (has_invitation_id u3) (project_invitations d) = true).
    { apply existsb_exists. exists i. split; [exact Hin |].
      unfold has_invitation_id. rewrite Heq. apply String.eqb_refl. }
    congruence. }
  clearbody d1. subst d1. split; [| split].
  - intros u4 e'. rewrite getProjectInvitations_run, getUserInvitations_run.
    cbn [fst]. split; eexists; (split; [reflexivity |]);
      apply listed_iff; exists row; cbn [project_invitations with_invitations];
      (split; [apply in_or_app; right; left; reflexivity |]);
      (split; [| reflexivity]); unfold row, is_pending; cbn;
      rewrite String.eqb_refl; reflexivity.
  - intros u4 e' u5 e'' l Hl x Hx.
    unfold cancelProjectInvitation in Hl. rewrite try_rethrow in Hl.
    unfold bind in Hl. rewrite request_served in Hl.
    cbn [fst snd ret db delete_pending_invitation] in Hl.
    rewrite getProjectInvitations_run, getUserInvitations_run in Hl. cbn [fst] in Hl.
    assert (Hx' : exists f, In x (map toProjectInvitation
                                    (rev (filter f
                                            (filter (fun i => negb (has_invitation_id u3 i
                                                                    && is_pending i))
                                               (project_invitations d ++ [row])))))).
    { destruct Hl as [Hl | Hl]; injection Hl as <-; eexists; exact Hx. }
    destruct Hx' as (f & Hx'). apply listed_iff in Hx'.
    destruct Hx' as (i & Hin & _ & ->). apply filter_In in Hin.
    destruct Hin as [Hin Hkeep]. apply in_app_or in Hin.
    destruct Hin as [Hin | [<- | []]]; [exact (Hold i Hin) |].
    unfold row, has_invitation_id, is_pending in Hkeep. cbn in Hkeep.
    rewrite String.eqb_refl in Hkeep. discriminate.
  - intros u4 e' u5 e'' l Hl x Hx.
    unfold declineProjectInvitation in Hl. rewrite try_rethrow in Hl.
    unfold bind in Hl. rewrite request_served in Hl.
    cbn [fst snd ret db update_invitation_status] in Hl.
    rewrite getProjectInvitations_run, getUserInvitations_run in Hl. cbn [fst] in Hl.
    set (g := fun i => if has_invitation_id u3 i
                       then set_invitation_status declined i else i) in *.
    assert (Hx' : exists f, (forall i, f i = true -> is_pending i = true)
                            /\ In x (map toProjectInvitation
                                       (rev (filter f
                                               (map g (project_invitations d ++ [row])))))).
    { destruct Hl as [Hl | Hl]; injection Hl as <-; eexists;
        (split; [| exact Hx]); intros i Hf; apply andb_true_iff in Hf; apply Hf. }
    destruct Hx' as (f & Hf & Hx'). apply listed_iff in Hx'.
    destruct Hx' as (i & Hin & Hfi & ->). apply in_map_iff in Hin.
    destruct Hin as (j & <- & Hj). unfold g in *.
    destruct (has_invitation_id u3 j) eqn:Hh.
    + specialize (Hf _ Hfi). discriminate.
    + unfold has_invitation_id in Hh. apply String.eqb_neq in Hh. exact Hh.
Qed.

Lemma created_invitation_is_listed_until_resolved_witness :
  let d1 := db (snd (createProjectInvitation "p1" "u2" "owner" Viewer
                       (mkWorld half_done (serving ["r1"; "r2"; "i1"]%string)))) in
  exists l,
    fst (getProjectInvitations "p1" (mkWorld d1 (serving ["r4"%string]))) = Ret l
    /\ In (mkProjectInvitation "i1" "p1" "u2" "owner" Viewer pending) l.
Proof.
  destruct (created_invitation_is_listed_until_resolved "p1" "u2" "owner" Viewer
              half_done "r1" "r2" "i1" [] half_done_constraints eq_refl eq_refl
              ltac:(discriminate) eq_refl)
    as (Hlisted & _).
  exact (proj1 (Hlisted "r4"%string [])).
Defined.

(** * Creating and deleting a project *)

Lemma Forall_filter {A} (P : A -> Prop) (f : A -> bool) (l : list A) :
  Forall P l -> Forall P (filter f l).
Proof.
  rewrite !Forall_forall. intros H x Hx. apply filter_In in Hx. apply H, Hx.
Qed.

Lemma append_cancel (p s1 s2 : string) :
  (p ++ s1)%string = (p ++ s2)%string -> s1 = s2.
Proof.
  induction p as [| c p IH]; simpl; intros H; [exact H |].
  injection H as H. auto.
Qed.

Lemma digits_inj (a b : Z) : Gemini.digits a = Gemini.digits b -> a = b.
Proof.
  unfold Gemini.digits. intros H.
  assert (Hnil : forall z, Z.to_int z <> Decimal.Pos Decimal.Nil
                           /\ Z.to_int z <> Decimal.Neg Decimal.Nil).
  { intros [| p | p]; simpl; split; try discriminate;
      intros E; injection E as E; exact (DecimalPos.Unsigned.to_uint_nonnil p E). }
  assert (E : Some (Z.to_int a) = Some (Z.to_int b)).
  { rewrite <- (NilZero.isi (Z.to_int a)) by apply Hnil.
    rewrite <- (NilZero.isi (Z.to_int b)) by apply Hnil.
    rewrite H. reflexivity. }
  injection E as E.
  rewrite <- (DecimalZ.of_to a), <- (DecimalZ.of_to b), E. reflexivity.
Qed.

Lemma batch_id_inj (uuid : string) (k k' : nat) :
  batch_id uuid k = batch_id uuid k' -> k = k'.
Proof.
  unfold batch_id. intros H. apply append_cancel in H.
  simpl in H. injection H as H. apply digits_inj in H. lia.
Qed.

Lemma keyed_members_ids uuid rows :
  forall k, map m_id (keyed_members uuid k rows)
            = map (batch_id uuid) (seq k (List.length rows)).
Proof.
  induction rows as [| [[p u] r] rows IH]; intros k; simpl; [reflexivity |].
  rewrite IH. reflexivity.
Qed.

Lemma keyed_members_keys uuid rows :
  forall k, map member_key (keyed_members uuid k rows) = map fst rows.
Proof.
  induction rows as [| [[p u] r] rows IH]; intros k; simpl; [reflexivity |].
  rewrite IH. reflexivity.
Qed.

Lemma keyed_members_team uuid rows :
  forall k, map (fun m => mkProjectMember (m_user_id m) (m_role m))
              (keyed_members uuid k rows)
            = map (fun row => mkProjectMember (snd (fst row)) (snd row)) rows.
Proof.
  induction rows as [| [[p u] r] rows IH]; intros k; simpl; [reflexivity |].
  rewrite IH. reflexivity.
Qed.

Lemma keyed_members_project uuid projectId rows :
  Forall (fun row => fst (fst row) = projectId) rows ->
  forall k, Forall (fun m => m_project_id m = projectId) (keyed_members uuid k rows).
Proof.
  induction 1 as [| [[p u] r] rows Hp _ IH]; intros k; simpl; constructor; auto.
Qed.

Lemma team_rows_project projectId createdBy team :
  Forall (fun row => fst (fst row) = projectId) (team_rows projectId createdBy team).
Proof.
  unfold team_rows. constructor; [reflexivity |].
  apply Forall_forall. intros row Hin. apply in_map_iff in Hin.
  destruct Hin as (u & <- & _). reflexivity.
Qed.

Lemma team_rows_keys projectId createdBy team :
  map fst (team_rows projectId createdBy team)
  = map (fun u => (projectId, u)) (createdBy :: team).
Proof.
  unfold team_rows. simpl. f_equal. rewrite map_map. reflexivity.
Qed.

Lemma NoDup_map_injective {A B} (f : A -> B) (l : list A) :
  (forall a b, f a = f b -> a = b) -> NoDup l -> NoDup (map f l).
Proof.
  intros Hf. induction 1 as [| a l Ha _ IH]; simpl; constructor; [| exact IH].
  intros Hin. apply in_map_iff in Hin. destruct Hin as (b & E & Hb).
  apply Hf in E. subst b. contradiction.
Qed.

Lemma NoDup_batch_ids uuid k n : NoDup (map (batch_id uuid) (seq k n)).
Proof.
  apply NoDup_map_injective; [| apply seq_NoDup].
  intros a b. apply batch_id_inj.
Qed.

(** The rows of an INSERT that does not fail are appended. *)
Lemma add_members_app new :
  forall table table', add_members table new = Some table' -> table' = table ++ new.
Proof.
  induction new as [| n rest IH]; simpl; intros table table' H.
  - injection H as <-. rewrite app_nil_r. reflexivity.
  - destruct (_ || _); [discriminate |].
    rewrite (IH _ _ H), <- app_assoc. reflexivity.
Qed.

(** An INSERT that does not fail had rows with distinct keys. *)
Lemma add_members_distinct new :
  forall table table',
    add_members table new = Some table' ->
    NoDup (map member_key new)
    /\ forall m, In m table -> ~ In (member_key m) (map member_key new).
Proof.
  induction new as [| n rest IH]; simpl; intros table table' H.
  - split; [constructor | auto].
  - destruct (_ || _) eqn:Hex; [discriminate |].
    apply orb_false_iff in Hex. destruct Hex as [_ Hkey].
    destruct (IH _ _ H) as [Hnd Hdisj]. split.
    + constructor; [| exact Hnd].
      apply (Hdisj n). apply in_or_app. right. left. reflexivity.
    + intros m Hm [E | Hin].
      * assert (Hex : existsb (member_of (m_project_id n) (m_user_id n)) table = true).
        { apply existsb_exists. exists m. split; [exact Hm |].
          unfold member_key in E. injection E as E1 E2.
          unfold member_of. rewrite <- E1, <- E2, !String.eqb_refl. reflexivity. }
        congruence.
      * apply (Hdisj m); [apply in_or_app; left; exact Hm | exact Hin].
Qed.

(** Rows with fresh and distinct keys are inserted. *)
Lemma add_members_fresh new :
  forall table,
    NoDup (map m_id new) -> NoDup (map member_key new) ->
    (forall m, In m table ->
               ~ In (m_id m) (map m_id new)
               /\ ~ In (member_key m) (map member_key new)) ->
    add_members table new = Some (table ++ new).
Proof.
  induction new as [| n rest IH]; simpl; intros table Hid Hkey Hdisj.
  - rewrite app_nil_r. reflexivity.
  - inversion Hid as [| ? ? Hn1 Hid']; subst.
    inversion Hkey as [| ? ? Hn2 Hkey']; subst.
    rewrite (existsb_none (fun m => String.eqb (m_id m) (m_id n)) table).
    2:{ intros m Hm. apply String.eqb_neq. intros E.
        apply (proj1 (Hdisj m Hm)). left. symmetry. exact E. }
    rewrite (existsb_none (member_of (m_project_id n) (m_user_id n)) table).
    2:{ intros m Hm. destruct (member_of _ _ m) eqn:E; [| reflexivity].
        exfalso. apply (proj2 (Hdisj m Hm)). left.
        apply member_of_key in E. symmetry. exact E. }
    simpl. rewrite IH; [rewrite <- app_assoc; reflexivity | assumption | assumption |].
    intros m Hm. apply in_app_or in Hm. destruct Hm as [Hm | [<- | []]].
    + split; intros Hin; [apply (proj1 (Hdisj m Hm)) | apply (proj2 (Hdisj m Hm))];
        right; exact Hin.
    + split; assumption.
Qed.

Lemma filter_fixed {A} (f : A -> bool) (l : list A) :
  filter f l = l -> forall x, In x l -> f x = true.
Proof. intros H x Hx. rewrite <- H in Hx. apply filter_In in Hx. apply Hx. Qed.

Lemma filter_drop_all {A} (f : A -> bool) (l : list A) :
  (forall x, In x l -> f x = false) -> filter f l = [].
Proof. intros H. apply filter_none, existsb_none, H. Qed.

Lemma unknown_project_rows uuid d :
  unknown_project uuid d ->
  existsb (has_project_id uuid) (projects d) = false
  /\ (forall m, In m (project_members d) -> m_project_id m <> uuid)
  /\ filter (of_project uuid) (tasks d) = [].
Proof.
  unfold unknown_project, others. destruct d as [ps ms ts invs]; simpl.
  intros H. injection H as H1 H2 H3 H4. repeat split.
  - apply existsb_none. intros p Hp.
    apply (filter_fixed _ _ H1) in Hp. apply negb_true_iff in Hp. exact Hp.
  - intros m Hm. apply (filter_fixed _ _ H2) in Hm.
    apply negb_true_iff in Hm. apply String.eqb_neq in Hm. exact Hm.
  - apply filter_drop_all. intros t Ht.
    apply (filter_fixed _ _ H3) in Ht. apply negb_true_iff in Ht. exact Ht.
Qed.

Lemma others_new_project uuid v d :
  others uuid (with_projects d (projects d ++ [mkProject uuid v])) = others uuid d.
Proof.
  unfold others; simpl. rewrite filter_app; simpl.
  unfold has_project_id at 2; simpl. rewrite String.eqb_refl; simpl.
  rewrite app_nil_r. reflexivity.
Qed.

Lemma others_new_members uuid new d :
  Forall (fun m => m_project_id m = uuid) new ->
  others uuid (with_members d (project_members d ++ new)) = others uuid d.
Proof.
  intros H. unfold others; simpl. rewrite filter_app.
  rewrite (filter_drop_all _ new), app_nil_r; [reflexivity |].
  intros m Hm. rewrite Forall_forall in H. rewrite (H m Hm), String.eqb_refl.
  reflexivity.
Qed.

Lemma others_new_task uuid row d :
  t_project_id row = uuid ->
  others uuid (with_tasks d (tasks d ++ [row])) = others uuid d.
Proof.
  intros H. unfold others; simpl. rewrite filter_app; simpl.
  unfold of_project at 2. rewrite H, String.eqb_refl; simpl.
  rewrite app_nil_r. reflexivity.
Qed.

(** The run of [createProject] once the row of the project is stored. *)
Lemma createProject_run name descr templateType createdBy team d uuid e :
  existsb (has_project_id uuid) (projects d) = false ->
  createProject name descr templateType createdBy team (mkWorld d (Served uuid :: e)) =
  let d0 := with_projects d (projects d ++ [mkProject uuid (Some 0)]) in
  match e with
  | Served b :: e' =>
      match add_members (project_members d)
              (keyed_members b 0 (team_rows uuid createdBy team)) with
      | Some table =>
          dbToProject (mkProjectReply uuid name descr templateType (Some 0))
            (mkWorld (with_members d0 table) e')
      | None => (Throw (PostgrestError "23505"), mkWorld d0 e')
      end
  | Refused :: e' => (Throw (PostgrestError "refused"), mkWorld d0 e')
  | Crashed :: e' => (Throw Rejection, mkWorld d0 e')
  | [] => (Throw (PostgrestError "unavailable"), mkWorld d0 [])
  end.
Proof.
  intros Hfresh. unfold createProject. rewrite try_rethrow. unfold bind.
  rewrite request_served. unfold insert_project. rewrite Hfresh.
  cbn [progress_check negb fst snd Z.leb Z.compare andb pf_id].
  destruct e as [| [b | |] e']; try reflexivity.
  rewrite request_served. unfold insert_members, team_rows.
  cbn [project_members with_projects].
  destruct (add_members _ _); reflexivity.
Qed.

Lemma createProject_known name descr templateType createdBy team d uuid e :
  existsb (has_project_id uuid) (projects d) = true ->
  createProject name descr templateType createdBy team (mkWorld d (Served uuid :: e))
  = (Throw (PostgrestError "23505"), mkWorld d e).
Proof.
  intros Hex. unfold createProject. rewrite try_rethrow. unfold bind.
  rewrite request_served. unfold insert_project. rewrite Hex. reflexivity.
Qed.

Lemma createProject_unserved name descr templateType createdBy team w :
  next_id w = None ->
  db (snd (createProject name descr templateType createdBy team w)) = db w
  /\ forall p, fst (createProject name descr templateType createdBy team w) <> Ret p.
Proof.
  destruct w as [d [| [uuid | |] e]]; simpl; intros H; try discriminate;
    split; try reflexivity; intros p; discriminate.
Qed.

Lemma dbToProject_run row w :
  db (snd (dbToProject row w)) = db w
  /\ forall p, fst (dbToProject row w) = Ret p ->
               pj_id p = pf_id row /\ pj_progress p = pf_progress row
               /\ pj_tasks p = [] /\ pj_milestones p = [].
Proof.
  destruct w as [d [| [uuid | |] e]]; simpl; split; try reflexivity;
    intros p H; try discriminate; injection H as <-; auto.
Qed.

Lemma existsb_new_project uuid v ps :
  existsb (has_project_id uuid) (ps ++ [mkProject uuid v]) = true.
Proof.
  rewrite existsb_snoc. unfold has_project_id at 2; simpl.
  rewrite String.eqb_refl. apply orb_true_r.
Qed.

Lemma createProject_grown name descr templateType createdBy team d uuid e :
  let r := createProject name descr templateType createdBy team
             (mkWorld d (Served uuid :: e)) in
  others uuid (db (snd r)) = others uuid d
  /\ (db (snd r) = d
      \/ existsb (has_project_id uuid) (projects (db (snd r))) = true)
  /\ (forall p, fst r = Ret p ->
                pj_id p = uuid
                /\ existsb (has_project_id uuid) (projects (db (snd r))) = true).
Proof.
  cbv zeta.
  destruct (existsb (has_project_id uuid) (projects d)) eqn:Hex.
  - rewrite (createProject_known _ _ _ _ _ _ _ _ Hex); simpl.
    split; [reflexivity | split; [left; reflexivity | discriminate]].
  - rewrite (createProject_run _ _ _ _ _ _ _ _ Hex). cbv zeta.
    pose proof (others_new_project uuid (Some 0) d) as Ho.
    pose proof (existsb_new_project uuid (Some 0) (projects d)) as Hn.
    destruct e as [| [b | |] e']; cbn [fst snd db];
      try (split; [exact Ho | split; [right; exact Hn | discriminate]]).
    destruct (add_members _ _) as [table |] eqn:Hadd; cbn [fst snd db];
      [| split; [exact Ho | split; [right; exact Hn | discriminate]]].
    apply add_members_app in Hadd. subst table.
    destruct (dbToProject_run (mkProjectReply uuid name descr templateType (Some 0))
                (mkWorld
                   (with_members
                      (with_projects d (projects d ++ [mkProject uuid (Some 0)]))
                      (project_members d
                       ++ keyed_members b 0 (team_rows uuid createdBy team))) e'))
      as [Hdb Hret].
    rewrite Hdb. cbn [db].
    split; [| split].
    + rewrite <- Ho.
      apply (others_new_members uuid _
               (with_projects d (projects d ++ [mkProject uuid (Some 0)]))).
      apply keyed_members_project, team_rows_project.
    + right. exact Hn.
    + intros p Hp. split; [apply (Hret p Hp) | exact Hn].
Qed.

Lemma project_grows_refl uuid d : project_grows uuid d d.
Proof. split; reflexivity. Qed.

Lemma project_grows_trans uuid d1 d2 d3 :
  project_grows uuid d1 d2 -> project_grows uuid d2 d3 -> project_grows uuid d1 d3.
Proof. unfold project_grows. intros [H1 H2] [H3 H4]. split; congruence. Qed.

Lemma createTask_project_grows uuid taskData :
  relates (project_grows uuid) (createTask uuid taskData).
Proof.
  unfold createTask.
  relate_steps (project_grows_refl uuid) (project_grows_trans uuid).
  apply (relates_request _ (project_grows_refl uuid)). intros key d.
  unfold insert_task. destruct (negb _); [apply project_grows_refl |].
  destruct (existsb _ _); cbn [snd]; [apply project_grows_refl |].
  split; [reflexivity |]. apply others_new_task. reflexivity.
Qed.

Lemma createTasks_project_grows uuid tasks :
  relates (project_grows uuid) (createTasks uuid tasks).
Proof.
  induction tasks as [| task rest IH]; simpl.
  - apply (relates_ret _ (project_grows_refl uuid)).
  - apply (relates_bind _ (project_grows_trans uuid));
      [apply createTask_project_grows | intros _; exact IH].
Qed.

Lemma handleCreateProject_grown user data d uuid e :
  let d' := db (snd (handleCreateProject user data (mkWorld d (Served uuid :: e)))) in
  others uuid d' = others uuid d
  /\ (d' = d \/ existsb (has_project_id uuid) (projects d') = true).
Proof.
  cbv zeta. unfold handleCreateProject. destruct user as [userId |];
    [| simpl; auto].
  unfold try_catch, bind.
  destruct (createProject_grown (wd_name data) (wd_description data)
              (wd_template data) userId (wd_selectedTeamIds data) d uuid e)
    as (Ho & Hd & Hret).
  destruct (createProject _ _ _ _ _ _) as [[p | err] w1]; cbn [fst snd] in *.
  - destruct (Hret p eq_refl) as [-> Hex].
    pose proof (createTasks_project_grows uuid (wd_suggestedTasks data) w1)
      as [Hp Hoth].
    destruct (createTasks uuid (wd_suggestedTasks data) w1) as [[[] | err] w2];
      cbn [fst snd ret] in *.
    + split; [congruence | right; rewrite Hp; exact Hex].
    + split; [congruence | right; rewrite Hp; exact Hex].
  - cbn [ret snd]. split; assumption.
Qed.

(** X15: creating a project through the wizard touches no other project:
    whatever the backend does with the requests, the rows of the other
    projects, their members, their tasks and their invitations are what
    they were, in the same order; and when the first request is not served
    nothing is written at all. *)
Theorem handleCreateProject_only_new_project :
  forall (user : option string) (data : WizardData) (w : World),
    let d' := db (snd (handleCreateProject user data w)) in
    match next_id w with
    | Some uuid => others uuid d' = others uuid (db w)
    | None => d' = db w
    end.
Proof.
  intros user data [d e]. cbv zeta. unfold next_id. cbn [env db].
  destruct e as [| [uuid | |] e];
    try (destruct user; reflexivity).
  apply handleCreateProject_grown.
Qed.

(** X16: a project that is created and then deleted leaves no trace: when
    the database knows no row of the identifier that the new project gets,
    then after [handleCreateProject], however far it got, a served
    [deleteProject] of that identifier gives back the database as it was
    before, whether or not members and tasks had been stored. *)
Theorem created_project_is_deleted_without_trace :
  forall (user : option string) (data : WizardData) (d : Database)
         (uuid r : string) (e e' : list Outcome),
    unknown_project uuid d ->
    let w1 := snd (handleCreateProject user data (mkWorld d (Served uuid :: e))) in
    env w1 = Served r :: e' ->
    deleteProject uuid w1 = (Ret tt, mkWorld d e').
Proof.
  intros user data d uuid r e e' Hunknown w1 Henv.
  destruct (handleCreateProject_grown user data d uuid e) as [Ho Hd].
  fold w1 in Ho, Hd. destruct w1 as [d1 e1]. cbn [env db] in *. subst e1.
  unfold deleteProject. rewrite try_rethrow. unfold bind.
  rewrite request_served. unfold delete_project.
  destruct (existsb (has_project_id uuid) (projects d1)) eqn:Hex; cbn [fst snd ret].
  - change (mkDatabase _ _ _ _) with (others uuid d1).
    rewrite Ho. rewrite Hunknown. reflexivity.
  - destruct Hd as [-> | Hd]; [reflexivity | congruence].
Qed.

Lemma created_project_is_deleted_without_trace_witness :
  deleteProject "p2"
    (snd (handleCreateProject (Some "owner"%string) launch
            (mkWorld half_done (launch_served [Served "r4"]))))
  = (Ret tt, mkWorld half_done []).
Proof.
  apply (created_project_is_deleted_without_trace (Some "owner"%string) launch
           half_done "p2" "r4" _ []); reflexivity.
Defined.

Lemma team_rows_members uuid createdBy team :
  map (fun row : string * string * ProjectRole =>
         mkProjectMember (snd (fst row)) (snd row))
    (team_rows uuid createdBy team)
  = mkProjectMember createdBy Owner
    :: map (fun userId => mkProjectMember userId Member) team.
Proof. unfold team_rows; simpl. rewrite map_map. reflexivity. Qed.

Lemma keyed_team_keys b uuid createdBy team :
  map member_key (keyed_members b 0 (team_rows uuid createdBy team))
  = map (fun u => (uuid, u)) (createdBy :: team).
Proof. rewrite keyed_members_keys. apply team_rows_keys. Qed.

Lemma team_is_inserted uuid b createdBy team d :
  unknown_project uuid d ->
  (forall k m, In m (project_members d) -> m_id m <> batch_id b k) ->
  NoDup (createdBy :: team) ->
  add_members (project_members d) (keyed_members b 0 (team_rows uuid createdBy team))
  = Some (project_members d ++ keyed_members b 0 (team_rows uuid createdBy team)).
Proof.
  intros Hunknown Hids Hnd.
  destruct (unknown_project_rows uuid d Hunknown) as (_ & Hmem & _).
  apply add_members_fresh.
  - rewrite keyed_members_ids. apply NoDup_batch_ids.
  - rewrite keyed_team_keys. apply NoDup_map_injective; [| exact Hnd].
    intros x y E. injection E as E. exact E.
  - intros m Hm. split.
    + rewrite keyed_members_ids. intros Hin. apply in_map_iff in Hin.
      destruct Hin as (k & E & _). apply (Hids k m Hm). symmetry. exact E.
    + rewrite keyed_team_keys. intros Hin. apply in_map_iff in Hin.
      destruct Hin as (u & E & _). unfold member_key in E. injection E as E _.
      apply (Hmem m Hm). symmetry. exact E.
Qed.

(** The run of [createProject] when its three requests are served. *)
Lemma createProject_served_run :
  forall (name descr templateType createdBy : string) (team : list string)
         (d : Database) (uuid b r : string) (e : list Outcome),
    unknown_project uuid d ->
    (forall k m, In m (project_members d) -> m_id m <> batch_id b k) ->
    NoDup (createdBy :: team) ->
    createProject name descr templateType createdBy team
      (mkWorld d (Served uuid :: Served b :: Served r :: e))
    = (Ret (mkProjectObject uuid name descr templateType (Some 0)
              (mkProjectMember createdBy Owner
               :: map (fun userId => mkProjectMember userId Member) team)
              [] []),
       mkWorld
         (with_members
            (with_projects d (projects d ++ [mkProject uuid (Some 0)]))
            (project_members d
             ++ keyed_members b 0 (team_rows uuid createdBy team)))
         e).
Proof.
  intros name descr templateType createdBy team d uuid b r e Hunknown Hids Hnd.
  destruct (unknown_project_rows uuid d Hunknown) as (Hfresh & Hmem & _).
  rewrite (createProject_run _ _ _ _ _ _ _ _ Hfresh). cbv zeta.
  rewrite (team_is_inserted uuid b createdBy team d Hunknown Hids Hnd).
  unfold dbToProject, bind. rewrite request_served.
  unfold reading, select_team, ret.
  cbn [fst snd data_of pf_id pf_name pf_description pf_template_type
       pf_progress project_members with_members with_projects].
  rewrite filter_app.
  rewrite (filter_drop_all _ (project_members d)).
  2:{ intros m Hm. apply String.eqb_neq. apply Hmem, Hm. }
  rewrite filter_keep_all.
  2:{ intros m Hm.
      pose proof (keyed_members_project b uuid _
                    (team_rows_project uuid createdBy team) 0) as Hall.
      rewrite Forall_forall in Hall. rewrite (Hall m Hm).
      apply String.eqb_refl. }
  cbn [app]. rewrite keyed_members_team, team_rows_members. reflexivity.
Qed.

(** X17: [createProject], when its requests are served, stores the project
    with the progress 0, the creator as its Owner and every listed user as
    a Member, and returns the project with exactly this team, no task and
    no milestone.  When only the last request, the read of the team, is
    refused, the same rows are stored and the project is still returned,
    but with an empty team.  This needs the listed users to be distinct and
    different from the creator; the identifiers that the backend hands out
    are assumed unused. *)
Theorem createProject_stores_owner_and_members :
  forall (name descr templateType createdBy : string) (team : list string)
         (d : Database) (uuid b : string) (e : list Outcome),
    unknown_project uuid d ->
    (forall k m, In m (project_members d) -> m_id m <> batch_id b k) ->
    NoDup (createdBy :: team) ->
    let stored :=
      with_members
        (with_projects d (projects d ++ [mkProject uuid (Some 0)]))
        (project_members d ++ keyed_members b 0 (team_rows uuid createdBy team)) in
    (forall r,
        createProject name descr templateType createdBy team
          (mkWorld d (Served uuid :: Served b :: Served r :: e))
        = (Ret (mkProjectObject uuid name descr templateType (Some 0)
                  (mkProjectMember createdBy Owner
                   :: map (fun userId => mkProjectMember userId Member) team)
                  [] []),
           mkWorld stored e))
    /\ createProject name descr templateType createdBy team
         (mkWorld d (Served uuid :: Served b :: Refused :: e))
       = (Ret (mkProjectObject uuid name descr templateType (Some 0) [] [] []),
          mkWorld stored e).
Proof.
  intros name descr templateType createdBy team d uuid b e Hunknown Hids Hnd stored.
  split.
  - intros r. apply createProject_served_run; assumption.
  - destruct (unknown_project_rows uuid d Hunknown) as (Hfresh & _).
    rewrite (createProject_run _ _ _ _ _ _ _ _ Hfresh). cbv zeta.
    rewrite (team_is_inserted uuid b createdBy team d Hunknown Hids Hnd).
    reflexivity.
Qed.

Lemma createProject_stores_owner_and_members_witness :
  createProject "Launch" "The launch" "Marketing" "owner" ["u2"; "u3"]%string
    (mkWorld half_done [Served "p2"; Served "b1"; Served "r1"])
  = (Ret (mkProjectObject "p2" "Launch" "The launch" "Marketing" (Some 0)
            [mkProjectMember "owner" Owner; mkProjectMember "u2" Member;
             mkProjectMember "u3" Member] [] []),
     mkWorld
       (mkDatabase [mkProject "p1" (Some 50); mkProject "p2" (Some 0)]
          [mkMember "m1" "p1" "owner" Owner; mkMember "b1#0" "p2" "owner" Owner;
           mkMember "b1#1" "p2" "u2" Member; mkMember "b1#2" "p2" "u3" Member]
          (tasks half_done) [])
       []).
Proof.
  refine (proj1 (createProject_stores_owner_and_members "Launch" "The launch"
                   "Marketing" "owner" ["u2"; "u3"]%string half_done "p2" "b1" []
                   _ _ _) "r1"%string).
  - reflexivity.
  - intros k m [<- | []]. unfold batch_id. simpl. discriminate.
  - repeat constructor; simpl; intuition discriminate.
Defined.

(** X18: [createProject] does not undo the project when the team cannot be
    stored.  When the list of team members names a user twice, or names
    the creator, the insert of the team fails on the unique key of
    [project_members]; [createProject] then throws that error and leaves
    the new project in the database without any member, its creator
    included. *)
Theorem createProject_repeated_user_leaves_project_without_members :
  forall (name descr templateType createdBy : string) (team : list string)
         (d : Database) (uuid b : string) (e : list Outcome),
    existsb (has_project_id uuid) (projects d) = false ->
    ~ NoDup (createdBy :: team) ->
    createProject name descr templateType createdBy team
      (mkWorld d (Served uuid :: Served b :: e))
    = (Throw (PostgrestError "23505"),
       mkWorld (with_projects d (projects d ++ [mkProject uuid (Some 0)])) e).
Proof.
  intros name descr templateType createdBy team d uuid b e Hfresh Hdup.
  rewrite (createProject_run _ _ _ _ _ _ _ _ Hfresh). cbv zeta.
  destruct (add_members _ _) as [table |] eqn:Hadd; [| reflexivity].
  exfalso. apply Hdup.
  destruct (add_members_distinct _ _ _ Hadd) as [Hnd _].
  rewrite keyed_team_keys in Hnd. apply NoDup_map_inv in Hnd. exact Hnd.
Qed.

Lemma createProject_repeated_user_leaves_project_without_members_witness :
  createProject "Launch" "The launch" "Marketing" "owner" ["u2"; "owner"]%string
    (mkWorld half_done [Served "p2"; Served "b1"])
  = (Throw (PostgrestError "23505"),
     mkWorld (with_projects half_done [mkProject "p1" (Some 50); mkProject "p2" (Some 0)])
       []).
Proof.
  apply (createProject_repeated_user_leaves_project_without_members
           "Launch" "The launch" "Marketing" "owner" ["u2"; "owner"]%string
           half_done "p2" "b1" []).
  - reflexivity.
  - intros H. inversion H as [| ? ? Hnotin _]. apply Hnotin. simpl. tauto.
Defined.

(** * The tasks of a new project *)

Lemma top_position_one ps :
  (ps = [] /\ top_position ps = []) \/ exists q, top_position ps = [q].
Proof.
  destruct ps as [| p rest]; [left; auto | right]. cbn [top_position].
  destruct (top_position rest) as [| q ?]; [eauto |].
  destruct (before_desc q p); eauto.
Qed.

Lemma top_position_snoc ps :
  forall m x, top_position ps = [Some m] -> m < x ->
              top_position (ps ++ [Some x]) = [Some x].
Proof.
  induction ps as [| p rest IH]; intros m x Htop Hlt; [discriminate |].
  cbn [app top_position] in *.
  destruct (top_position_one rest) as [[-> _] | [q Hq]].
  - cbn [app top_position] in *. injection Htop as ->.
    cbn [before_desc]. destruct (Z.ltb_spec m x); [reflexivity | lia].
  - rewrite Hq in Htop.
    assert (Hm : exists m' y, q = Some m' /\ p = Some y /\ m' <= m /\ y <= m).
    { destruct q as [m' |], p as [y |]; cbn [before_desc] in Htop;
        try discriminate.
      exists m', y. destruct (Z.ltb_spec y m'); injection Htop as <-;
        repeat split; lia. }
    destruct Hm as (m' & y & -> & -> & Hm' & Hy).
    rewrite (IH m' x Hq) by lia.
    cbn [before_desc]. destruct (Z.ltb_spec y x); [reflexivity | lia].
Qed.

Lemma with_tasks_twice d ts ts' : with_tasks (with_tasks d ts) ts' = with_tasks d ts'.
Proof. reflexivity. Qed.

(** The positions of the tasks of the project: none, or the highest is [k]. *)
Lemma createTasks_run uuid taskList :
  forall (keys : list (string * string)) (d : Database) (k : nat) (e : list Outcome),
    let positions d := map t_position (filter (of_project uuid) (tasks d)) in
    List.length keys = List.length taskList ->
    Z.of_nat k + Z.of_nat (List.length taskList) <= 2147483647 ->
    NoDup (map snd keys) ->
    (forall key, In key (map snd keys) -> existsb (has_task_id key) (tasks d) = false) ->
    (k = 0%nat /\ positions d = []) \/ top_position (positions d) = [Some (Z.of_nat k)] ->
    createTasks uuid taskList (mkWorld d (serving_tasks keys e))
    = (Ret tt,
       mkWorld (with_tasks d (tasks d ++ created_rows uuid k taskList keys)) e).
Proof.
  induction taskList as [| task rest IH];
    intros keys d k e positions Hlen Hmax Hnd Hfresh Htop.
  - destruct keys; [| discriminate]. simpl.
    rewrite app_nil_r, with_tasks_same. reflexivity.
  - destruct keys as [| [lookup key] keys]; [discriminate |].
    cbn [createTasks serving_tasks created_rows]. unfold bind at 1.
    rewrite (createTask_run uuid (taskDataOf task) d (Served lookup) key)
      by (discriminate || (apply Hfresh; left; reflexivity)).
    assert (Hpos : highest_seen (Served lookup) uuid d + 1 = Z.of_nat k + 1).
    { unfold highest_seen, select_max_position. fold (positions d).
      destruct Htop as [[-> ->] | ->]; [reflexivity |].
      cbn [single data_of]. rewrite or_zero_Some. reflexivity. }
    rewrite Hpos.
    assert (Hin : integer_check (Z.of_nat k + 1) = true).
    { apply integer_check_range. cbn [List.length] in Hmax. lia. }
    rewrite Hin.
    change (inserted_row uuid (taskDataOf task) key (Z.of_nat k + 1))
      with (mkTask key uuid (milestoneId task) (title task) (description task)
              (status task) (priority task) (assigneeId task) (dueDate task)
              (Some (Z.of_nat k + 1))).
    set (row := mkTask key uuid (milestoneId task) (title task) (description task)
                  (status task) (priority task) (assigneeId task) (dueDate task)
                  (Some (Z.of_nat k + 1))).
    inversion Hnd as [| ? ? Hnotin Hnd']; subst.
    rewrite (IH keys (with_tasks d (tasks d ++ [row])) (S k) e).
    + rewrite with_tasks_twice. cbn [tasks with_tasks].
      rewrite <- app_assoc. reflexivity.
    + simpl in Hlen. lia.
    + cbn [List.length] in Hmax. lia.
    + exact Hnd'.
    + intros key' Hin'. cbn [tasks with_tasks]. rewrite existsb_snoc.
      rewrite (Hfresh key') by (right; exact Hin').
      unfold has_task_id; simpl. apply String.eqb_neq.
      intros ->. contradiction.
    + right. cbn [tasks with_tasks]. rewrite filter_app, map_app.
      cbn [filter]. unfold of_project at 2. cbn [t_project_id row].
      rewrite String.eqb_refl. cbn [map t_position row].
      fold (positions d).
      destruct Htop as [[-> ->] | Htop].
      * reflexivity.
      * rewrite (top_position_snoc _ (Z.of_nat k) (Z.of_nat k + 1) Htop) by lia.
        do 2 f_equal. lia.
Qed.

(** X20: the wizard stores the suggested tasks in their order.  When every
    request of [handleCreateProject] is served, the database holds the new
    project with the progress 0, its owner and its members, and one task
    per suggested task, in the order of the list, with the positions 1, 2,
    3, ... and the status, the priority and the due date of the suggestion;
    the progress stays 0 also when a suggested task is completed.  The
    signed-in user and the chosen team are assumed distinct, and the
    identifiers that the backend hands out unused and distinct; the number
    of suggested tasks is at most 2147483647, the last position that the
    column can hold. *)
Theorem handleCreateProject_stores_tasks_in_order :
  forall (userId : string) (data : WizardData) (d : Database)
         (uuid b r : string) (keys : list (string * string)) (e : list Outcome),
    unknown_project uuid d ->
    (forall k m, In m (project_members d) -> m_id m <> batch_id b k) ->
    NoDup (userId :: wd_selectedTeamIds data) ->
    List.length keys = List.length (wd_suggestedTasks data) ->
    Z.of_nat (List.length (wd_suggestedTasks data)) <= 2147483647 ->
    NoDup (map snd keys) ->
    (forall key, In key (map snd keys) -> existsb (has_task_id key) (tasks d) = false) ->
    handleCreateProject (Some userId) data
      (mkWorld d (Served uuid :: Served b :: Served r :: serving_tasks keys e))
    = (Ret tt,
       mkWorld
         (mkDatabase
            (projects d ++ [mkProject uuid (Some 0)])
            (project_members d
             ++ keyed_members b 0 (team_rows uuid userId (wd_selectedTeamIds data)))
            (tasks d ++ created_rows uuid 0 (wd_suggestedTasks data) keys)
            (project_invitations d))
         e).
Proof.
  intros userId data d uuid b r keys e Hunknown Hids Hteam Hlen Hmax Hnd Hfresh.
  unfold handleCreateProject, try_catch. unfold bind at 1.
  rewrite (createProject_served_run _ _ _ _ _ _ _ _ _ _ Hunknown Hids Hteam).
  cbn [pj_id].
  rewrite (createTasks_run uuid (wd_suggestedTasks data) keys _ 0 e Hlen).
  - reflexivity.
  - simpl. exact Hmax.
  - exact Hnd.
  - exact Hfresh.
  - left. split; [reflexivity |]. cbn [tasks with_members with_projects].
    rewrite (proj2 (proj2 (unknown_project_rows uuid d Hunknown))). reflexivity.
Qed.

Lemma handleCreateProject_stores_tasks_in_order_witness :
  handleCreateProject (Some "owner"%string) launch
    (mkWorld half_done (launch_served []))
  = (Ret tt,
     mkWorld
       (mkDatabase [mkProject "p1" (Some 50); mkProject "p2" (Some 0)]
          [mkMember "m1" "p1" "owner" Owner; mkMember "b1#0" "p2" "owner" Owner;
           mkMember "b1#1" "p2" "u2" Member]
          [example_task "t1" COMPLETED; example_task "t2" TODO;
           mkTask "t3" "p2" None "Initial Project Setup" None TODO HIGH None
             (Some "2026-01-01"%string) (Some 1);
           mkTask "t4" "p2" None "Research & Analysis" None COMPLETED MEDIUM None
             None (Some 2)]
          [])
       []).
Proof.
  apply (handleCreateProject_stores_tasks_in_order "owner" launch half_done
           "p2" "b1" "r1" [("r2", "t3"); ("r3", "t4")]%string []).
  - reflexivity.
  - intros k m [<- | []]. unfold batch_id. simpl. discriminate.
  - repeat constructor; simpl; intuition discriminate.
  - reflexivity.
  - simpl. lia.
  - repeat constructor; simpl; intuition discriminate.
  - simpl. intros key [<- | [<- | []]]; reflexivity.
Defined.

(** * Editing a project *)

Lemma update_project_frame u projectId uuid d :
  let d' := snd (update_project u projectId uuid d) in
  project_members d' = project_members d /\ tasks d' = tasks d
  /\ project_invitations d' = project_invitations d
  /\ map p_id (projects d') = map p_id (projects d).
Proof.
  unfold update_project. destruct (upd_progress u) as [v |]; [| simpl; auto].
  destruct (_ && _); cbn [snd]; [auto |].
  cbn [project_members tasks project_invitations projects with_projects].
  repeat split. apply map_key_kept. intros p.
  destruct (has_project_id projectId p); reflexivity.
Qed.

(** X19: the team that the edit form sends is not stored.
    [handleEditProject] passes its updates to [updateProject], which reads
    the name, the description and the progress only: whatever the updates
    are and whatever the backend does, the handler returns normally, and
    the memberships, the tasks and the invitations are the same rows as
    before; no project is added or removed. *)
Theorem handleEditProject_keeps_team :
  forall (projectId : string) (updates : PartialProject) (w : World),
    let r := handleEditProject projectId updates w in
    fst r = Ret tt
    /\ project_members (db (snd r)) = project_members (db w)
    /\ tasks (db (snd r)) = tasks (db w)
    /\ project_invitations (db (snd r)) = project_invitations (db w)
    /\ map p_id (projects (db (snd r))) = map p_id (projects (db w)).
Proof.
  intros projectId updates [d e]. cbv zeta.
  unfold handleEditProject, updateProject, try_catch, bind, request, throw, ret.
  cbn [env db].
  destruct e as [| [uuid | |] e]; cbn [fst snd db]; auto.
  pose proof (update_project_frame
                (mkProjectUpdates (pp_name updates) (pp_description updates)
                   (pp_progress updates)) projectId uuid d) as H.
  cbv zeta in H.
  destruct (update_project _ projectId uuid d) as [[[] | err] d'];
    cbn [fst snd db] in *; auto.
Qed.

(** * The tasks that the generator returns *)

Lemma generated_id_inj now i j : generated_id now i = generated_id now j -> i = j.
Proof.
  unfold generated_id. intros H.
  apply append_cancel in H. apply append_cancel in H.
  simpl in H. injection H as H. apply digits_inj, H.
Qed.

Lemma toTask_shape now t index task :
  Gemini.toTask now t index = Some task ->
  Gemini.id task = generated_id now index /\ presentable task.
Proof.
  unfold Gemini.toTask, presentable.
  destruct (Gemini.property t "title") as [ttl |]; [| discriminate].
  destruct (Gemini.property t "priority") as [prio |]; [| discriminate].
  intros H. injection H as <-.
  cbn [Gemini.id Gemini.dueDate Gemini.title Gemini.status Gemini.comments].
  split; [reflexivity |].
  repeat split. destruct ttl as [v |]; [| reflexivity].
  destruct (Gemini.truthy v) eqn:Hv; [exact Hv | reflexivity].
Qed.

Lemma mapTasks_shape now items :
  forall index tasks,
    Gemini.mapTasks now items index = Some tasks ->
    List.length tasks = List.length items
    /\ forall n task,
         nth_error tasks n = Some task ->
         Gemini.id task = generated_id now (index + Z.of_nat n)
         /\ presentable task.
Proof.
  induction items as [| t items IH]; intros index tasks H; simpl in H.
  - injection H as <-. split; [reflexivity |]. intros [| n] task Hn; discriminate.
  - destruct (Gemini.toTask now t index) as [task0 |] eqn:Ht; [| discriminate].
    destruct (Gemini.mapTasks now items (index + 1)) as [rest |] eqn:Hrest;
      [| discriminate].
    injection H as <-. destruct (IH _ _ Hrest) as [Hlen Hnth].
    split; [simpl; congruence |].
    intros [| n] task Hn; simpl in Hn.
    + injection Hn as <-. rewrite Z.add_0_r. apply (toTask_shape _ _ _ _ Ht).
    + replace (index + Z.of_nat (S n)) with (index + 1 + Z.of_nat n) by lia.
      apply (Hnth n task Hn).
Qed.

Lemma attemptOnce_shape now r tasks :
  Gemini.attemptOnce now r = Some tasks ->
  tasks <> []
  /\ forall n task,
       nth_error tasks n = Some task ->
       Gemini.id task = generated_id now (Z.of_nat n)
       /\ presentable task.
Proof.
  destruct r as [| | | v]; try discriminate.
  destruct v as [| ? | ? | ? | items | ?]; try discriminate.
  destruct items as [| t items]; [discriminate |].
  intros H. change (Gemini.mapTasks now (t :: items) 0 = Some tasks) in H.
  destruct (mapTasks_shape now (t :: items) 0 tasks H) as [Hlen Hnth].
  split; [intros ->; discriminate | exact Hnth].
Qed.

(** The list returned is the fallback, or was built from an answer. *)
Lemma generateProjectTasks_cases apiKey api now fuel desc type :
  (3 <= fuel)%nat ->
  exists tasks trace,
    Gemini.generateProjectTasks apiKey api now fuel desc type = Some (tasks, trace)
    /\ ((tasks = Gemini.simulateAiResponse now desc
         /\ (~ configured apiKey \/ forall k, 0 <= k < 3 -> rejected (api k)))
        \/ (configured apiKey
            /\ exists k, 0 <= k < 3
                         /\ Gemini.attemptOnce now (api k) = Some tasks)).
Proof.
  intros Hfuel. destruct (fuel_split fuel Hfuel) as (n & ->).
  unfold Gemini.generateProjectTasks.
  destruct apiKey as [[| c s] |];
    try (do 2 eexists; split; [reflexivity |]; left; split; [reflexivity |];
         left; intros (c' & s' & H); discriminate).
  assert (Hc : configured (Some (String c s))) by (exists c, s; reflexivity).
  rewrite retryLoop_unrolled.
  destruct (Gemini.attemptOnce now (api 0)) eqn:H0;
    [do 2 eexists; split; [reflexivity |]; right; split; [exact Hc |];
     exists 0; split; [lia | exact H0] |].
  destruct (Gemini.attemptOnce now (api 1)) eqn:H1;
    [do 2 eexists; split; [reflexivity |]; right; split; [exact Hc |];
     exists 1; split; [lia | exact H1] |].
  destruct (Gemini.attemptOnce now (api 2)) eqn:H2;
    do 2 eexists; (split; [reflexivity |]).
  - right. split; [exact Hc |]. exists 2. split; [lia | exact H2].
  - left. split; [reflexivity |]. right. intros k Hk.
    assert (E : k = 0 \/ k = 1 \/ k = 2) by lia.
    destruct E as [-> | [-> | ->]]; apply (attemptOnce_rejected now); assumption.
Qed.

Lemma NoDup_nth_error {A} (l : list A) :
  (forall i j a, nth_error l i = Some a -> nth_error l j = Some a -> i = j) ->
  NoDup l.
Proof.
  induction l as [| a l IH]; intros H; constructor.
  - intros Hin. apply In_nth_error in Hin. destruct Hin as [n Hn].
    specialize (H 0%nat (S n) a eq_refl Hn). discriminate.
  - apply IH. intros i j b Hi Hj.
    specialize (H (S i) (S j) b Hi Hj). lia.
Qed.

(** X21: whatever the credential and whatever the service answers, the
    list that [generateProjectTasks] returns is never empty, its tasks have
    pairwise distinct identifiers, and each of them has a title that is not
    falsy, the status Todo and no comment. *)
Theorem generateProjectTasks_returns_presentable_tasks :
  forall (apiKey : option string) (api : Z -> Gemini.Response) (now : Z)
         (fuel : nat) (desc type : string),
    (3 <= fuel)%nat ->
    exists tasks trace,
      Gemini.generateProjectTasks apiKey api now fuel desc type = Some (tasks, trace)
      /\ tasks <> []
      /\ NoDup (map Gemini.id tasks)
      /\ Forall presentable tasks.
Proof.
  intros apiKey api now fuel desc type Hfuel.
  destruct (generateProjectTasks_cases apiKey api now fuel desc type Hfuel)
    as (tasks & trace & Hrun & Hcase).
  exists tasks, trace. split; [exact Hrun |].
  destruct Hcase as [[-> _] | (_ & k & _ & Hk)].
  - split; [discriminate |]. split.
    + simpl. repeat constructor; simpl; intuition discriminate.
    + unfold presentable. repeat constructor.
  - destruct (attemptOnce_shape now (api k) tasks Hk) as [Hne Hnth].
    split; [exact Hne |]. split.
    + apply NoDup_nth_error. intros i j a Hi Hj.
      rewrite nth_error_map in Hi, Hj.
      destruct (nth_error tasks i) as [ti |] eqn:Hti; [| discriminate].
      destruct (nth_error tasks j) as [tj |] eqn:Htj; [| discriminate].
      simpl in Hi, Hj. injection Hi as Hi. injection Hj as Hj.
      destruct (Hnth i ti Hti) as (Ei & _). destruct (Hnth j tj Htj) as (Ej & _).
      assert (E : generated_id now (Z.of_nat i) = generated_id now (Z.of_nat j))
        by congruence.
      apply generated_id_inj in E. lia.
    + apply Forall_forall. intros task Hin.
      apply In_nth_error in Hin. destruct Hin as [n Hn].
      apply (Hnth n task Hn).
Qed.

Lemma generateProjectTasks_returns_presentable_tasks_witness :
  exists tasks trace,
    Gemini.generateProjectTasks (Some "key"%string) six_tasks_on_retry 0 3 "d" "t"
    = Some (tasks, trace)
    /\ tasks <> []
    /\ NoDup (map Gemini.id tasks)
    /\ Forall presentable tasks.
Proof.
  apply (generateProjectTasks_returns_presentable_tasks (Some "key"%string)
           six_tasks_on_retry 0 3 "d" "t").
  lia.
Defined.


(** * The team selection of the wizard *)

Lemma includes_false selected userId :
  includes selected userId = false -> ~ In userId selected.
Proof.
  unfold includes. intros H Hin.
  assert (existsb (String.eqb userId) selected = true).
  { apply existsb_exists. exists userId. split; [exact Hin | apply String.eqb_refl]. }
  congruence.
Qed.

Lemma NoDup_snoc {A} (l : list A) (x : A) : NoDup l -> ~ In x l -> NoDup (l ++ [x]).
Proof.
  intros Hnd Hx. rewrite <- (map_id (l ++ [x])).
  apply NoDup_map_snoc; rewrite map_id; assumption.
Qed.

Lemma team_step_valid (P : string -> Prop) selected ev :
  NoDup selected -> Forall P selected ->
  (forall userId, event_user ev = Some userId -> P userId) ->
  NoDup (team_step selected ev) /\ Forall P (team_step selected ev).
Proof.
  intros Hnd Hall Hev. destruct ev as [userId | [userId |]]; simpl.
  - unfold clickUser. destruct (includes selected userId) eqn:Hin.
    + split; [apply NoDup_filter, Hnd | apply Forall_filter, Hall].
    + split; [apply NoDup_snoc; [exact Hnd | apply includes_false, Hin] |].
      apply Forall_app. split; [exact Hall |]. constructor; [| constructor].
      apply Hev. reflexivity.
  - destruct (includes selected userId) eqn:Hin; simpl; [auto |].
    split; [apply NoDup_snoc; [exact Hnd | apply includes_false, Hin] |].
    apply Forall_app. split; [exact Hall |]. constructor; [| constructor].
    apply Hev. reflexivity.
  - auto.
Qed.

(** X23: the team that the wizard hands over can be stored.  Whatever the
    user clicks and invites on the team step, among the users that [App]
    offers (all users but the signed-in one), the selection never names a
    user twice and never names the signed-in user: the list of the creator
    followed by the selection has no duplicate, which is what the insert of
    the team in [createProject] needs. *)
Theorem wizard_selection_is_a_valid_team :
  forall (users : list string) (currentUser : string) (events : list TeamEvent),
    (forall ev userId,
        In ev events -> event_user ev = Some userId ->
        In userId (availableUsers users currentUser)) ->
    NoDup (currentUser :: team_selection events).
Proof.
  intros users currentUser events Hev.
  assert (H : NoDup (team_selection events)
              /\ Forall (fun u => u <> currentUser) (team_selection events)).
  { unfold team_selection.
    assert (Hgen : forall selected,
               NoDup selected -> Forall (fun u => u <> currentUser) selected ->
               NoDup (fold_left team_step events selected)
               /\ Forall (fun u => u <> currentUser)
                    (fold_left team_step events selected)).
    { induction events as [| ev events IH]; intros selected Hnd Hall; simpl; [auto |].
      destruct (team_step_valid (fun u => u <> currentUser) selected ev Hnd Hall)
        as [Hnd' Hall'].
      - intros userId Hu.
        specialize (Hev ev userId (or_introl eq_refl) Hu).
        unfold availableUsers in Hev. apply filter_In in Hev.
        destruct Hev as [_ Hne]. apply negb_true_iff, String.eqb_neq in Hne.
        exact Hne.
      - apply IH; [| assumption | assumption].
        intros ev' userId Hin. apply Hev. right. exact Hin. }
    apply Hgen; constructor. }
  destruct H as [Hnd Hall]. constructor; [| exact Hnd].
  intros Hin. rewrite Forall_forall in Hall. exact (Hall currentUser Hin eq_refl).
Qed.

Lemma wizard_selection_is_a_valid_team_witness :
  NoDup ("owner"%string
         :: team_selection [ClickUser "u2"; Invite (Some "u3"%string);
                            ClickUser "u2"; Invite (Some "u3"%string);
                            ClickUser "u2"]).
Proof.
  apply (wizard_selection_is_a_valid_team ["owner"; "u2"; "u3"]%string "owner").
  intros ev userId Hin Hu. simpl in Hin.
  repeat (destruct Hin as [<- | Hin]; [injection Hu as <-; simpl; tauto |]).
  contradiction.
Defined.
